(** * Humane Tracker CLI: the data queries and the habit merge

    A shallow embedding of [humane_cli.py]: the [HumaneData] class with its
    constructor, its five query methods and [merge_habits]; the module-level
    helper [find_habits_by_name]; the rows that the three data screens hand
    to their tables; the command [list]; the steps of the command [merge]
    around its call of [merge_habits]; and what [main] makes of the argument
    list.

    Left out is what the program only passes on to the libraries and to the
    file system: the widgets and key bindings of the screens, the questions
    of the command [merge] and the writing of its output, [load_data] and
    [get_default_backup_path].

    The program works on the document that [json.load] returns, a dynamically
    typed tree, and reports failures as Python exceptions.  Both are kept:
    values are the type [json] below, and every operation that can raise in
    Python returns a [result].

    The builtins [str], [str.lower], [str.upper] and [str.capitalize] are
    parameters of the definitions that call them.

    Two restrictions of the value universe:
    - numbers are integers ([int]); a JSON document holding a [float] is
      outside the model;
    - a character of a [str] is one [ascii], read as the code point of the
      same number, so strings range over the code points below 256. *)

From Stdlib Require Import ZArith String Ascii List.
From Stdlib Require OrderedTypeEx.
From stdpp Require Import base tactics option list gmap strings sorting pretty.

Local Open Scope Z_scope.
#[local] Set Warnings "-register-all".

(** * The Python layer *)

Module Py.

(** ** Exceptions *)

(** The exception classes the modelled code can raise; [DuplicateKey] is
    the refusal of the table of a screen. *)
Inductive exn : Set :=
| KeyError
| TypeError
| AttributeError
| ValueError
| OSError
| DuplicateKey.

Inductive result (A : Type) : Type :=
| Ok (a : A)
| Raise (e : exn).
Arguments Ok {A} a.
Arguments Raise {A} e.

#[global] Instance result_ret : MRet result := @Ok.
#[global] Instance result_bind : MBind result :=
  λ A B f m, match m with Ok a => f a | Raise e => Raise e end.

#[global] Instance result_fmap : FMap result :=
  λ A B f m, match m with Ok a => Ok (f a) | Raise e => Raise e end.

#[global] Instance exn_eq_dec : EqDecision exn.
Proof. solve_decision. Defined.

(** ** Values *)

(** What [json.load] produces.  A [dict] is kept as the list of its items in
    insertion order; its keys are strings and pairwise distinct. *)
Inductive json : Type :=
| JNull
| JBool (b : bool)
| JNum (n : Z)
| JStr (s : string)
| JArr (items : list json)
| JObj (fields : list (string * json)).

(** [d.get(k)] on the items of a dict, [None] standing for a missing key. *)
Fixpoint dict_get (k : string) (d : list (string * json)) : option json :=
  match d with
  | [] => None
  | (k', v) :: d' => if decide (k = k') then Some v else dict_get k d'
  end.

(** [d[k] = v]: an existing key keeps its position, a new key goes last. *)
Fixpoint dict_set (k : string) (v : json) (d : list (string * json))
  : list (string * json) :=
  match d with
  | [] => [(k, v)]
  | (k', v') :: d' =>
      if decide (k = k') then (k', v) :: d' else (k', v') :: dict_set k v d'
  end.

(** [o.get(k, default)]: only a dict has the method. *)
Definition py_get (o : json) (k : string) (dflt : json) : result json :=
  match o with
  | JObj d => Ok (default dflt (dict_get k d))
  | _ => Raise AttributeError
  end.

(** [o[k]] with a string [k]: [KeyError] on a dict without the key; a list or
    a string refuses a string index, the other values are not subscriptable. *)
Definition py_getitem (o : json) (k : string) : result json :=
  match o with
  | JObj d =>
      match dict_get k d with
      | Some v => Ok v
      | None => Raise KeyError
      end
  | _ => Raise TypeError
  end.

(** [for x in o]: a list yields its items, a dict its keys, a string its
    characters; nothing else is iterable. *)
Definition py_iter (o : json) : result (list json) :=
  match o with
  | JArr l => Ok l
  | JObj d => Ok (map (λ kv, JStr kv.1) d)
  | JStr s => Ok (map (λ c, JStr (String c EmptyString)) (list_ascii_of_string s))
  | _ => Raise TypeError
  end.

(** Truth value of [if o]. *)
Definition py_truthy (o : json) : bool :=
  match o with
  | JNull => false
  | JBool b => b
  | JNum n => negb (n =? 0)
  | JStr s => negb (bool_decide (s = EmptyString))
  | JArr l => negb (bool_decide (length l = 0%nat))
  | JObj d => negb (bool_decide (length d = 0%nat))
  end.

(** [bool] is a subclass of [int]: [True] counts as 1 and [False] as 0. *)
Definition num_of (o : json) : option Z :=
  match o with
  | JNum n => Some n
  | JBool b => Some (if b then 1 else 0)
  | _ => None
  end.

(** [a == b]; it never raises.  Dicts are equal when they have the same keys
    with equal values, whatever the order of insertion. *)
Fixpoint py_eq (a b : json) {struct a} : bool :=
  match a, b with
  | JNull, JNull => true
  | JStr s, JStr t => bool_decide (s = t)
  | JArr l1, JArr l2 =>
      (fix go (l1 l2 : list json) {struct l1} : bool :=
         match l1, l2 with
         | [], [] => true
         | x :: l1', y :: l2' => py_eq x y && go l1' l2'
         | _, _ => false
         end) l1 l2
  | JObj d1, JObj d2 =>
      bool_decide (length d1 = length d2) &&
      (fix go (d : list (string * json)) {struct d} : bool :=
         match d with
         | [] => true
         | (k, v) :: d' =>
             match dict_get k d2 with
             | Some w => py_eq v w
             | None => false
             end && go d'
         end) d1
  | (JBool _ | JNum _), (JBool _ | JNum _) =>
      bool_decide (num_of a = num_of b)
  | _, _ => false
  end.

(** [a < b] and [a > b]: numbers by value, strings by code points, lists
    lexicographically (the first pair of unequal items decides, then the
    lengths); every other pairing raises [TypeError]. *)
Fixpoint py_lt (a b : json) {struct a} : result bool :=
  match a, b with
  | JStr s, JStr t => Ok (String.ltb s t)
  | JArr l1, JArr l2 =>
      (fix go (l1 l2 : list json) {struct l1} : result bool :=
         match l1, l2 with
         | [], [] => Ok false
         | [], _ :: _ => Ok true
         | _ :: _, [] => Ok false
         | x :: l1', y :: l2' => if py_eq x y then go l1' l2' else py_lt x y
         end) l1 l2
  | (JBool _ | JNum _), (JBool _ | JNum _) =>
      Ok (default 0 (num_of a) <? default 0 (num_of b))
  | _, _ => Raise TypeError
  end.

Fixpoint py_gt (a b : json) {struct a} : result bool :=
  match a, b with
  | JStr s, JStr t => Ok (String.ltb t s)
  | JArr l1, JArr l2 =>
      (fix go (l1 l2 : list json) {struct l1} : result bool :=
         match l1, l2 with
         | [], _ => Ok false
         | _ :: _, [] => Ok true
         | x :: l1', y :: l2' => if py_eq x y then go l1' l2' else py_gt x y
         end) l1 l2
  | (JBool _ | JNum _), (JBool _ | JNum _) =>
      Ok (default 0 (num_of b) <? default 0 (num_of a))
  | _, _ => Raise TypeError
  end.

(** Lists and dicts are unhashable: they cannot be a dict key or be looked up
    in a set. *)
Definition py_hashable (o : json) : bool :=
  match o with
  | JArr _ | JObj _ => false
  | _ => true
  end.

(** [o in s] for a set [s] of strings: the value is hashed first. *)
Definition py_in_set (o : json) (s : gset string) : result bool :=
  match o with
  | JArr _ | JObj _ => Raise TypeError
  | JStr x => Ok (bool_decide (x ∈ s))
  | _ => Ok false
  end.

(** [o[:n]]: strings and lists can be sliced.  For a dict the slice is taken
    as a key, which Python 3.11 rejects as unhashable. *)
Definition py_slice_to (n : nat) (o : json) : result json :=
  match o with
  | JStr s => Ok (JStr (String.substring 0 n s))
  | JArr l => Ok (JArr (take n l))
  | _ => Raise TypeError
  end.

(** [o.lower()]: a method of [str] only; what it does to a string is the
    parameter [lower]. *)
Definition py_lower (lower : string → string) (o : json) : result string :=
  match o with
  | JStr s => Ok (lower s)
  | _ => Raise AttributeError
  end.

(** [p in s] on strings: [p] occurs in [s] as a contiguous run. *)
Fixpoint str_contains (p s : string) : bool :=
  String.prefix p s ||
  match s with
  | EmptyString => false
  | String _ s' => str_contains p s'
  end.

(** ** Dicts with computed keys *)

(** A dict whose keys are computed at run time ([h["id"]], a category, a
    date): the keys are hashable values compared with [==], so that [1] and
    [True] are one key.  Items are kept in insertion order. *)
Definition pydict (V : Type) : Type := list (json * V).

Fixpoint pd_get {V} (k : json) (d : pydict V) : option V :=
  match d with
  | [] => None
  | (k', v) :: d' => if py_eq k k' then Some v else pd_get k d'
  end.

(** [d[k] = v]; an existing item keeps its key object and its position. *)
Fixpoint pd_set {V} (k : json) (v : V) (d : pydict V) : pydict V :=
  match d with
  | [] => [(k, v)]
  | (k', v') :: d' =>
      if py_eq k k' then (k', v) :: d' else (k', v') :: pd_set k v d'
  end.

(** [d[k].append(x)] on a [defaultdict(list)]. *)
Fixpoint pd_append {V} (k : json) (x : V) (d : pydict (list V))
  : pydict (list V) :=
  match d with
  | [] => [(k, [x])]
  | (k', xs) :: d' =>
      if py_eq k k' then (k', xs ++ [x]) :: d' else (k', xs) :: pd_append k x d'
  end.

(** Using [k] as a key hashes it. *)
Definition py_key (k : json) : result json :=
  if py_hashable k then Ok k else Raise TypeError.

(** ** Loops and builtins *)

(** A [for] loop that threads an accumulator and stops at the first raise. *)
Fixpoint foldM {A S} (f : S → A → result S) (s : S) (l : list A) : result S :=
  match l with
  | [] => Ok s
  | x :: l' => s' ← f s x; foldM f s' l'
  end.

(** [[x for x in l if p(x)]] *)
Fixpoint filterM {A} (p : A → result bool) (l : list A) : result (list A) :=
  match l with
  | [] => Ok []
  | x :: l' =>
      b ← p x;
      r ← filterM p l';
      Ok (if b : bool then x :: r else r)
  end.

(** [[f(x) for x in l]] *)
Fixpoint forM {A B} (f : A → result B) (l : list A) : result (list B) :=
  match l with
  | [] => Ok []
  | x :: l' => y ← f x; r ← forM f l'; Ok (y :: r)
  end.

(** [max(l, key=key)]: one left-to-right scan; an item replaces the current
    best only when its key is strictly greater.  An empty [l] is a
    [ValueError]. *)
Definition py_max {A} (key : A → result json) (l : list A) : result A :=
  match l with
  | [] => Raise ValueError
  | x :: l' =>
      kx ← key x;
      best ← foldM (λ (best : A * json) (y : A),
                      ky ← key y;
                      g ← py_gt ky best.2;
                      Ok (if g : bool then (y, ky) else best))
                   (x, kx) l';
      Ok best.1
  end.

(** [sum(l)]: starts from the integer 0, and an integer only adds to a
    number. *)
Definition py_sum {A} (term : A → result json) (l : list A) : result Z :=
  foldM (λ (acc : Z) (x : A),
           v ← term x;
           match num_of v with
           | Some n => Ok (acc + n)
           | None => Raise TypeError
           end) 0 l.

(** [sorted(l)]: a stable sort that only asks [<].  Insertion from the right
    stands for the library's merge sort: on items that are pairwise
    comparable both return the one stable sorted arrangement, and when some
    comparison raises, the only exception either can raise here is the
    [TypeError] of [<]. *)
Fixpoint sorted_insert {A} (lt : A → A → result bool) (x : A) (l : list A)
  : result (list A) :=
  match l with
  | [] => Ok [x]
  | y :: l' =>
      b ← lt y x;
      if b : bool then r ← sorted_insert lt x l'; Ok (y :: r)
      else Ok (x :: y :: l')
  end.

Fixpoint py_sorted {A} (lt : A → A → result bool) (l : list A)
  : result (list A) :=
  match l with
  | [] => Ok []
  | x :: l' => r ← py_sorted lt l'; sorted_insert lt x r
  end.

End Py.

Import Py.

(** * The program *)

(** ** class HumaneData *)

(** The three attributes the constructor sets.  [habits] is the index from
    habit id to habit; [entries] is whatever the document holds under
    ["entries"]. *)
Record HumaneData : Type := {
  data : json;
  habits : pydict json;
  entries : json;
}.

(** [self.data.get("habits", [])], iterated. *)
Definition habits_list (d : json) : result (list json) :=
  py_get d "habits" (JArr []) ≫= py_iter.

(** [HumaneData.__init__].  An omitted argument is Python's [None]: [None]
    for [filepath] and [JNull] for [data].  Opening and parsing the file is
    left to [json_load]; an empty [filepath] is falsy, like an omitted one.
    Nothing is returned when the constructor raises. *)
Definition HumaneData_init (json_load : string → result json)
    (filepath : option string) (data : json) : result HumaneData :=
  d ← match data with
      | JNull =>
          match filepath with
          | Some p =>
              if bool_decide (p = "") then Raise ValueError else json_load p
          | None => Raise ValueError
          end
      | d => Ok d
      end;
  hl ← habits_list d;
  habits ← foldM (λ (acc : pydict json) (h : json),
                    i ← py_getitem h "id";
                    k ← py_key i;
                    Ok (pd_set k h acc)) [] hl;
  entries ← py_get d "entries" (JArr []);
  Ok {| data := d; habits := habits; entries := entries |}.

(** [get_categories]: the habits grouped by category, groups in order of
    first appearance. *)
Definition get_categories (self : HumaneData) : result (pydict (list json)) :=
  hl ← habits_list (data self);
  foldM (λ (categories : pydict (list json)) (habit : json),
           c ← py_get habit "category" (JStr "uncategorized");
           k ← py_key c;
           Ok (pd_append k habit categories)) [] hl.

(** [get_habits_by_category] *)
Definition get_habits_by_category (self : HumaneData) (category : string)
  : result (list json) :=
  hl ← habits_list (data self);
  filterM (λ h, c ← py_get h "category" JNull;
                Ok (py_eq c (JStr category))) hl.

(** [get_entries_for_habit] *)
Definition get_entries_for_habit (self : HumaneData) (habit_id : string)
  : result (list json) :=
  el ← py_iter (entries self);
  filterM (λ e, i ← py_get e "habitId" JNull;
                Ok (py_eq i (JStr habit_id))) el.

(** [get_habit_name] *)
Definition get_habit_name (self : HumaneData) (habit_id : string)
  : result json :=
  match pd_get (JStr habit_id) (habits self) with
  | Some habit =>
      if py_truthy habit then py_get habit "name" (JStr "Unknown")
      else Ok (JStr "Unknown")
  | None => Ok (JStr "Unknown")
  end.

(** [<] on the [(category, habits)] tuples that [sorted(categories.items())]
    compares: the first component that differs decides. *)
Definition item_lt (a b : json * list json) : result bool :=
  if py_eq a.1 b.1 then py_lt (JArr a.2) (JArr b.2) else py_lt a.1 b.1.

(** [get_category_stats] *)
Definition get_category_stats (self : HumaneData)
  : result (list (json * Z * Z)) :=
  categories ← get_categories self;
  items ← py_sorted item_lt categories;
  forM (λ '(cat, habits),
          total_target ← py_sum (λ h, py_get h "targetPerWeek" (JNum 0)) habits;
          Ok (cat, Z.of_nat (length habits), total_target)) items.

(** [merge_habits] *)
Definition merge_habits (self : HumaneData) (target_habit_id : string)
    (source_habit_ids : list string) : result json :=
  let all_source_ids : gset string := list_to_set source_habit_ids in
  let all_source_ids :=
    if bool_decide (target_habit_id ∈ all_source_ids)
    then all_source_ids ∖ {[target_habit_id]} else all_source_ids in
  (* Collect all entries for target and sources, grouped by date *)
  el ← py_iter (entries self);
  entries_by_date ←
    foldM (λ (entries_by_date : pydict (list json)) (entry : json),
             i ← py_get entry "habitId" JNull;
             involved ←
               (if py_eq i (JStr target_habit_id) then Ok true
                else i' ← py_get entry "habitId" JNull;
                     py_in_set i' all_source_ids);
             if involved : bool then
               d ← py_get entry "date" (JStr "");
               date ← py_slice_to 10 d;
               k ← py_key date;
               Ok (pd_append k entry entries_by_date)
             else Ok entries_by_date) [] el;
  (* Create merged entries - take max value per day *)
  merged_entries ←
    forM (λ '(date, day_entries),
            max_entry ← py_max (λ e, py_get e "value" (JNum 0)) day_entries;
            i ← py_getitem max_entry "id";
            v ← py_get max_entry "value" (JNum 0);
            c ← py_get max_entry "createdAt" (JStr "");
            Ok (JObj [("id", i);
                      ("habitId", JStr target_habit_id);
                      ("date", date);
                      ("value", v);
                      ("createdAt", c)])) entries_by_date;
  (* Keep entries not involved in the merge *)
  other_entries ←
    filterM (λ e,
               i ← py_get e "habitId" JNull;
               if negb (py_eq i (JStr target_habit_id)) then
                 i' ← py_get e "habitId" JNull;
                 m ← py_in_set i' all_source_ids;
                 Ok (negb m)
               else Ok false) el;
  (* Remove source habits from habits list *)
  hl ← habits_list (data self);
  new_habits ←
    filterM (λ h, i ← py_getitem h "id";
                  m ← py_in_set i all_source_ids;
                  Ok (negb m)) hl;
  match data self with
  | JObj d =>
      Ok (JObj (dict_set "entries" (JArr (other_entries ++ merged_entries))
                  (dict_set "habits" (JArr new_habits) d)))
  | _ => Raise TypeError
  end.

(** ** Module-level helper *)

(** [find_habits_by_name]; [lower] is the builtin [str.lower]. *)
Definition find_habits_by_name (lower : string → string)
    (humane_data : HumaneData) (pattern : string) : result (list json) :=
  let pattern_lower := lower pattern in
  hl ← habits_list (data humane_data);
  filterM (λ h, n ← py_get h "name" (JStr "");
                name_lower ← py_lower lower n;
                Ok (str_contains pattern_lower name_lower)) hl.

(** ** More of the Python layer *)

(** [sorted(l, key=key, reverse=reverse)]: the keys are computed first, once
    for each item and in order; the sort compares keys with [<]; a reversed
    sort reverses the list, sorts it and reverses it again, which leaves
    items with equal keys in their original order. *)
Definition py_sorted_by {A} (key : A → result json) (reverse : bool)
    (l : list A) : result (list A) :=
  keyed ← forM (λ x, k ← key x; Ok (k, x)) l;
  r ← py_sorted (λ a b : json * A, py_lt a.1 b.1)
                (if reverse then rev keyed else keyed);
  Ok (map snd (if reverse then rev r else r)).

(** [l.insert(i, x)]: [x] goes before position [i], or last when the list is
    shorter. *)
Definition py_insert {A} (i : nat) (x : A) (l : list A) : list A :=
  take i l ++ x :: drop i l.

(** [o.capitalize()]: a method of [str] only; what it does to a string is
    the parameter [capitalize]. *)
Definition py_capitalize (capitalize : string → string) (o : json)
  : result json :=
  match o with
  | JStr s => Ok (JStr (capitalize s))
  | _ => Raise AttributeError
  end.

(** [c * n] for a one-character string [c]. *)
Definition str_repeat (c : ascii) (n : nat) : string :=
  string_of_list_ascii (repeat c n).

(** [s.ljust(w)] and [s.rjust(w)]: spaces up to the width [w], nothing cut. *)
Definition ljust (w : nat) (s : string) : string :=
  s +:+ str_repeat " " (w - String.length s).

Definition rjust (w : nat) (s : string) : string :=
  str_repeat " " (w - String.length s) +:+ s.

(** [f"{o:<w}"]: a string is padded on the right; an integer or a boolean is
    written as an integer and padded; [None], a list or a dict do not take
    the format. *)
Definition py_format_left (str : json → string) (w : nat) (o : json)
  : result string :=
  match o with
  | JStr s => Ok (ljust w s)
  | JNum n => Ok (ljust w (str (JNum n)))
  | JBool b => Ok (ljust w (str (JNum (if b then 1 else 0))))
  | _ => Raise TypeError
  end.

(** [o.upper()]: a method of [str] only; what it does to a string is the
    parameter [upper]. *)
Definition py_upper (upper : string → string) (o : json) : result string :=
  match o with
  | JStr s => Ok (upper s)
  | _ => Raise AttributeError
  end.

(** *** Commands that print

    A command prints lines and then returns or raises; what was printed
    before a raise stays printed. *)

Definition printing (A : Type) : Type := list string * result A.

#[global] Instance printing_ret : MRet printing := λ A a, ([], Ok a).
#[global] Instance printing_bind : MBind printing :=
  λ A B f m,
    match m.2 with
    | Ok a => (m.1 ++ (f a).1, (f a).2)
    | Raise e => (m.1, Raise e)
    end.

(** [console.print(s)]: the text handed to the console.  What the console
    makes of it, reading square brackets as markup, is not part of the
    model. *)
Definition print (s : string) : printing () := ([s], Ok ()).

(** A step that prints nothing. *)
Definition quiet {A} (r : result A) : printing A := ([], r).

(** A [for] loop whose body prints. *)
Fixpoint for_each {A} (body : A → printing ()) (l : list A) : printing () :=
  match l with
  | [] => mret ()
  | x :: l' => body x ≫= λ _, for_each body l'
  end.

(** ** The screens

    Of a screen the model keeps what the constructor stores and the rows that
    [on_mount] hands to the table, in order.  The rows of the entries screen
    have no key and those of the categories screen have pairwise distinct
    keys; the keys of the habits screen can repeat, and there the table's
    refusal of a repeated key is part of the model.  The builtin [str] is a
    parameter. *)

(** The arguments of one [table.add_row]: the cells, and the key if one is
    given. *)
Record row : Type := {
  row_cells : list json;
  row_key : option json;
}.

(** [table.add_row] with its cells and [key=key], on the rows added so far.
    The table
    hashes the key and looks it up among the keys of its rows: a key that a
    row already has is refused with [DuplicateKey], and the row is not
    added.  A row without a key, or with the key [None], gets a key of its
    own. *)
Definition add_row (r : row) (table : list row) : result (list row) :=
  match row_key r with
  | None | Some JNull => Ok (table ++ [r])
  | Some key =>
      k ← py_key key;
      if existsb (λ r', match row_key r' with
                        | None | Some JNull => false
                        | Some k' => py_eq k k'
                        end) table
      then Raise DuplicateKey
      else Ok (table ++ [r])
  end.

Module EntriesScreen.

Record t : Type := {
  habit_id : string;
  habit_name : json;
  entries : list json;
}.

(** [EntriesScreen.__init__] *)
Definition init (humane_data : HumaneData) (habit_id : string) : result t :=
  habit_name ← get_habit_name humane_data habit_id;
  entries ← get_entries_for_habit humane_data habit_id;
  Ok {| habit_id := habit_id; habit_name := habit_name;
        entries := entries |}.

(** [EntriesScreen.on_mount]: the rows added to the table. *)
Definition on_mount (str : json → string) (self : t) : result (list row) :=
  sorted ← py_sorted_by (λ e, py_get e "date" (JStr "")) true (entries self);
  rows ← forM (λ entry,
                 d ← py_get entry "date" (JStr "");
                 date_str ← py_slice_to 10 d;
                 c ← py_get entry "createdAt" (JStr "");
                 created_str ← py_slice_to 10 c;
                 v ← py_get entry "value" (JNum 0);
                 Ok {| row_cells := [date_str; JStr (str v); created_str];
                       row_key := None |}) sorted;
  Ok (if negb (py_truthy (JArr (entries self)))
      then rows ++ [{| row_cells := [JStr "No entries"; JStr "-"; JStr "-"];
                       row_key := None |}]
      else rows).

End EntriesScreen.

(** [get_entries_for_habit] as the callers use it that pass [habit["id"]]:
    with a value that need not be a string. *)
Definition get_entries_for_habit_id (self : HumaneData) (habit_id : json)
  : result (list json) :=
  el ← py_iter (entries self);
  filterM (λ e, i ← py_get e "habitId" JNull;
                Ok (py_eq i habit_id)) el.

Module HabitsScreen.

Record t : Type := {
  humane_data : HumaneData;
  category : string;
  habits : list json;
}.

(** [HabitsScreen.__init__] *)
Definition init (humane_data : HumaneData) (category : string) : result t :=
  habits ← get_habits_by_category humane_data category;
  Ok {| humane_data := humane_data; category := category;
        habits := habits |}.

(** [HabitsScreen.on_mount]: the rows of the table, added one by one; the
    loop stops at the row that the table refuses. *)
Definition on_mount (str : json → string) (self : t) : result (list row) :=
  sorted ← py_sorted_by (λ h, py_get h "name" (JStr "")) false (habits self);
  foldM (λ (table : list row) (habit : json),
           i ← py_getitem habit "id";
           es ← get_entries_for_habit_id (humane_data self) i;
           let entry_count := Z.of_nat (length es) in
           name ← py_get habit "name" (JStr "Unknown");
           target ← py_get habit "targetPerWeek" (JNum 0);
           key ← py_getitem habit "id";
           add_row {| row_cells := [name; JStr (str target);
                                    JStr (str (JNum entry_count))];
                      row_key := Some key |} table) [] sorted.

End HabitsScreen.

Module CategoriesScreen.

(** [CategoriesScreen.on_mount]: the rows added to the table. *)
Definition on_mount (str : json → string) (capitalize : string → string)
    (humane_data : HumaneData) : result (list row) :=
  stats ← get_category_stats humane_data;
  forM (λ '(cat, count, target),
          c ← py_capitalize capitalize cat;
          Ok {| row_cells := [c; JStr (str (JNum count));
                              JStr (str (JNum target))];
                row_key := Some cat |}) stats.

End CategoriesScreen.

(** ** The merge command

    The steps of the command [merge] between the questions it asks and the
    text it prints. *)

Module Command.

(** [source_ids = [s["id"] for s in sources]] *)
Definition source_ids (sources : list json) : result (list json) :=
  forM (λ s, py_getitem s "id") sources.

(** [merged_entries =
      [e for e in merged_data["entries"] if e.get("habitId") == target["id"]]],
    the entries that the command counts. *)
Definition merged_entries (merged_data target : json) : result (list json) :=
  es ← py_getitem merged_data "entries" ≫= py_iter;
  filterM (λ e, i ← py_get e "habitId" JNull;
                t ← py_getitem target "id";
                Ok (py_eq i t)) es.

End Command.

(** ** The command [list] *)

(** The command [list], once [load_data] has returned [data]. *)
Definition list_habits (str : json → string) (upper : string → string)
    (data : HumaneData) : printing () :=
  categories ← quiet (get_categories data);
  items ← quiet (py_sorted item_lt categories);
  for_each
    (λ '(cat, habits),
       u ← quiet (py_upper upper cat);
       print (String "010" "[bold]" +:+ u +:+ "[/bold]");;
       print (str_repeat "-" 40);;
       sorted ← quiet (py_sorted_by (λ x, py_get x "name" (JStr "")) false
                                    habits);
       for_each
         (λ h,
            i ← quiet (py_getitem h "id");
            es ← quiet (get_entries_for_habit_id data i);
            let entry_count := Z.of_nat (length es) in
            n ← quiet (py_getitem h "name");
            name ← quiet (py_format_left str 30 n);
            print ("  " +:+ name +:+ " (" +:+
                   rjust 3 (str (JNum entry_count)) +:+ " entries)"))
         sorted)
    items.

(** ** The entry point *)

(** The first words that [main] leaves alone. *)
Definition commands : list string :=
  ["explore"; "list"; "merge"; "--help"; "-h"].

(** [main] up to the call of the command-line parser: what it makes of
    [sys.argv]. *)
Definition main (argv : list string) : list string :=
  if bool_decide (length argv = 1%nat) then argv ++ ["explore"]
  else
    match argv !! 1%nat with
    | Some first =>
        if bool_decide (2 ≤ length argv)%nat &&
           negb (bool_decide (first ∈ commands))
        then py_insert 1 "explore" argv
        else argv
    | None => argv
    end.

(** * The data model *)

(** The shape section 3 of the specification gives a snapshot: a document with
    a list of habits and a list of entries, every habit and entry carrying an
    id, and the attributes name, category, targetPerWeek, habitId, date and
    value either absent or of their documented type.  The predicates are
    boolean so that they can be run on a document. *)

Definition is_str (v : json) : bool :=
  match v with JStr _ => true | _ => false end.

Definition is_int (v : json) : bool :=
  match v with JNum _ => true | _ => false end.

(** The key is absent, or holds a value accepted by [p]. *)
Definition opt_field (p : json → bool) (k : string)
    (d : list (string * json)) : bool :=
  match dict_get k d with
  | Some v => p v
  | None => true
  end.

Definition req_field (p : json → bool) (k : string)
    (d : list (string * json)) : bool :=
  match dict_get k d with
  | Some v => p v
  | None => false
  end.

Definition habit_ok (h : json) : bool :=
  match h with
  | JObj d =>
      req_field is_str "id" d && opt_field is_str "name" d &&
      opt_field is_str "category" d && opt_field is_int "targetPerWeek" d
  | _ => false
  end.

Definition entry_ok (e : json) : bool :=
  match e with
  | JObj d =>
      req_field (λ _, true) "id" d && opt_field is_str "habitId" d &&
      opt_field is_str "date" d && opt_field is_int "value" d
  | _ => false
  end.

Definition list_of (p : json → bool) (v : json) : bool :=
  match v with
  | JArr l => forallb p l
  | _ => false
  end.

Definition snapshot_ok (d : json) : bool :=
  match d with
  | JObj f =>
      opt_field (list_of habit_ok) "habits" f &&
      opt_field (list_of entry_ok) "entries" f
  | _ => false
  end.

(** ** The specification's words

    The definitions from here to the test documents are not taken from the
    source: they say, in the words of the specification, what the theorems
    compare the program with. *)

Definition field (k : string) (o : json) : option json :=
  match o with
  | JObj d => dict_get k d
  | _ => None
  end.

Definition str_field (k : string) (o : json) : option string :=
  match field k o with
  | Some (JStr s) => Some s
  | _ => None
  end.

Definition items_of (k : string) (d : json) : list json :=
  match field k d with
  | Some (JArr l) => l
  | _ => []
  end.

Definition snapshot_habits (d : json) : list json := items_of "habits" d.
Definition snapshot_entries (d : json) : list json := items_of "entries" d.

(** An entry's value, a missing one read as 0. *)
Definition entry_value (e : json) : Z :=
  match field "value" e with
  | Some (JNum n) => n
  | _ => 0
  end.

(** The first 10 characters of the date, the full string when shorter and the
    empty string when the entry has no date. *)
Definition normalized_date (e : json) : string :=
  String.substring 0 10 (default "" (str_field "date" e)).

(** A habit's category and weekly target, with their defaults. *)
Definition habit_category (h : json) : string :=
  default "uncategorized" (str_field "category" h).

Definition habit_target (h : json) : Z :=
  match field "targetPerWeek" h with
  | Some (JNum n) => n
  | _ => 0
  end.

Definition habit_name (h : json) : string :=
  default "" (str_field "name" h).

(** [sourceIds] without the target. *)
Definition effective_sources (target : string) (sources : list string)
  : gset string :=
  list_to_set sources ∖ {[target]}.

(** An entry contributes to a merge when it belongs to the target or to an
    effective source. *)
Definition contributing (target : string) (sources : list string)
    (e : json) : Prop :=
  match str_field "habitId" e with
  | Some i => i = target ∨ i ∈ effective_sources target sources
  | None => False
  end.

#[global] Instance contributing_dec target sources e :
  Decision (contributing target sources e).
Proof. unfold contributing. destruct (str_field "habitId" e); apply _. Defined.

(** The first item of [x :: l] whose measure is maximal: the scan of [max]
    on integer keys. *)
Definition first_max {A} (f : A → Z) (x : A) (l : list A) : A :=
  fold_left (λ best y, if f best <? f y then y else best) l x.

(** The entry a merge emits for the date [date] when [w] wins it. *)
Definition merged_entry (target date : string) (w : json) : json :=
  JObj [("id", default JNull (field "id" w));
        ("habitId", JStr target);
        ("date", JStr date);
        ("value", default (JNum 0) (field "value" w));
        ("createdAt", default (JStr "") (field "createdAt" w))].

(** ** Grouping *)

(** The loop [for x in l: groups[key(x)].append(x)] on string keys. *)
Definition group_by {A} (key : A → string) (l : list A) : pydict (list A) :=
  fold_left (λ acc x, pd_append (JStr (key x)) x acc) l [].

(** The keys of [l] in order of first appearance. *)
Definition group_keys {A} (key : A → string) (l : list A) : list string :=
  fold_left (λ acc x, if decide (key x ∈ acc) then acc else acc ++ [key x])
            l [].

(** The items of [l] with key [k], in their order in [l]. *)
Definition group_of {A} (key : A → string) (l : list A) (k : string)
  : list A :=
  filter (λ x, key x = k) l.

(** [self] is an object the constructor returned. *)
Definition loaded (self : HumaneData) : Prop :=
  ∃ json_load filepath d, HumaneData_init json_load filepath d = Ok self.

(** A habit that the merge removes. *)
Definition source_habit (target : string) (sources : list string)
    (h : json) : Prop :=
  match str_field "id" h with
  | Some i => i ∈ effective_sources target sources
  | None => False
  end.

#[global] Instance source_habit_dec target sources h :
  Decision (source_habit target sources h).
Proof. unfold source_habit. destruct (str_field "id" h); apply _. Defined.

(** The winner of a date group. *)
Definition winner (day_entries : list json) : json :=
  match day_entries with
  | [] => JNull
  | x :: l => first_max entry_value x l
  end.

(** The entries a merge emits: one for each normalized date of a contributing
    entry, in order of first appearance. *)
Definition merged_entries (target : string) (sources : list string)
    (es : list json) : list json :=
  let cs := filter (contributing target sources) es in
  map (λ k, merged_entry target k (winner (group_of normalized_date cs k)))
      (group_keys normalized_date cs).

(** The document a merge returns: the input with its entries and its habits
    replaced. *)
Definition merge_result (d : json) (target : string) (sources : list string)
  : json :=
  JObj (dict_set "entries"
          (JArr (filter (λ e, ¬ contributing target sources e)
                        (snapshot_entries d) ++
                 merged_entries target sources (snapshot_entries d)))
          (dict_set "habits"
             (JArr (filter (λ h, ¬ source_habit target sources h)
                           (snapshot_habits d)))
             (match d with JObj f => f | _ => [] end))).

(** ** The queries *)

(** Strings in ascending order of code points. *)
Definition str_lt (a b : string) : Prop := String.ltb a b = true.

(** Insertion sort on strings. *)
Fixpoint str_insert (x : string) (l : list string) : list string :=
  match l with
  | [] => [x]
  | y :: l' => if String.ltb y x then y :: str_insert x l' else x :: y :: l'
  end.

Fixpoint str_sort (l : list string) : list string :=
  match l with
  | [] => []
  | x :: l' => str_insert x (str_sort l')
  end.

(** The habits of a category. *)
Definition in_category (c : string) (hs : list json) : list json :=
  filter (λ h, habit_category h = c) hs.

(** The sum of the weekly targets, a missing one counting as 0. *)
Definition total_target (hs : list json) : Z :=
  foldr (λ h acc, habit_target h + acc) 0 hs.

(** What [str.lower] does to text of code points below U+0100, where it
    changes each character by itself: the upper-case letters are A to Z and
    U+00C0 to U+00DE without the multiplication sign U+00D7, and the
    lower-case form is 32 code points further.  This is not the builtin,
    which the program takes as the parameter [lower]: on other text the
    builtin looks at the neighbours of a character (a capital sigma at the
    end of a word) and can change the length. *)
Definition lower_char (c : ascii) : ascii :=
  let n := N_of_ascii c in
  if ((65 <=? n) && (n <=? 90) ||
      (192 <=? n) && (n <=? 222) && negb (n =? 215))%N
  then ascii_of_N (n + 32) else c.

Fixpoint lower_latin1 (s : string) : string :=
  match s with
  | EmptyString => EmptyString
  | String c s' => String (lower_char c) (lower_latin1 s')
  end.

(** Two characters are the same letter when they are equal or one is the
    lower-case form of the other. *)
Definition same_letter (a b : ascii) : Prop :=
  a = b ∨ lower_char a = b ∨ a = lower_char b.

(** [b] is [a] with the case of some letters changed. *)
Fixpoint ci_equal (a b : string) : Prop :=
  match a, b with
  | EmptyString, EmptyString => True
  | String x a', String y b' => same_letter x y ∧ ci_equal a' b'
  | _, _ => False
  end.

(** [p] occurs in [s] up to the case of its letters. *)
Definition occurs_ci (p s : string) : Prop :=
  ∃ pre mid post, s = pre +:+ mid +:+ post ∧ ci_equal p mid.

(** The characters [lower_char] changes. *)
Definition is_upper (c : ascii) : bool :=
  let n := N_of_ascii c in
  ((65 <=? n) && (n <=? 90) ||
   (192 <=? n) && (n <=? 222) && negb (n =? 215))%N.

(** The index built by the constructor. *)
Definition habit_index (hs : list json) : pydict json :=
  fold_left (λ acc h, pd_set (JStr (default "" (str_field "id" h))) h acc)
            hs [].

(** The name [get_habit_name] reports for a habit. *)
Definition display_name (h : option json) : string :=
  match h with
  | Some h => default "Unknown" (str_field "name" h)
  | None => "Unknown"
  end.

(** ** Further words for the statements *)

(** A habit the constructor can put into its index: a dict whose id can be
    a dict key. *)
Definition indexable (h : json) : bool :=
  match h with
  | JObj d =>
      match dict_get "id" d with
      | Some i => py_hashable i
      | None => false
      end
  | _ => false
  end.

(** The creation time of an entry is absent or a string. *)
Definition created_ok (e : json) : bool :=
  match field "createdAt" e with
  | None | Some (JStr _) => true
  | _ => false
  end.

(** The habit has a name. *)
Definition named (h : json) : bool :=
  match field "name" h with
  | Some _ => true
  | None => false
  end.

(** Insertion sort by a string key, for the statements: an item goes before
    the first item whose key is not smaller than its own. *)
Fixpoint insert_by {A} (key : A → string) (x : A) (l : list A) : list A :=
  match l with
  | [] => [x]
  | y :: l' =>
      if String.ltb (key y) (key x) then y :: insert_by key x l'
      else x :: y :: l'
  end.

Fixpoint sort_by {A} (key : A → string) (l : list A) : list A :=
  match l with
  | [] => []
  | x :: l' => insert_by key x (sort_by key l')
  end.

(** ** The documents of the test suite *)

(** A loader for a machine without files. *)
Definition no_files : string → result json := λ _, Raise OSError.

(** [HumaneData(data=d)] *)
Definition from_data (d : json) : result HumaneData :=
  HumaneData_init no_files None d.

(** The object of a construction that is known to succeed. *)
Definition the (r : result HumaneData) : HumaneData :=
  match r with
  | Ok s => s
  | Raise _ => {| data := JNull; habits := []; entries := JNull |}
  end.

(** A habit and an entry with all their attributes. *)
Definition habit (i name category : string) (target : Z) : json :=
  JObj [("id", JStr i); ("name", JStr name); ("category", JStr category);
        ("targetPerWeek", JNum target)].

Definition entry (i habit_id date : string) (value : Z) (created : string)
  : json :=
  JObj [("id", JStr i); ("habitId", JStr habit_id); ("date", JStr date);
        ("value", JNum value); ("createdAt", JStr created)].

(** [TEST_DATA] of [test_humane_cli.py] *)
Definition TEST_DATA : json :=
  JObj [("version", JNum 1);
        ("habits",
         JArr [habit "habit1" "Morning Run" "fitness" 3;
               habit "habit2" "Meditation" "wellness" 7;
               habit "habit3" "Evening Walk" "fitness" 5]);
        ("entries",
         JArr [entry "e1" "habit1" "2025-11-28" 1 "2025-11-28T10:00:00Z";
               entry "e2" "habit1" "2025-11-27" 1 "2025-11-27T10:00:00Z";
               entry "e3" "habit2" "2025-11-28" 1 "2025-11-28T08:00:00Z"])].

(** [MERGE_TEST_DATA] of [test_humane_cli.py] *)
Definition MERGE_TEST_DATA : json :=
  JObj [("version", JNum 1);
        ("habits",
         JArr [habit "tgu" "TGU" "fitness" 3;
               habit "tgu-l" "TGU-L" "fitness" 2;
               habit "tgu-r" "TGU-R" "fitness" 2;
               habit "kb" "Kettlebell" "fitness" 5]);
        ("entries",
         JArr [entry "e1" "tgu" "2025-11-28" 5 "2025-11-28T10:00:00Z";
               entry "e2" "tgu" "2025-11-27" 3 "2025-11-27T10:00:00Z";
               entry "e3" "tgu-l" "2025-11-28" 8 "2025-11-28T11:00:00Z";
               entry "e4" "tgu-l" "2025-11-26" 4 "2025-11-26T10:00:00Z";
               entry "e5" "tgu-r" "2025-11-28" 6 "2025-11-28T12:00:00Z";
               entry "e6" "tgu-r" "2025-11-25" 7 "2025-11-25T10:00:00Z";
               entry "e7" "kb" "2025-11-28" 10 "2025-11-28T09:00:00Z"])].

(** The fixtures [humane_data] and [merge_data] of the test suite. *)
Definition humane_data : HumaneData := the (from_data TEST_DATA).
Definition merge_data : HumaneData := the (from_data MERGE_TEST_DATA).

(** A habit logged twice on one day, once with a time of day. *)
Definition TWICE_A_DAY : json :=
  JObj [("habits",
         JArr [habit "run" "Run" "fitness" 3;
               habit "kb" "Kettlebell" "fitness" 5]);
        ("entries",
         JArr [entry "e1" "run" "2025-11-28T07:00:00Z" 1 "2025-11-28T07:00:00Z";
               entry "e2" "kb" "2025-11-28" 10 "2025-11-28T09:00:00Z";
               entry "e3" "run" "2025-11-28" 2 "2025-11-28T19:00:00Z"])].


(** An entry of the target without an id. *)
Definition ENTRY_WITHOUT_ID : json :=
  JObj [("habits", JArr [habit "run" "Run" "fitness" 3]);
        ("entries",
         JArr [JObj [("habitId", JStr "run"); ("date", JStr "2025-11-28");
                     ("value", JNum 1)]])].

(** An entry of the target whose date is a number. *)
Definition NUMERIC_DATE : json :=
  JObj [("habits", JArr [habit "run" "Run" "fitness" 3]);
        ("entries",
         JArr [JObj [("id", JStr "e1"); ("habitId", JStr "run");
                     ("date", JNum 20251128); ("value", JNum 1)]])].

(** A habit and an entry with nothing but their ids. *)
Definition SPARSE : json :=
  JObj [("habits", JArr [JObj [("id", JStr "run")]]);
        ("entries",
         JArr [JObj [("id", JStr "e1"); ("habitId", JStr "run")]])].


(** Two habits with the id "a". *)
Definition DUPLICATE_ID : json :=
  JObj [("habits",
         JArr [habit "a" "First" "fitness" 1;
               habit "b" "Other" "wellness" 2;
               habit "a" "Second" "fitness" 3]);
        ("entries",
         JArr [entry "e1" "a" "2025-11-28" 1 "2025-11-28T10:00:00Z"])].

(** Stand-ins for the builtins that the screens and the command [list] take
    as parameters, to run them on the documents: [str] on integers and
    strings, [upper] and [capitalize] on strings of ASCII letters. *)
Definition str_of (v : json) : string :=
  match v with
  | JNum n => pretty n
  | JStr s => s
  | _ => ""
  end.

Definition upper_ascii_char (c : ascii) : ascii :=
  let n := N_of_ascii c in
  if ((97 <=? n) && (n <=? 122))%N then ascii_of_N (n - 32) else c.

Fixpoint upper_ascii (s : string) : string :=
  match s with
  | EmptyString => EmptyString
  | String c s' => String (upper_ascii_char c) (upper_ascii s')
  end.

Definition capitalize_ascii (s : string) : string :=
  match s with
  | EmptyString => EmptyString
  | String c s' => String (upper_ascii_char c) (lower_latin1 s')
  end.

(** * Properties of the Python layer *)

Section Combinators.
Context {A B : Type}.

Lemma filterM_ok (p : A → result bool) (q : A → bool) (l : list A) :
  (∀ x, x ∈ l → p x = Ok (q x)) →
  filterM p l = Ok (filter (λ x, q x) l).
Proof.
  induction l as [|x l IH]; intros Hp; [done|].
  cbn [filterM]. rewrite (Hp x) by left. cbn.
  rewrite IH by (intros; apply Hp; by right). cbn.
  by destruct (q x).
Qed.

Lemma forM_ok (f : A → result B) (g : A → B) (l : list A) :
  (∀ x, x ∈ l → f x = Ok (g x)) →
  forM f l = Ok (map g l).
Proof.
  induction l as [|x l IH]; intros Hf; [done|].
  cbn [forM]. rewrite (Hf x) by left. cbn.
  rewrite IH by (intros; apply Hf; by right). done.
Qed.

Lemma foldM_ok (f : B → A → result B) (g : B → A → B) (l : list A) s :
  (∀ s x, x ∈ l → f s x = Ok (g s x)) →
  foldM f s l = Ok (fold_left g l s).
Proof.
  revert s. induction l as [|x l IH]; intros s Hf; [done|].
  cbn [foldM]. rewrite (Hf s x) by left. cbn.
  apply IH. intros; apply Hf; by right.
Qed.
End Combinators.

(** ** Dicts *)

Lemma dict_get_set_eq k v d : dict_get k (dict_set k v d) = Some v.
Proof.
  induction d as [|[k' v'] d IH]; cbn.
  - by rewrite decide_True.
  - destruct (decide (k = k')) as [->|Hne]; cbn.
    + by rewrite decide_True.
    + by rewrite decide_False.
Qed.

Lemma dict_get_set_ne k k' v d :
  k ≠ k' → dict_get k' (dict_set k v d) = dict_get k' d.
Proof.
  intros Hne. induction d as [|[k0 v0] d IH]; cbn.
  - by rewrite decide_False.
  - destruct (decide (k = k0)) as [->|Hne0]; cbn.
    + by rewrite !decide_False.
    + by rewrite IH.
Qed.

Lemma py_eq_str s t : py_eq (JStr s) (JStr t) = bool_decide (s = t).
Proof. done. Qed.

(** ** Grouping with [defaultdict(list)] *)

Section Grouping.
Context {A : Type} (key : A → string).

Lemma group_by_snoc l x :
  group_by key (l ++ [x]) = pd_append (JStr (key x)) x (group_by key l).
Proof. unfold group_by. by rewrite fold_left_app. Qed.

Lemma group_keys_snoc l x :
  group_keys key (l ++ [x]) =
  if decide (key x ∈ group_keys key l) then group_keys key l
  else group_keys key l ++ [key x].
Proof. unfold group_keys. by rewrite fold_left_app. Qed.

Lemma group_keys_NoDup l : NoDup (group_keys key l).
Proof.
  induction l as [|x l IH] using rev_ind; [constructor|].
  rewrite group_keys_snoc. case_decide; [done|].
  apply NoDup_app. split_and!; [done| |apply NoDup_singleton].
  intros k Hk Hx. apply list_elem_of_singleton in Hx. by subst.
Qed.

Lemma elem_of_group_keys l k :
  k ∈ group_keys key l ↔ ∃ x, x ∈ l ∧ key x = k.
Proof.
  induction l as [|x l IH] using rev_ind.
  - split; [by intros ?%elem_of_nil|]. intros (x & ?%elem_of_nil & _). done.
  - rewrite group_keys_snoc. case_decide as Hin.
    + rewrite IH. split.
      * intros (y & Hy & <-). exists y. split; [|done].
        apply elem_of_app. by left.
      * intros (y & [Hy|Hy%list_elem_of_singleton]%elem_of_app & <-).
        -- eauto.
        -- subst y. by apply IH.
    + rewrite elem_of_app, IH, list_elem_of_singleton. split.
      * intros [(y & Hy & <-)| ->].
        -- exists y. split; [|done]. apply elem_of_app. by left.
        -- exists x. split; [|done]. apply elem_of_app. right. by left.
      * intros (y & [Hy|Hy%list_elem_of_singleton]%elem_of_app & <-).
        -- left. eauto.
        -- subst y. by right.
Qed.

Lemma pd_append_groups (g : string → list A) (ks : list string) kx x :
  NoDup ks →
  pd_append (JStr kx) x (map (λ k, (JStr k, g k)) ks) =
  if decide (kx ∈ ks)
  then map (λ k, (JStr k, if decide (kx = k) then g k ++ [x] else g k)) ks
  else map (λ k, (JStr k, g k)) ks ++ [(JStr kx, [x])].
Proof.
  induction 1 as [|k ks Hk Hnd IH]; [done|].
  cbn [map pd_append]. rewrite py_eq_str.
  destruct (decide (kx = k)) as [->|Hne].
  - rewrite bool_decide_true by done.
    rewrite (decide_True (P := k ∈ k :: ks)) by left.
    f_equal. apply map_ext_in. intros k' Hk'%list_elem_of_In.
    rewrite decide_False; [done|]. by intros <-.
  - rewrite bool_decide_false by done. rewrite IH.
    destruct (decide (kx ∈ ks)) as [Hin|Hin].
    + by rewrite decide_True by (by right).
    + rewrite decide_False; [done|].
      by intros [?|?]%elem_of_cons.
Qed.

(** The loop builds, for every key in order of first appearance, the items
    with that key in their order in [l]. *)
Lemma group_by_eq l :
  group_by key l = map (λ k, (JStr k, group_of key l k)) (group_keys key l).
Proof.
  induction l as [|x l IH] using rev_ind; [done|].
  rewrite group_by_snoc, IH, group_keys_snoc.
  rewrite pd_append_groups by apply group_keys_NoDup.
  unfold group_of. case_decide as Hin.
  - apply map_ext. intros k. f_equal. rewrite filter_app.
    case_decide as Hk.
    + subst k. by rewrite filter_cons_True.
    + rewrite filter_cons_False by done. by rewrite filter_nil, app_nil_r.
  - rewrite map_app. cbn [map]. f_equal.
    + apply map_ext_in. intros k Hk%list_elem_of_In. f_equal.
      rewrite filter_app, filter_cons_False, filter_nil, app_nil_r; [done|].
      by intros <-.
    + do 2 f_equal. rewrite filter_app, filter_cons_True by done.
      rewrite filter_nil.
      destruct (filter (λ y, key y = key x) l) as [|y l'] eqn:Hf; [done|].
      assert (y ∈ filter (λ y, key y = key x) l) as Hy by (rewrite Hf; left).
      apply list_elem_of_filter in Hy as [Hy1 Hy2].
      destruct Hin. apply elem_of_group_keys. eauto.
Qed.
End Grouping.

(** ** Well-formed items *)

Lemma opt_field_inv p k d :
  opt_field p k d → dict_get k d = None ∨ ∃ v, dict_get k d = Some v ∧ p v.
Proof. unfold opt_field. destruct (dict_get k d); eauto. Qed.

Lemma req_field_inv p k d :
  req_field p k d → ∃ v, dict_get k d = Some v ∧ p v.
Proof. unfold req_field. destruct (dict_get k d); [eauto|done]. Qed.

Lemma is_str_inv v : is_str v → ∃ s, v = JStr s.
Proof. destruct v; try done. eauto. Qed.

Lemma is_int_inv v : is_int v → ∃ n, v = JNum n.
Proof. destruct v; try done. eauto. Qed.

Lemma opt_str_inv k d :
  opt_field is_str k d →
  dict_get k d = None ∨ ∃ s, dict_get k d = Some (JStr s).
Proof.
  intros [?|(v & ? & (s & ->)%is_str_inv)]%opt_field_inv; eauto.
Qed.

Lemma opt_int_inv k d :
  opt_field is_int k d →
  dict_get k d = None ∨ ∃ n, dict_get k d = Some (JNum n).
Proof.
  intros [?|(v & ? & (s & ->)%is_int_inv)]%opt_field_inv; eauto.
Qed.

Lemma req_str_inv k d :
  req_field is_str k d → ∃ s, dict_get k d = Some (JStr s).
Proof. intros (v & ? & (s & ->)%is_str_inv)%req_field_inv; eauto. Qed.

Lemma entry_ok_inv e :
  entry_ok e →
  ∃ d, e = JObj d ∧
       (∃ i, dict_get "id" d = Some i) ∧
       (dict_get "habitId" d = None ∨ ∃ s, dict_get "habitId" d = Some (JStr s)) ∧
       (dict_get "date" d = None ∨ ∃ s, dict_get "date" d = Some (JStr s)) ∧
       (dict_get "value" d = None ∨ ∃ n, dict_get "value" d = Some (JNum n)).
Proof.
  destruct e as [| | | | |d]; try done. cbn.
  rewrite !andb_True.
  intros (((Hi & Hh) & Hd) & Hv). exists d.
  apply req_field_inv in Hi as (i & Hi & _).
  split_and!; eauto using opt_str_inv, opt_int_inv.
Qed.

Lemma habit_ok_inv h :
  habit_ok h →
  ∃ d, h = JObj d ∧
       (∃ i, dict_get "id" d = Some (JStr i)) ∧
       (dict_get "name" d = None ∨ ∃ s, dict_get "name" d = Some (JStr s)) ∧
       (dict_get "category" d = None ∨
        ∃ s, dict_get "category" d = Some (JStr s)) ∧
       (dict_get "targetPerWeek" d = None ∨
        ∃ n, dict_get "targetPerWeek" d = Some (JNum n)).
Proof.
  destruct h as [| | | | |d]; try done. cbn.
  rewrite !andb_True.
  intros (((Hi & Hn) & Hc) & Ht). exists d.
  split_and!; eauto using req_str_inv, opt_str_inv, opt_int_inv.
Qed.

Lemma list_of_inv p v : list_of p v → ∃ l, v = JArr l ∧ Forall (λ x, p x) l.
Proof.
  destruct v as [| | | |l|]; try done. cbn. intros Hl. exists l. split; [done|].
  apply Forall_forall. intros x Hx%list_elem_of_In.
  apply Is_true_true in Hl. rewrite forallb_forall in Hl.
  apply Is_true_true. auto.
Qed.

(** A well-formed snapshot is a dict whose habits and entries are the lists
    [snapshot_habits] and [snapshot_entries]. *)
Lemma snapshot_ok_inv d :
  snapshot_ok d →
  ∃ f, d = JObj f ∧
       habits_list d = Ok (snapshot_habits d) ∧
       py_get d "entries" (JArr []) = Ok (JArr (snapshot_entries d)) ∧
       Forall (λ h, habit_ok h) (snapshot_habits d) ∧
       Forall (λ e, entry_ok e) (snapshot_entries d).
Proof.
  destruct d as [| | | | |f]; try done. cbn.
  rewrite andb_True. intros [Hh He]. exists f. split; [done|].
  unfold habits_list, snapshot_habits, snapshot_entries, items_of. cbn.
  apply opt_field_inv in Hh as [->|(v & -> & (l & -> & Hl)%list_of_inv)];
  apply opt_field_inv in He as [->|(w & -> & (l' & -> & Hl')%list_of_inv)];
  cbn; split_and!; done || constructor.
Qed.

(** ** What a merge returns on a well-formed snapshot *)

Lemma bind_Ok_inv {A B} (m : result A) (f : A → result B) b :
  m ≫= f = Ok b → ∃ a, m = Ok a ∧ f a = Ok b.
Proof. destruct m as [a|e]; [eauto|done]. Qed.

Lemma loaded_entries self :
  loaded self → py_get (data self) "entries" (JArr []) = Ok (entries self).
Proof.
  intros (jl & fp & od & H). unfold HumaneData_init in H.
  apply bind_Ok_inv in H as (d & _ & H).
  apply bind_Ok_inv in H as (hl & _ & H).
  apply bind_Ok_inv in H as (hs & _ & H).
  apply bind_Ok_inv in H as (es & Hes & H).
  by injection H as <-.
Qed.

Lemma loaded_habits self :
  loaded self →
  ∃ hl, habits_list (data self) = Ok hl ∧
        foldM (λ (acc : pydict json) (h : json),
                 i ← py_getitem h "id";
                 k ← py_key i;
                 Ok (pd_set k h acc)) [] hl = Ok (habits self).
Proof.
  intros (jl & fp & od & H). unfold HumaneData_init in H.
  apply bind_Ok_inv in H as (d & _ & H).
  apply bind_Ok_inv in H as (hl & Hhl & H).
  apply bind_Ok_inv in H as (hs & Hhs & H).
  apply bind_Ok_inv in H as (es & Hes & H).
  injection H as <-. eauto.
Qed.

Lemma loaded_snapshot_entries self :
  loaded self → snapshot_ok (data self) →
  py_iter (entries self) = Ok (snapshot_entries (data self)).
Proof.
  intros Hl (f & _ & _ & He & _)%snapshot_ok_inv.
  apply loaded_entries in Hl. rewrite He in Hl. by injection Hl as <-.
Qed.

(** The set the code ends up with is [sourceIds] without the target, whether or
    not the target was in it. *)
Lemma all_source_ids_eq (target : string) (sources : list string) :
  (if bool_decide (target ∈ (list_to_set sources : gset string))
   then list_to_set sources ∖ {[target]} else list_to_set sources)
  = effective_sources target sources.
Proof.
  unfold effective_sources. case_bool_decide as Hin; [done|].
  apply set_eq. intros x. rewrite elem_of_difference, elem_of_singleton.
  split; [|tauto]. intros Hx. split; [done|]. by intros ->.
Qed.

Lemma elem_of_effective_sources target sources i :
  i ∈ effective_sources target sources ↔ i ∈ sources ∧ i ≠ target.
Proof.
  unfold effective_sources.
  by rewrite elem_of_difference, elem_of_list_to_set, elem_of_singleton.
Qed.

Lemma target_not_effective target sources :
  target ∉ effective_sources target sources.
Proof. rewrite elem_of_effective_sources. tauto. Qed.

Lemma effective_sources_cons_target target sources :
  effective_sources target sources
  = effective_sources target (target :: sources).
Proof.
  apply set_eq. intros i. rewrite !elem_of_effective_sources, elem_of_cons.
  tauto.
Qed.

Lemma effective_sources_filter target sources :
  effective_sources target sources
  = effective_sources target (filter (λ s, s ≠ target) sources).
Proof.
  apply set_eq. intros i.
  rewrite !elem_of_effective_sources, list_elem_of_filter. tauto.
Qed.

#[local] Arguments effective_sources : simpl never.

Lemma fold_left_filter {A S} (P : A → Prop) `{!∀ x, Decision (P x)}
    (h : S → A → S) (l : list A) (s : S) :
  fold_left (λ acc x, if decide (P x) then h acc x else acc) l s =
  fold_left h (filter P l) s.
Proof.
  revert s. induction l as [|x l IH]; intros s; [done|].
  cbn [fold_left]. rewrite filter_cons. case_decide; cbn [fold_left]; apply IH.
Qed.

Lemma first_max_step {A} (f : A → Z) x y l :
  first_max f x (y :: l) = first_max f (if f x <? f y then y else x) l.
Proof. done. Qed.

Lemma py_max_fold {A} (key : A → result json) (val : A → Z) l b :
  (∀ e, e ∈ l → key e = Ok (JNum (val e))) →
  foldM (λ (best : A * json) (y : A),
           ky ← key y;
           g ← py_gt ky best.2;
           Ok (if g : bool then (y, ky) else best)) (b, JNum (val b)) l
  = Ok (first_max val b l, JNum (val (first_max val b l))).
Proof.
  revert b. induction l as [|y l IH]; intros b Hk; [done|].
  cbn [foldM]. rewrite (Hk y) by left. cbn.
  destruct (val b <? val y); apply IH; intros; apply Hk; by right.
Qed.

Lemma py_max_ok {A} (key : A → result json) (val : A → Z) x l :
  (∀ e, e ∈ x :: l → key e = Ok (JNum (val e))) →
  py_max key (x :: l) = Ok (first_max val x l).
Proof.
  intros Hk. unfold py_max. rewrite (Hk x) by left. cbn.
  rewrite (py_max_fold key val) by (intros; apply Hk; by right). done.
Qed.

Lemma contributing_str target sources d h :
  dict_get "habitId" d = Some (JStr h) →
  contributing target sources (JObj d) ↔
  h = target ∨ h ∈ effective_sources target sources.
Proof. intros Hh. unfold contributing, str_field. cbn. by rewrite Hh. Qed.

Lemma contributing_none target sources d :
  dict_get "habitId" d = None → ¬ contributing target sources (JObj d).
Proof. intros Hh. unfold contributing, str_field. cbn. rewrite Hh. tauto. Qed.

Lemma source_habit_str target sources d i :
  dict_get "id" d = Some (JStr i) →
  source_habit target sources (JObj d) ↔
  i ∈ effective_sources target sources.
Proof. intros Hh. unfold source_habit, str_field. cbn. by rewrite Hh. Qed.

Lemma first_max_in {A} (f : A → Z) x l : first_max f x l ∈ x :: l.
Proof.
  revert x. induction l as [|y l IH]; intros x; [left|].
  rewrite first_max_step.
  destruct (f x <? f y).
  - right. apply IH.
  - specialize (IH x). apply elem_of_cons in IH as [->|?]; [left|].
    right. by right.
Qed.

Lemma winner_in g : g ≠ [] → winner g ∈ g.
Proof. destruct g as [|x l]; [done|]. intros _. apply first_max_in. Qed.

Lemma group_of_nonempty {A} (key : A → string) (l : list A) k :
  k ∈ group_keys key l → group_of key l k ≠ [].
Proof.
  intros (x & Hx & Hk)%elem_of_group_keys Hnil.
  assert (x ∈ group_of key l k) as Hin by (by apply list_elem_of_filter).
  rewrite Hnil in Hin. by apply elem_of_nil in Hin.
Qed.

Lemma entry_ok_value e :
  entry_ok e → py_get e "value" (JNum 0) = Ok (JNum (entry_value e)).
Proof.
  intros (d & -> & _ & _ & _ & [Hv|[n Hv]])%entry_ok_inv;
    unfold entry_value; cbn; by rewrite Hv.
Qed.

Lemma entry_ok_id e :
  entry_ok e → py_getitem e "id" = Ok (default JNull (field "id" e)).
Proof.
  intros (d & -> & [i Hi] & _)%entry_ok_inv. cbn. by rewrite Hi.
Qed.

Lemma entry_ok_get e k dflt :
  entry_ok e → py_get e k dflt = Ok (default dflt (field k e)).
Proof. by intros (d & -> & _)%entry_ok_inv. Qed.

Lemma merge_habits_eq self target sources :
  loaded self → snapshot_ok (data self) →
  merge_habits self target sources
  = Ok (merge_result (data self) target sources).
Proof.
  intros Hl Hok. unfold merge_habits. cbv zeta.
  rewrite all_source_ids_eq.
  rewrite (loaded_snapshot_entries self Hl Hok).
  apply snapshot_ok_inv in Hok as (f & Hf & Hhl & _ & Hhs & Hes).
  rewrite Hhl. unfold merge_result, merged_entries.
  set (es := snapshot_entries (data self)) in *.
  set (hs := snapshot_habits (data self)) in *.
  rewrite Hf. clear Hl Hhl Hf.
  rewrite Forall_forall in Hhs, Hes.
  cbn [mbind result_bind].
  (* the grouping loop *)
  rewrite (foldM_ok _ (λ acc e,
             if decide (contributing target sources e)
             then pd_append (JStr (normalized_date e)) e acc else acc));
    last first.
  { intros acc e He.
    apply Hes, entry_ok_inv in He
      as (d & -> & _ & [Hh|[h Hh]] & Hd & _).
    - rewrite decide_False by by apply contributing_none.
      cbn. rewrite Hh. cbn. done.
    - assert (normalized_date (JObj d) =
              String.substring 0 10
                (match default (JStr "") (dict_get "date" d) with
                 | JStr s => s | _ => "" end)) as ->.
      { unfold normalized_date, str_field. cbn.
        by destruct Hd as [->|[dt ->]]. }
      cbn. rewrite Hh. cbn.
      destruct (decide (contributing target sources (JObj d))) as [Hc|Hc];
        rewrite (contributing_str _ _ _ _ Hh) in Hc.
      + case_bool_decide as Ht; cbn.
        * by destruct Hd as [->|[dt ->]].
        * rewrite bool_decide_true by tauto. cbn.
          by destruct Hd as [->|[dt ->]].
      + rewrite bool_decide_false by tauto. cbn.
        rewrite bool_decide_false by tauto. done. }
  rewrite fold_left_filter.
  change (fold_left _ ?l []) with (group_by normalized_date l).
  rewrite group_by_eq.
  set (cs := filter (contributing target sources) es).
  assert (∀ e, e ∈ cs → entry_ok e) as Hcs.
  { intros e [_ He]%list_elem_of_filter. auto. }
  cbn [mbind result_bind].
  (* one merged entry per date *)
  rewrite (forM_ok _ (λ '(date, day_entries),
             JObj [("id", default JNull (field "id" (winner day_entries)));
                   ("habitId", JStr target);
                   ("date", date);
                   ("value",
                    default (JNum 0) (field "value" (winner day_entries)));
                   ("createdAt",
                    default (JStr "")
                            (field "createdAt" (winner day_entries)))]));
    last first.
  { intros [date day_entries] (k & [= <- <-] & Hk%list_elem_of_In)%list_elem_of_In%in_map_iff.
    pose proof (group_of_nonempty _ _ _ Hk) as Hne.
    assert (∀ e, e ∈ group_of normalized_date cs k → entry_ok e) as Hg.
    { intros e [_ He]%list_elem_of_filter. auto. }
    pose proof (Hg _ (winner_in _ Hne)) as Hw.
    destruct (group_of normalized_date cs k) as [|x l] eqn:Hgrp; [done|].
    rewrite (py_max_ok _ entry_value) by (intros; by apply entry_ok_value, Hg).
    cbn [mbind result_bind]. cbn [winner] in Hw |- *.
    rewrite (entry_ok_id _ Hw). cbn [mbind result_bind].
    by rewrite !(entry_ok_get _ _ _ Hw). }
  rewrite map_map. cbn [mbind result_bind].
  (* the entries that are kept *)
  rewrite (filterM_ok _ (λ e, bool_decide (¬ contributing target sources e))
             es);
    last first.
  { intros e He.
    apply Hes, entry_ok_inv in He as (d & -> & _ & [Hh|[h Hh]] & _).
    - rewrite bool_decide_true by by apply contributing_none.
      cbn. by rewrite Hh.
    - cbn. rewrite Hh. cbn.
      destruct (decide (contributing target sources (JObj d))) as [Hc|Hc].
      + rewrite (bool_decide_false (¬ _)) by tauto.
        rewrite (contributing_str _ _ _ _ Hh) in Hc.
        case_bool_decide as Ht; cbn; [done|].
        rewrite bool_decide_true by tauto. done.
      + rewrite (bool_decide_true (¬ _)) by done.
        rewrite (contributing_str _ _ _ _ Hh) in Hc.
        rewrite bool_decide_false by tauto. cbn.
        rewrite bool_decide_false by tauto. done. }
  cbn [mbind result_bind].
  (* the habits that are kept *)
  rewrite (filterM_ok _ (λ h, bool_decide (¬ source_habit target sources h))
             hs);
    last first.
  { intros h Hh.
    apply Hhs, habit_ok_inv in Hh as (d & -> & [i Hi] & _).
    cbn. rewrite Hi. cbn. do 2 f_equal.
    destruct (decide (source_habit target sources (JObj d))) as [Hc|Hc].
    - rewrite (bool_decide_false (¬ _)) by tauto.
      rewrite (source_habit_str _ _ _ _ Hi) in Hc.
      by rewrite bool_decide_true.
    - rewrite (bool_decide_true (¬ _)) by done.
      rewrite (source_habit_str _ _ _ _ Hi) in Hc.
      by rewrite bool_decide_false. }
  cbn [mbind result_bind]. do 4 f_equal.
  - f_equal. apply list_filter_iff. intros e. apply bool_decide_spec.
  - do 2 f_equal. apply list_filter_iff. intros e. apply bool_decide_spec.
Qed.

Lemma merge_result_entries d target sources :
  snapshot_entries (merge_result d target sources) =
  filter (λ e, ¬ contributing target sources e) (snapshot_entries d) ++
  merged_entries target sources (snapshot_entries d).
Proof.
  unfold merge_result at 1, snapshot_entries at 1, items_of, field.
  by rewrite dict_get_set_eq.
Qed.

Lemma merge_result_habits d target sources :
  snapshot_habits (merge_result d target sources) =
  filter (λ h, ¬ source_habit target sources h) (snapshot_habits d).
Proof.
  unfold merge_result at 1, snapshot_habits at 1, items_of, field.
  rewrite dict_get_set_ne by done. by rewrite dict_get_set_eq.
Qed.

Lemma merge_result_field f target sources k :
  k ≠ "habits" → k ≠ "entries" →
  field k (merge_result (JObj f) target sources) = field k (JObj f).
Proof.
  intros Hh He. unfold merge_result, field.
  by rewrite !dict_get_set_ne.
Qed.

(** ** The scan of [max] *)

Lemma first_max_snoc {A} (f : A → Z) x l y :
  first_max f x (l ++ [y]) =
  if f (first_max f x l) <? f y then y else first_max f x l.
Proof. unfold first_max. by rewrite fold_left_app. Qed.

(** The winner is the first item that reaches the maximum: everything before
    it is strictly smaller, nothing after it is greater. *)
Lemma first_max_spec {A} (f : A → Z) x l :
  ∃ pre post,
    x :: l = pre ++ first_max f x l :: post ∧
    (∀ e, e ∈ pre → f e < f (first_max f x l)) ∧
    (∀ e, e ∈ post → f e ≤ f (first_max f x l)).
Proof.
  induction l as [|y l IH] using rev_ind.
  - exists [], []. split_and!; [done|by intros ? ?%elem_of_nil..].
  - destruct IH as (pre & post & Heq & Hpre & Hpost).
    rewrite first_max_snoc.
    destruct (Z.ltb_spec (f (first_max f x l)) (f y)) as [Hlt|Hge].
    + exists (x :: l), []. split_and!; [done| |by intros ? ?%elem_of_nil].
      intros e He. rewrite Heq in He.
      apply elem_of_app in He as [He|He]; [apply Hpre in He; lia|].
      apply elem_of_cons in He as [->|He]; [done|].
      apply Hpost in He. lia.
    + exists pre, (post ++ [y]). split_and!; [|done|].
      * rewrite app_comm_cons, Heq. by rewrite <- app_assoc.
      * intros e [He|He%list_elem_of_singleton]%elem_of_app; [auto|].
        by subst.
Qed.

Lemma winner_spec g :
  g ≠ [] →
  ∃ pre post,
    g = pre ++ winner g :: post ∧
    (∀ e, e ∈ pre → entry_value e < entry_value (winner g)) ∧
    (∀ e, e ∈ post → entry_value e ≤ entry_value (winner g)).
Proof. destruct g as [|x l]; [done|]. intros _. apply first_max_spec. Qed.

Lemma filter_none {A} (P : A → Prop) `{!∀ x, Decision (P x)} (l : list A) :
  (∀ x, x ∈ l → ¬ P x) → filter P l = [].
Proof.
  induction l as [|x l IH]; intros Hl; [done|].
  rewrite filter_cons_False by (apply Hl; left).
  apply IH. intros; apply Hl; by right.
Qed.

Lemma filter_all {A} (P : A → Prop) `{!∀ x, Decision (P x)} (l : list A) :
  (∀ x, x ∈ l → P x) → filter P l = l.
Proof.
  induction l as [|x l IH]; intros Hl; [done|].
  rewrite filter_cons_True by (apply Hl; left).
  f_equal. apply IH. intros; apply Hl; by right.
Qed.

Lemma filter_map_NoDup {K B} (F : K → B) (P : B → Prop)
    `{!∀ b, Decision (P b)} (ks : list K) (k : K) :
  NoDup ks → k ∈ ks → (∀ k', k' ∈ ks → P (F k') ↔ k' = k) →
  filter P (map F ks) = [F k].
Proof.
  induction 1 as [|k0 ks Hk0 Hnd IH]; intros Hin HP;
    [by apply elem_of_nil in Hin|].
  cbn [map]. apply elem_of_cons in Hin as [->|Hin].
  - rewrite filter_cons_True by (apply HP; [left|done]).
    f_equal. apply filter_none.
    intros b (k' & <- & Hk'%list_elem_of_In)%list_elem_of_In%in_map_iff HPb.
    apply HP in HPb; [|by right]. by subst.
  - rewrite filter_cons_False.
    + apply IH; [done|]. intros k' Hk'. apply HP. by right.
    + intros HPb. apply HP in HPb; [|left]. by subst.
Qed.

(** A merge of a well-formed snapshot succeeds, and its result is the one
    [merge_result] describes. *)
Lemma merge_habits_ok self target sources :
  loaded self → snapshot_ok (data self) →
  ∃ result,
    merge_habits self target sources = Ok result ∧
    snapshot_entries result =
      filter (λ e, ¬ contributing target sources e)
             (snapshot_entries (data self)) ++
      merged_entries target sources (snapshot_entries (data self)) ∧
    snapshot_habits result =
      filter (λ h, ¬ source_habit target sources h)
             (snapshot_habits (data self)) ∧
    (∀ k, k ≠ "habits" → k ≠ "entries" →
          field k result = field k (data self)).
Proof.
  intros Hl Hok. exists (merge_result (data self) target sources).
  split_and!.
  - by apply merge_habits_eq.
  - apply merge_result_entries.
  - apply merge_result_habits.
  - apply snapshot_ok_inv in Hok as (f & -> & _).
    intros. by apply merge_result_field.
Qed.

Lemma snapshot_entries_ok d e :
  snapshot_ok d → e ∈ snapshot_entries d → entry_ok e.
Proof.
  intros (f & _ & _ & _ & _ & He)%snapshot_ok_inv.
  rewrite Forall_forall in He. apply He.
Qed.

Lemma snapshot_habits_ok d h :
  snapshot_ok d → h ∈ snapshot_habits d → habit_ok h.
Proof.
  intros (f & _ & _ & _ & Hh & _)%snapshot_ok_inv.
  rewrite Forall_forall in Hh. apply Hh.
Qed.

Lemma contributing_target target sources e :
  str_field "habitId" e = Some target → contributing target sources e.
Proof. unfold contributing. intros ->. by left. Qed.

Lemma merged_entry_habit target date w :
  str_field "habitId" (merged_entry target date w) = Some target.
Proof. done. Qed.

Lemma merged_entry_date target date w :
  str_field "date" (merged_entry target date w) = Some date.
Proof. done. Qed.

Lemma merged_entry_value target date w :
  entry_ok w →
  field "value" (merged_entry target date w) = Some (JNum (entry_value w)).
Proof.
  intros (d & -> & _ & _ & _ & [Hv|[n Hv]])%entry_ok_inv;
    unfold entry_value; cbn; by rewrite Hv.
Qed.

Lemma merged_entry_id target date w :
  entry_ok w → field "id" (merged_entry target date w) = field "id" w.
Proof. intros (d & -> & [i Hi] & _)%entry_ok_inv. cbn. by rewrite Hi. Qed.

(** C1: for every date on which a contributing entry exists, the merge emits
    exactly one entry of the target for that date; it carries the id and
    createdAt of the first entry of the date that reaches the maximum value
    (a missing value counting as 0), that maximum as its value, and the
    normalized date as its date. *)
Theorem merge_max_value_per_date self target sources date :
  loaded self → snapshot_ok (data self) →
  let group :=
    filter (λ e, normalized_date e = date)
           (filter (contributing target sources)
                   (snapshot_entries (data self))) in
  group ≠ [] →
  ∃ result pre w post,
    merge_habits self target sources = Ok result ∧
    group = pre ++ w :: post ∧
    (∀ e, e ∈ pre → entry_value e < entry_value w) ∧
    (∀ e, e ∈ post → entry_value e ≤ entry_value w) ∧
    filter (λ e, str_field "habitId" e = Some target ∧
                 str_field "date" e = Some date)
           (snapshot_entries result)
    = [JObj [("id", default JNull (field "id" w));
             ("habitId", JStr target);
             ("date", JStr date);
             ("value", JNum (entry_value w));
             ("createdAt", default (JStr "") (field "createdAt" w))]] ∧
    is_Some (field "id" w).
Proof.
  intros Hl Hok group Hne.
  destruct (merge_habits_ok self target sources Hl Hok)
    as (result & Hres & Hes & _).
  set (cs := filter (contributing target sources)
                    (snapshot_entries (data self))) in *.
  change group with (group_of normalized_date cs date) in *.
  destruct (winner_spec _ Hne) as (pre & post & Hg & Hpre & Hpost).
  assert (entry_ok (winner (group_of normalized_date cs date))) as Hw.
  { pose proof (winner_in _ Hne) as [_ [_ Hin]%list_elem_of_filter]%list_elem_of_filter.
    by eapply snapshot_entries_ok. }
  exists result, pre, (winner (group_of normalized_date cs date)), post.
  split_and!; [done..| |].
  - rewrite Hes, filter_app, filter_none, app_nil_l.
    + unfold merged_entries. fold cs.
      rewrite (filter_map_NoDup _ _ _ date).
      * unfold merged_entry. do 3 f_equal.
        pose proof (merged_entry_value target date _ Hw) as Hv.
        cbn in Hv. by injection Hv as ->.
      * apply group_keys_NoDup.
      * apply elem_of_group_keys.
        destruct (group_of normalized_date cs date) as [|x l] eqn:Hx; [done|].
        assert (x ∈ group_of normalized_date cs date) as Hin
          by (rewrite Hx; left).
        apply list_elem_of_filter in Hin as [? ?]. eauto.
      * intros k _. rewrite merged_entry_habit, merged_entry_date.
        split; [by intros [_ [= ->]]|by intros ->].
    + intros e [Hnc _]%list_elem_of_filter [Hh _].
      by apply Hnc, contributing_target.
  - apply entry_ok_inv in Hw as (d & -> & [i Hi] & _). cbn. by rewrite Hi.
Qed.

(** The entries of [merged_entries] come from contributing entries. *)
Lemma elem_of_merged_entries target sources es m :
  (∀ e, e ∈ es → entry_ok e) →
  m ∈ merged_entries target sources es →
  ∃ w, w ∈ es ∧ contributing target sources w ∧ entry_ok w ∧
       m = merged_entry target (normalized_date w) w.
Proof.
  intros Hes (k & <- & Hk%list_elem_of_In)%list_elem_of_In%in_map_iff.
  set (cs := filter (contributing target sources) es) in *.
  pose proof (winner_in _ (group_of_nonempty _ _ _ Hk)) as Hw.
  apply list_elem_of_filter in Hw as [Hd Hw].
  apply list_elem_of_filter in Hw as [Hc Hw].
  exists (winner (group_of normalized_date cs k)).
  split_and!; [done|done|by apply Hes|by rewrite Hd].
Qed.

(** C2, as amended: on a snapshot of the data model, where every habit and
    every entry has an id while value, date and createdAt may be missing, the
    merge returns a result, and each entry it emits carries the value of a
    contributing entry with 0 for a missing value, its createdAt with the empty
    string for a missing one, and its normalized date, empty for a missing
    date. *)
Theorem merge_total_with_ids self target sources :
  loaded self → snapshot_ok (data self) →
  ∃ result,
    merge_habits self target sources = Ok result ∧
    ∀ m, m ∈ snapshot_entries result →
         m ∈ snapshot_entries (data self) ∨
         ∃ w, w ∈ snapshot_entries (data self) ∧
              field "id" m = field "id" w ∧
              field "value" m = Some (default (JNum 0) (field "value" w)) ∧
              field "createdAt" m
                = Some (default (JStr "") (field "createdAt" w)) ∧
              field "date" m
                = Some (JStr (String.substring 0 10
                                (default "" (str_field "date" w)))).
Proof.
  intros Hl Hok.
  destruct (merge_habits_ok self target sources Hl Hok)
    as (result & Hres & Hes & _).
  exists result. split; [done|]. intros m. rewrite Hes.
  intros [[_ Hm]%list_elem_of_filter|Hm]%elem_of_app; [by left|right].
  apply elem_of_merged_entries in Hm as (w & Hw & _ & Hwok & ->);
    [|intros; by eapply snapshot_entries_ok].
  exists w. split_and!; [done| |done..].
  by apply merged_entry_id.
Qed.

(** C3: no entry of the result belongs to an effective source: the result's
    entries are the input entries that did not contribute, whose habit is
    neither the target nor an effective source, followed by the merged
    entries, which all belong to the target. *)
Theorem merge_reassigns_habit_ids self target sources :
  loaded self → snapshot_ok (data self) →
  ∃ result others merged,
    merge_habits self target sources = Ok result ∧
    snapshot_entries result = others ++ merged ∧
    (∀ e, e ∈ merged → field "habitId" e = Some (JStr target)) ∧
    (∀ e, e ∈ others → e ∈ snapshot_entries (data self)) ∧
    (∀ e i, e ∈ others → str_field "habitId" e = Some i →
            i ≠ target ∧ i ∉ effective_sources target sources) ∧
    (∀ e i, e ∈ snapshot_entries result → field "habitId" e = Some (JStr i) →
            i ∉ effective_sources target sources).
Proof.
  intros Hl Hok.
  destruct (merge_habits_ok self target sources Hl Hok)
    as (result & Hres & Hes & _).
  assert (∀ e, e ∈ merged_entries target sources
                     (snapshot_entries (data self)) →
               field "habitId" e = Some (JStr target)) as Hmerged.
  { intros e (w & _ & _ & _ & ->)%elem_of_merged_entries; [done|].
    intros; by eapply snapshot_entries_ok. }
  assert (∀ e i, e ∈ filter (λ e, ¬ contributing target sources e)
                            (snapshot_entries (data self)) →
                 str_field "habitId" e = Some i →
                 i ≠ target ∧ i ∉ effective_sources target sources)
    as Hothers.
  { intros e i [Hnc _]%list_elem_of_filter Hi.
    unfold contributing in Hnc. rewrite Hi in Hnc. tauto. }
  eexists result, _, _. split_and!; [done|exact Hes|done| |done|].
  { by intros e [_ He]%list_elem_of_filter. }
  intros e i. rewrite Hes. intros [He|He]%elem_of_app Hi.
  - apply (Hothers e i He). unfold str_field. by rewrite Hi.
  - rewrite (Hmerged e He) in Hi. injection Hi as <-.
    apply target_not_effective.
Qed.

(** Only the effective sources matter to a merge. *)
Lemma merge_habits_effective self target sources sources' :
  effective_sources target sources = effective_sources target sources' →
  merge_habits self target sources = merge_habits self target sources'.
Proof.
  intros Heq. unfold merge_habits. cbv zeta.
  by rewrite !all_source_ids_eq, Heq.
Qed.

(** C4: the result keeps the input habits, in order, except those whose id is
    an effective source; a habit with the target's id is kept as it is; and a
    target listed among the sources changes nothing. *)
Theorem merge_removes_source_habits self target sources :
  loaded self → snapshot_ok (data self) →
  ∃ result,
    merge_habits self target sources = Ok result ∧
    snapshot_habits result =
      filter (λ h, ¬ source_habit target sources h)
             (snapshot_habits (data self)) ∧
    (∀ h, h ∈ snapshot_habits (data self) →
          str_field "id" h = Some target → h ∈ snapshot_habits result) ∧
    merge_habits self target (target :: sources) = Ok result ∧
    merge_habits self target (filter (λ s, s ≠ target) sources) = Ok result.
Proof.
  intros Hl Hok.
  exists (merge_result (data self) target sources).
  split_and!.
  - by apply merge_habits_eq.
  - by rewrite merge_result_habits.
  - intros h Hh Hid. rewrite merge_result_habits.
    apply list_elem_of_filter. split; [|done].
    unfold source_habit. rewrite Hid. apply target_not_effective.
  - rewrite <- (merge_habits_eq self target sources) by done.
    apply merge_habits_effective. symmetry.
    apply effective_sources_cons_target.
  - rewrite <- (merge_habits_eq self target sources) by done.
    apply merge_habits_effective. symmetry.
    apply effective_sources_filter.
Qed.

(** C5: a merge leaves alone what it does not merge: the entries that do not
    contribute come first in the result, unchanged and in their input order,
    before the merged entries; every top-level field other than habits and
    entries is the input's.  The input is a value that [merge_habits] only
    reads. *)
Theorem merge_frame self target sources :
  loaded self → snapshot_ok (data self) →
  ∃ result merged,
    merge_habits self target sources = Ok result ∧
    snapshot_entries result =
      filter (λ e, ¬ contributing target sources e)
             (snapshot_entries (data self)) ++ merged ∧
    (∀ e, e ∈ merged → field "habitId" e = Some (JStr target)) ∧
    (∀ k, k ≠ "habits" → k ≠ "entries" →
          field k result = field k (data self)).
Proof.
  intros Hl Hok.
  destruct (merge_habits_ok self target sources Hl Hok)
    as (result & Hres & Hes & _ & Hfields).
  eexists result, _. split_and!; [done|exact Hes| |done].
  intros e (w & _ & _ & _ & ->)%elem_of_merged_entries; [done|].
  intros; by eapply snapshot_entries_ok.
Qed.

Lemma contributing_no_sources target sources e :
  effective_sources target sources = ∅ →
  contributing target sources e ↔ str_field "habitId" e = Some target.
Proof.
  intros Heq. unfold contributing. rewrite Heq.
  destruct (str_field "habitId" e) as [i|]; [|done].
  rewrite elem_of_empty. split; [by intros [->|[]]|intros [= ->]; by left].
Qed.

Lemma source_habit_no_sources target sources h :
  effective_sources target sources = ∅ → ¬ source_habit target sources h.
Proof.
  intros Heq. unfold source_habit. rewrite Heq.
  destruct (str_field "id" h); [apply not_elem_of_empty|tauto].
Qed.

Lemma substring_idemp n s :
  String.substring 0 n (String.substring 0 n s) = String.substring 0 n s.
Proof.
  revert s. induction n as [|n IH]; intros [|c s]; cbn; try done.
  by rewrite IH.
Qed.

Lemma normalized_date_idemp e :
  String.substring 0 10 (normalized_date e) = normalized_date e.
Proof. apply substring_idemp. Qed.

Lemma normalized_date_merged target date w :
  normalized_date (merged_entry target date w) = String.substring 0 10 date.
Proof. done. Qed.

(** A list that lists first what does not satisfy [T] and then items that
    all satisfy it ends with its own items satisfying [T]. *)
Lemma filter_split_tail {A} (T : A → Prop) `{!∀ x, Decision (T x)}
    (l m : list A) :
  l = filter (λ x, ¬ T x) l ++ m → (∀ x, x ∈ m → T x) → m = filter T l.
Proof.
  intros Hl Hm. apply (f_equal (filter T)) in Hl.
  rewrite filter_app, (filter_all T m Hm) in Hl.
  rewrite (filter_none T (filter _ l)) in Hl; [done|].
  by intros x [? _]%list_elem_of_filter.
Qed.

(** C9, as stated, fails: a merge with no effective source can return the
    document it was given.  The one entry of "kb" in the test document is
    the last entry, has a date of 10 characters and the five keys of a merged
    entry in their order, so that rewriting it changes nothing; and a habit
    without entries has nothing to rewrite. *)
Lemma merge_without_sources_can_return_input :
  from_data MERGE_TEST_DATA = Ok merge_data ∧
  snapshot_ok (data merge_data) ∧
  effective_sources "kb" [] = ∅ ∧ effective_sources "kb" ["kb"] = ∅ ∧
  merge_habits merge_data "kb" [] = Ok (data merge_data) ∧
  merge_habits merge_data "kb" ["kb"] = Ok (data merge_data) ∧
  snapshot_entries <$> merge_habits merge_data "nobody" []
  = Ok (snapshot_entries (data merge_data)).
Proof. split_and!; vm_compute; done. Qed.

(** C9, as amended: with no effective source the merge leaves the habits
    alone and rewrites the target's own entries.  The entries of the other
    habits come first, unchanged and in order; then, for each normalized date
    of an entry of the target, comes one entry that carries that date and the
    winner's value, the maximum of the date.  The entries come back unchanged
    only when there was nothing to rewrite: the target's entries were last,
    one per day, with dates of their normalized form.  The second part
    exhibits a snapshot whose entries such a merge changes. *)
Theorem merge_without_sources_rewrites_target :
  (∀ self target sources,
     loaded self → snapshot_ok (data self) →
     effective_sources target sources = ∅ →
     let es := snapshot_entries (data self) in
     let own := filter (λ e, str_field "habitId" e = Some target) es in
     let others := filter (λ e, ¬ str_field "habitId" e = Some target) es in
     ∃ result merged,
       merge_habits self target sources = Ok result ∧
       snapshot_habits result = snapshot_habits (data self) ∧
       snapshot_entries result = others ++ merged ∧
       (∀ m, m ∈ merged →
             ∃ w, w ∈ own ∧ m = merged_entry target (normalized_date w) w) ∧
       (∀ date, (∃ e, e ∈ own ∧ normalized_date e = date) →
          ∃ w, w ∈ own ∧ normalized_date w = date ∧
               (∀ e, e ∈ own → normalized_date e = date →
                     entry_value e ≤ entry_value w) ∧
               filter (λ m, str_field "date" m = Some date) merged
               = [merged_entry target date w]) ∧
       (snapshot_entries result = es →
          es = others ++ own ∧
          NoDup (map normalized_date own) ∧
          ∀ e, e ∈ own → str_field "date" e = Some (normalized_date e))) ∧
  (∃ self result,
     loaded self ∧ snapshot_ok (data self) ∧
     merge_habits self "run" [] = Ok result ∧
     snapshot_entries result ≠ snapshot_entries (data self)).
Proof.
  split.
  - intros self target sources Hl Hok Heff es own others.
    destruct (merge_habits_ok self target sources Hl Hok)
      as (result & Hres & Hes & Hhs & _).
    assert (filter (contributing target sources) es = own) as Hown.
    { apply list_filter_iff. intros e. by apply contributing_no_sources. }
    assert (filter (λ e, ¬ contributing target sources e) es = others)
      as Hothers.
    { apply list_filter_iff. intros e. by rewrite contributing_no_sources. }
    fold es in Hes. rewrite Hothers in Hes.
    set (merged := merged_entries target sources es) in *.
    assert (∀ m, m ∈ merged →
              ∃ w, w ∈ own ∧ m = merged_entry target (normalized_date w) w)
      as Hmerged.
    { intros m (w & Hw & Hc & _ & ->)%elem_of_merged_entries;
        [|intros; by eapply snapshot_entries_ok].
      exists w. split; [|done]. apply list_elem_of_filter.
      split; [|done]. by apply contributing_no_sources in Hc. }
    exists result, merged. split_and!; [done| |done|done| |].
    + rewrite Hhs. apply filter_all.
      intros h _. by apply source_habit_no_sources.
    + intros date Hdate. unfold merged, merged_entries. cbv zeta.
      rewrite Hown.
      assert (date ∈ group_keys normalized_date own) as Hk
        by by apply elem_of_group_keys.
      pose proof (group_of_nonempty _ _ _ Hk) as Hne.
      pose proof (winner_in _ Hne) as Hw.
      destruct (winner_spec _ Hne) as (pre & post & Hg & Hpre & Hpost).
      exists (winner (group_of normalized_date own date)).
      apply list_elem_of_filter in Hw as [Hwd Hwo].
      split_and!; [done|done| |].
      * intros e He Hd.
        assert (e ∈ group_of normalized_date own date) as Hin
          by by apply list_elem_of_filter.
        rewrite Hg in Hin.
        apply elem_of_app in Hin as [Hin|Hin]; [apply Hpre in Hin; lia|].
        apply elem_of_cons in Hin as [->|Hin]; [done|by apply Hpost].
      * apply (filter_map_NoDup
                 (λ k, merged_entry target k
                         (winner (group_of normalized_date own k))));
          [apply group_keys_NoDup|done|].
        intros k _. rewrite merged_entry_date.
        split; [by intros [= ->]|by intros ->].
    + intros Heq. rewrite Hes in Heq.
      assert (merged = own) as Hmo.
      { apply filter_split_tail; [done|].
        intros m (w & _ & ->)%Hmerged. apply merged_entry_habit. }
      split_and!.
      * by rewrite <- Hmo.
      * rewrite <- Hmo at 1. unfold merged, merged_entries. cbv zeta.
        rewrite Hown, map_map.
        erewrite map_ext_in; [rewrite map_id; apply group_keys_NoDup|].
        intros k (x & _ & <-)%list_elem_of_In%elem_of_group_keys.
        rewrite normalized_date_merged. apply normalized_date_idemp.
      * intros e He. rewrite <- Hmo in He.
        apply Hmerged in He as (w & _ & ->).
        rewrite normalized_date_merged, normalized_date_idemp.
        apply merged_entry_date.
  - exists (the (from_data TWICE_A_DAY)).
    eexists. split_and!.
    + by exists no_files, None, TWICE_A_DAY.
    + done.
    + vm_compute. reflexivity.
    + vm_compute. discriminate.
Qed.

Lemma str_lt_compare a b : str_lt a b ↔ String.compare a b = Lt.
Proof.
  unfold str_lt, String.ltb. destruct (String.compare a b); split; done.
Qed.

Lemma str_lt_trans a b c : str_lt a b → str_lt b c → str_lt a c.
Proof.
  rewrite !str_lt_compare.
  rewrite !OrderedTypeEx.String_as_OT.cmp_lt.
  apply OrderedTypeEx.String_as_OT.lt_trans.
Qed.

Lemma str_lt_total a b : a ≠ b → ¬ str_lt a b → str_lt b a.
Proof.
  rewrite !str_lt_compare. intros Hne Hlt.
  rewrite String.compare_antisym.
  destruct (String.compare a b) eqn:Hc; [|done..].
  by apply String.compare_eq_iff in Hc.
Qed.

Lemma str_lt_irrefl a : ¬ str_lt a a.
Proof.
  rewrite str_lt_compare. intros Hlt.
  pose proof (String.compare_antisym a a) as H. rewrite Hlt in H. done.
Qed.

Lemma str_insert_perm x l : str_insert x l ≡ₚ x :: l.
Proof.
  induction l as [|y l IH]; [done|]. cbn.
  destruct (String.ltb y x); [|done].
  rewrite IH. apply Permutation_swap.
Qed.

Lemma str_sort_perm l : str_sort l ≡ₚ l.
Proof.
  induction l as [|x l IH]; [done|]. cbn.
  by rewrite str_insert_perm, IH.
Qed.

Lemma str_insert_sorted x l :
  x ∉ l → StronglySorted str_lt l → StronglySorted str_lt (str_insert x l).
Proof.
  induction l as [|y l IH]; intros Hx Hs.
  - repeat constructor.
  - apply not_elem_of_cons in Hx as [Hxy Hxl].
    apply StronglySorted_inv in Hs as [Hs Hy]. cbn.
    destruct (String.ltb y x) eqn:Hlt.
    + constructor; [by apply IH|].
      rewrite str_insert_perm. by constructor.
    + assert (str_lt x y) as Hxy'.
      { apply str_lt_total; [done|]. unfold str_lt. by rewrite Hlt. }
      constructor; [by constructor|].
      constructor; [done|].
      eapply Forall_impl; [exact Hy|]. intros z. by apply str_lt_trans.
Qed.

Lemma str_sort_sorted l : NoDup l → StronglySorted str_lt (str_sort l).
Proof.
  induction 1 as [|x l Hx Hnd IH]; [constructor|]. cbn.
  apply str_insert_sorted; [|done]. by rewrite str_sort_perm.
Qed.

(** ** Sorting the categories *)

Section SortItems.
Context {V : Type} (lt : json * V → json * V → result bool).
Context (F : string → json * V).
Hypothesis lt_F : ∀ a b, a ≠ b → lt (F a) (F b) = Ok (String.ltb a b).

Lemma sorted_insert_ok x l :
  x ∉ l →
  sorted_insert lt (F x) (map F l) = Ok (map F (str_insert x l)).
Proof.
  induction l as [|y l IH]; intros Hx; [done|].
  apply not_elem_of_cons in Hx as [Hxy Hxl].
  cbn [map sorted_insert str_insert].
  rewrite lt_F by done. cbn [mbind result_bind].
  destruct (String.ltb y x); [|done].
  by rewrite IH.
Qed.

Lemma py_sorted_ok l :
  NoDup l → py_sorted lt (map F l) = Ok (map F (str_sort l)).
Proof.
  induction 1 as [|x l Hx Hnd IH]; [done|].
  cbn [map py_sorted str_sort]. rewrite IH. cbn [mbind result_bind].
  apply sorted_insert_ok. by rewrite str_sort_perm.
Qed.
End SortItems.

Lemma item_lt_str (a b : string) (g g' : list json) :
  a ≠ b → item_lt (JStr a, g) (JStr b, g') = Ok (String.ltb a b).
Proof.
  intros Hne. unfold item_lt. cbn [fst snd]. rewrite py_eq_str.
  by rewrite bool_decide_false.
Qed.

(** ** The queries on a well-formed snapshot *)

Lemma py_sum_ok {A} (term : A → result json) (val : A → Z) (l : list A) :
  (∀ x, x ∈ l → term x = Ok (JNum (val x))) →
  py_sum term l = Ok (foldr (λ x acc, val x + acc) 0 l).
Proof.
  intros Hl. unfold py_sum.
  assert (∀ acc,
    foldM (λ (acc : Z) (x : A),
             v ← term x;
             match num_of v with
             | Some n => Ok (acc + n)
             | None => Raise TypeError
             end) acc l = Ok (acc + foldr (λ x acc, val x + acc) 0 l)) as H.
  { induction l as [|x l IH]; intros acc; cbn [foldM foldr].
    - f_equal. lia.
    - rewrite (Hl x) by left. cbn.
      rewrite IH by (intros; apply Hl; by right). f_equal. lia. }
  by rewrite H.
Qed.

Lemma habit_ok_category h :
  habit_ok h →
  py_get h "category" (JStr "uncategorized") = Ok (JStr (habit_category h)).
Proof.
  intros (d & -> & _ & _ & [Hc|[c Hc]] & _)%habit_ok_inv;
    unfold habit_category, str_field; cbn; by rewrite Hc.
Qed.

Lemma habit_ok_target h :
  habit_ok h →
  py_get h "targetPerWeek" (JNum 0) = Ok (JNum (habit_target h)).
Proof.
  intros (d & -> & _ & _ & _ & [Ht|[n Ht]])%habit_ok_inv;
    unfold habit_target; cbn; by rewrite Ht.
Qed.

Lemma get_categories_eq self :
  snapshot_ok (data self) →
  get_categories self
  = Ok (group_by habit_category (snapshot_habits (data self))).
Proof.
  intros Hok. unfold get_categories.
  pose proof (snapshot_ok_inv _ Hok) as (f & _ & -> & _).
  cbn [mbind result_bind].
  apply foldM_ok. intros acc h Hh.
  by rewrite (habit_ok_category h) by by eapply snapshot_habits_ok.
Qed.

Lemma get_category_stats_eq self :
  snapshot_ok (data self) →
  let hs := snapshot_habits (data self) in
  get_category_stats self
  = Ok (map (λ c, (JStr c, Z.of_nat (length (in_category c hs)),
                   total_target (in_category c hs)))
            (str_sort (group_keys habit_category hs))).
Proof.
  intros Hok hs. unfold get_category_stats.
  rewrite get_categories_eq by done. cbn [mbind result_bind].
  fold hs. rewrite group_by_eq.
  rewrite (py_sorted_ok item_lt
             (λ k, (JStr k, group_of habit_category hs k)));
    [|intros; by apply item_lt_str|apply group_keys_NoDup].
  cbn [mbind result_bind].
  rewrite (forM_ok _ (λ '(cat, habits),
             (cat, Z.of_nat (length habits), total_target habits))).
  - by rewrite map_map.
  - intros [cat g] (k & [= <- <-] & Hk)%list_elem_of_In%in_map_iff.
    rewrite (py_sum_ok _ habit_target); [done|].
    intros h [_ Hh]%list_elem_of_filter.
    apply habit_ok_target. by eapply snapshot_habits_ok.
Qed.

(** Every habit is counted in exactly one category. *)
Lemma count_cons {A} (cat : A → string) (names : list string) h hs :
  NoDup names →
  sum_list_with (λ c, length (filter (λ x, cat x = c) (h :: hs))) names =
  ((if decide (cat h ∈ names) then 1 else 0) +
   sum_list_with (λ c, length (filter (λ x, cat x = c) hs)) names)%nat.
Proof.
  induction 1 as [|c names Hc Hnd IH]; [done|].
  cbn [sum_list_with]. rewrite IH, filter_cons.
  destruct (decide (cat h = c)) as [<-|Hne].
  - rewrite (decide_True (P := cat h ∈ cat h :: names)) by left.
    rewrite (decide_False (P := cat h ∈ names)) by done. cbn. lia.
  - destruct (decide (cat h ∈ names)) as [Hin|Hnin].
    + rewrite (decide_True (P := cat h ∈ c :: names)) by by right. lia.
    + rewrite (decide_False (P := cat h ∈ c :: names)); [lia|].
      by intros [?|?]%elem_of_cons.
Qed.

Lemma count_partition {A} (cat : A → string) (names : list string) hs :
  NoDup names → (∀ h, h ∈ hs → cat h ∈ names) →
  sum_list_with (λ c, length (filter (λ x, cat x = c) hs)) names = length hs.
Proof.
  intros Hnd. induction hs as [|h hs IH]; intros Hin.
  - clear. induction names as [|c names IH]; [done|].
    cbn [sum_list_with]. rewrite IH. by rewrite filter_nil.
  - rewrite count_cons by done. rewrite decide_True by (apply Hin; left).
    rewrite IH by (intros; apply Hin; by right). done.
Qed.

(** C6: the statistics list one tuple per category, by ascending name: the
    name, the number of habits of the category and the sum of their weekly
    targets, a habit without category counting under "uncategorized" and a
    missing target as 0; the counts add up to the number of habits. *)
Theorem category_stats_sorted_and_counted self :
  loaded self → snapshot_ok (data self) →
  let hs := snapshot_habits (data self) in
  ∃ stats names,
    get_category_stats self = Ok stats ∧
    stats = map (λ c, (JStr c, Z.of_nat (length (in_category c hs)),
                       total_target (in_category c hs))) names ∧
    StronglySorted (λ a b, String.ltb a b = true) names ∧
    (∀ c, c ∈ names ↔ ∃ h, h ∈ hs ∧ habit_category h = c) ∧
    foldr (λ s acc, s.1.2 + acc) 0 stats = Z.of_nat (length hs).
Proof.
  intros _ Hok hs.
  eexists _, (str_sort (group_keys habit_category hs)).
  split_and!.
  - by apply get_category_stats_eq.
  - done.
  - apply str_sort_sorted, group_keys_NoDup.
  - intros c. rewrite str_sort_perm. apply elem_of_group_keys.
  - rewrite <- (count_partition habit_category
                  (str_sort (group_keys habit_category hs)) hs).
    + fold hs. unfold in_category.
      induction (str_sort (group_keys habit_category hs)) as [|c l IH];
        [done|].
      cbn [map foldr sum_list_with fst snd]. rewrite IH. lia.
    + rewrite str_sort_perm. apply group_keys_NoDup.
    + intros h Hh. rewrite str_sort_perm. apply elem_of_group_keys. eauto.
Qed.

(** ** Case-insensitive search *)

Lemma lower_char_unfold c :
  lower_char c =
  if is_upper c then ascii_of_N (N_of_ascii c + 32) else c.
Proof. done. Qed.

Lemma lower_char_not_upper c : is_upper (lower_char c) = false.
Proof. by destruct c as [[] [] [] [] [] [] [] []]. Qed.

Lemma lower_char_code c :
  is_upper c = true → N_of_ascii (lower_char c) = (N_of_ascii c + 32)%N.
Proof. by destruct c as [[] [] [] [] [] [] [] []]. Qed.

Lemma lower_char_idemp c : lower_char (lower_char c) = lower_char c.
Proof.
  rewrite (lower_char_unfold (lower_char c)).
  by rewrite lower_char_not_upper.
Qed.

Lemma same_letter_lower a b :
  same_letter a b ↔ lower_char a = lower_char b.
Proof.
  split.
  - intros [->|[<-| ->]]; by rewrite ?lower_char_idemp.
  - intros Heq. unfold same_letter.
    destruct (is_upper a) eqn:Ha, (is_upper b) eqn:Hb.
    + left. apply (f_equal N_of_ascii) in Heq.
      rewrite !lower_char_code in Heq by done.
      rewrite <- (ascii_N_embedding a), <- (ascii_N_embedding b).
      f_equal. lia.
    + right; left. rewrite Heq, (lower_char_unfold b). by rewrite Hb.
    + right; right. rewrite <- Heq, (lower_char_unfold a). by rewrite Ha.
    + left. rewrite (lower_char_unfold a), (lower_char_unfold b) in Heq.
      by rewrite Ha, Hb in Heq.
Qed.

Lemma ci_equal_lower a b : ci_equal a b ↔ lower_latin1 a = lower_latin1 b.
Proof.
  revert b. induction a as [|x a IH]; intros [|y b]; cbn; try done.
  rewrite same_letter_lower, IH. split.
  - by intros [-> ->].
  - by intros [= -> ->].
Qed.

Lemma lower_latin1_app a b :
  lower_latin1 (a +:+ b) = lower_latin1 a +:+ lower_latin1 b.
Proof. induction a as [|x a IH]; simpl; [done|]. by rewrite IH. Qed.

(** [prefix] and [in] on strings, as splittings. *)
Lemma prefix_split p s :
  String.prefix p s = true ↔ ∃ post, s = p +:+ post.
Proof.
  revert s. induction p as [|x p IH]; intros s; cbn.
  - destruct s; split; eauto.
  - destruct s as [|y s]; cbn.
    + split; [done|]. by intros [post ?].
    + destruct (ascii_dec x y) as [->|Hne].
      * rewrite IH. split; intros [post Hp]; exists post.
        -- by rewrite Hp.
        -- by injection Hp.
      * split; [done|]. intros [post [= ? ?]]. done.
Qed.

Lemma str_contains_split p s :
  str_contains p s = true ↔ ∃ pre post, s = pre +:+ p +:+ post.
Proof.
  induction s as [|y s IH]; cbn [str_contains].
  - rewrite orb_false_r, prefix_split. split.
    + intros [post ->]. by exists EmptyString, post.
    + intros ([|? ?] & post & Hs); [eauto|done].
  - rewrite orb_true_iff, prefix_split, IH. split.
    + intros [[post ->]|(pre & post & ->)].
      * by exists EmptyString, post.
      * by exists (String y pre), post.
    + intros ([|x pre] & post & Hs).
      * left. eauto.
      * right. injection Hs as -> ->. eauto.
Qed.

(** A splitting of [lower_latin1 s] comes from a splitting of [s]. *)
Lemma lower_latin1_split s a b :
  lower_latin1 s = a +:+ b →
  ∃ a' b', s = a' +:+ b' ∧ lower_latin1 a' = a ∧ lower_latin1 b' = b.
Proof.
  revert s. induction a as [|x a IH]; intros s Hs.
  - by exists EmptyString, s.
  - destruct s as [|y s]; [done|]. cbn in Hs. injection Hs as Hx Hs.
    destruct (IH _ Hs) as (a' & b' & -> & <- & <-).
    exists (String y a'), b'. cbn. by rewrite Hx.
Qed.

Lemma str_contains_lower p s :
  str_contains (lower_latin1 p) (lower_latin1 s) = true ↔ occurs_ci p s.
Proof.
  rewrite str_contains_split. unfold occurs_ci. split.
  - intros (pre & post & Hs).
    apply lower_latin1_split in Hs as (pre' & rest & -> & <- & Hrest).
    apply lower_latin1_split in Hrest as (mid & post' & -> & Hmid & <-).
    exists pre', mid, post'. split; [done|]. by apply ci_equal_lower.
  - intros (pre & mid & post & -> & Hci%ci_equal_lower).
    exists (lower_latin1 pre), (lower_latin1 post).
    by rewrite !lower_latin1_app, Hci.
Qed.

#[global] Instance occurs_ci_dec p s : Decision (occurs_ci p s).
Proof.
  refine (cast_if (decide (str_contains (lower_latin1 p) (lower_latin1 s) = true)));
    by rewrite <- str_contains_lower.
Defined.

Lemma habit_ok_name h :
  habit_ok h → py_get h "name" (JStr "") = Ok (JStr (habit_name h)).
Proof.
  intros (d & -> & _ & [Hn|[n Hn]] & _)%habit_ok_inv;
    unfold habit_name, str_field; cbn; by rewrite Hn.
Qed.

Lemma filter_iff_Forall {A} (P Q : A → Prop) `{!∀ x, Decision (P x)}
    `{!∀ x, Decision (Q x)} (l : list A) :
  Forall (λ x, P x ↔ Q x) l → filter P l = filter Q l.
Proof.
  induction 1 as [|x l Hx _ IH]; [done|].
  rewrite !filter_cons, IH.
  destruct (decide (P x)), (decide (Q x)); first [done|exfalso; tauto].
Qed.

(** Whatever [lower] does, the search keeps the habits for which the lowered
    pattern occurs in the lowered name. *)
Lemma find_habits_by_name_eq lower self pattern :
  snapshot_ok (data self) →
  find_habits_by_name lower self pattern
  = Ok (filter (λ h, str_contains (lower pattern) (lower (habit_name h))
                     = true)
               (snapshot_habits (data self))).
Proof.
  intros Hok. unfold find_habits_by_name. cbv zeta.
  pose proof (snapshot_ok_inv _ Hok) as (f & _ & -> & _).
  cbn [mbind result_bind].
  rewrite (filterM_ok _ (λ h, str_contains (lower pattern)
                                           (lower (habit_name h)))).
  - f_equal. apply list_filter_iff. intros h. apply Is_true_true.
  - intros h Hh.
    by rewrite (habit_ok_name h) by by eapply snapshot_habits_ok.
Qed.




(** ** The other queries *)

Lemma get_habits_by_category_eq self category :
  snapshot_ok (data self) →
  get_habits_by_category self category
  = Ok (filter (λ h, str_field "category" h = Some category)
               (snapshot_habits (data self))).
Proof.
  intros Hok. unfold get_habits_by_category.
  pose proof (snapshot_ok_inv _ Hok) as (f & _ & -> & _).
  cbn [mbind result_bind].
  rewrite (filterM_ok _ (λ h, bool_decide
                                (str_field "category" h = Some category))).
  - f_equal. apply list_filter_iff. intros h. apply bool_decide_spec.
  - intros h Hh.
    apply (snapshot_habits_ok _ _ Hok), habit_ok_inv in Hh
      as (d & -> & _ & _ & [Hc|[c Hc]] & _);
      unfold str_field; cbn; rewrite Hc; cbn; [done|].
    f_equal. apply bool_decide_ext. split; congruence.
Qed.

Lemma get_entries_for_habit_eq self habit_id :
  loaded self → snapshot_ok (data self) →
  get_entries_for_habit self habit_id
  = Ok (filter (λ e, str_field "habitId" e = Some habit_id)
               (snapshot_entries (data self))).
Proof.
  intros Hl Hok. unfold get_entries_for_habit.
  rewrite loaded_snapshot_entries by done. cbn [mbind result_bind].
  rewrite (filterM_ok _ (λ e, bool_decide
                                (str_field "habitId" e = Some habit_id))).
  - f_equal. apply list_filter_iff. intros h. apply bool_decide_spec.
  - intros e He.
    apply (snapshot_entries_ok _ _ Hok), entry_ok_inv in He
      as (d & -> & _ & [Hh|[h Hh]] & _);
      unfold str_field; cbn; rewrite Hh; cbn; [done|].
    f_equal. apply bool_decide_ext. split; congruence.
Qed.

Lemma loaded_habit_index self :
  loaded self → snapshot_ok (data self) →
  habits self = habit_index (snapshot_habits (data self)).
Proof.
  intros (hl & Hhl & Hfold)%loaded_habits Hok.
  pose proof (snapshot_ok_inv _ Hok) as (f & _ & Hhs & _).
  rewrite Hhs in Hhl. injection Hhl as <-.
  rewrite (foldM_ok _ (λ acc h,
             pd_set (JStr (default "" (str_field "id" h))) h acc)) in Hfold.
  - by injection Hfold.
  - intros acc h Hh.
    apply (snapshot_habits_ok _ _ Hok), habit_ok_inv in Hh
      as (d & -> & [i Hi] & _).
    unfold str_field. cbn. rewrite Hi. done.
Qed.

Lemma pd_get_set_str {V} (a b : string) (v : V) (d : pydict V) :
  Forall (λ kv, is_str kv.1) d →
  pd_get (JStr a) (pd_set (JStr b) v d) =
  if decide (a = b) then Some v else pd_get (JStr a) d.
Proof.
  induction 1 as [|[k w] d Hk Hd IH]; cbn [pd_get pd_set].
  - rewrite py_eq_str. case_bool_decide; by case_decide.
  - apply is_str_inv in Hk as [s Hs]. cbn in Hs. subst k.
    rewrite !py_eq_str.
    destruct (decide (b = s)) as [->|Hbs].
    + rewrite bool_decide_true by done. cbn [pd_get]. rewrite py_eq_str.
      destruct (decide (a = s)) as [->|Has].
      * by rewrite bool_decide_true.
      * by rewrite bool_decide_false.
    + rewrite bool_decide_false by done. cbn [pd_get]. rewrite py_eq_str.
      rewrite IH. destruct (decide (a = s)) as [->|Has].
      * rewrite bool_decide_true by done. by rewrite decide_False.
      * by rewrite bool_decide_false.
Qed.

Lemma pd_set_str_keys {V} (b : string) (v : V) (d : pydict V) :
  Forall (λ kv, is_str kv.1) d →
  Forall (λ kv, is_str kv.1) (pd_set (JStr b) v d).
Proof.
  induction 1 as [|[k w] d Hk Hd IH]; cbn [pd_set].
  - by repeat constructor.
  - destruct (py_eq (JStr b) k); by constructor.
Qed.

Lemma habit_index_snoc hs h :
  habit_index (hs ++ [h]) =
  pd_set (JStr (default "" (str_field "id" h))) h (habit_index hs).
Proof. unfold habit_index. by rewrite fold_left_app. Qed.

Lemma habit_index_keys hs : Forall (λ kv, is_str kv.1) (habit_index hs).
Proof.
  induction hs as [|h hs IH] using rev_ind; [constructor|].
  rewrite habit_index_snoc. by apply pd_set_str_keys.
Qed.

(** The index holds, for an id, the last habit of the list with that id. *)
Lemma habit_index_last hs i :
  (∀ h, h ∈ hs → habit_ok h) →
  pd_get (JStr i) (habit_index hs)
  = last (filter (λ h, str_field "id" h = Some i) hs).
Proof.
  induction hs as [|h hs IH] using rev_ind; intros Hok; [done|].
  rewrite habit_index_snoc, pd_get_set_str by apply habit_index_keys.
  rewrite filter_app, IH by (intros; apply Hok, elem_of_app; by left).
  assert (habit_ok h) as (d & -> & [j Hj] & _)%habit_ok_inv.
  { apply Hok, elem_of_app. right. left. }
  assert (str_field "id" (JObj d) = Some j) as Hid
    by (unfold str_field; cbn; by rewrite Hj).
  rewrite Hid. change (default "" (Some j)) with j.
  destruct (decide (i = j)) as [->|Hne].
  - rewrite filter_cons_True, filter_nil by done. by rewrite last_snoc.
  - rewrite filter_cons_False, filter_nil, app_nil_r; [done|].
    rewrite Hid. intros [= ?]. done.
Qed.

Lemma get_habit_name_eq self habit_id :
  loaded self → snapshot_ok (data self) →
  get_habit_name self habit_id
  = Ok (JStr (display_name
                (last (filter (λ h, str_field "id" h = Some habit_id)
                              (snapshot_habits (data self)))))).
Proof.
  intros Hl Hok. unfold get_habit_name.
  rewrite (loaded_habit_index self Hl Hok).
  rewrite habit_index_last by (intros; by eapply snapshot_habits_ok).
  destruct (last _) as [h|] eqn:Hlast; [|done].
  apply last_Some_elem_of, list_elem_of_filter in Hlast as [_ Hh].
  apply (snapshot_habits_ok _ _ Hok), habit_ok_inv in Hh
    as (d & -> & [j Hj] & [Hn|[n Hn]] & _);
    (destruct d; [done|]); unfold display_name, str_field; cbn -[dict_get];
    by rewrite Hn.
Qed.

(** C2, as stated, fails: both snapshots load; merging into the habit of an
    entry that has no id raises [KeyError], and merging into the habit of an
    entry whose date is a number raises [TypeError]. *)
Lemma merge_entry_without_id_raises :
  from_data ENTRY_WITHOUT_ID = Ok (the (from_data ENTRY_WITHOUT_ID)) ∧
  merge_habits (the (from_data ENTRY_WITHOUT_ID)) "run" [] = Raise KeyError ∧
  from_data NUMERIC_DATE = Ok (the (from_data NUMERIC_DATE)) ∧
  merge_habits (the (from_data NUMERIC_DATE)) "run" [] = Raise TypeError.
Proof. split_and!; vm_compute; reflexivity. Qed.

(** The constructor accepts every snapshot of the data model. *)
Lemma HumaneData_init_ok json_load filepath d :
  snapshot_ok d →
  ∃ self, HumaneData_init json_load filepath d = Ok self ∧ data self = d.
Proof.
  intros Hok.
  pose proof (snapshot_ok_inv _ Hok) as (f & -> & Hhs & Hes & _).
  unfold HumaneData_init. cbn [mbind result_bind]. rewrite Hhs.
  cbn [mbind result_bind].
  rewrite (foldM_ok _ (λ acc h,
             pd_set (JStr (default "" (str_field "id" h))) h acc)).
  - cbn [mbind result_bind]. rewrite Hes. cbn [mbind result_bind]. eauto.
  - intros acc h Hh.
    apply (snapshot_habits_ok _ _ Hok), habit_ok_inv in Hh
      as (d & -> & [i Hi] & _).
    unfold str_field. cbn. rewrite Hi. done.
Qed.



Lemma category_counts_total (hs : list json) :
  foldr (λ (s : json * Z * Z) acc, s.1.2 + acc) 0
        (map (λ c, (JStr c, Z.of_nat (length (in_category c hs)),
                    total_target (in_category c hs)))
             (str_sort (group_keys habit_category hs)))
  = Z.of_nat (length hs).
Proof.
  rewrite <- (count_partition habit_category
                (str_sort (group_keys habit_category hs)) hs).
  - unfold in_category.
    induction (str_sort (group_keys habit_category hs)) as [|c l IH];
      [done|].
    cbn [map foldr sum_list_with fst snd]. rewrite IH. lia.
  - rewrite str_sort_perm. apply group_keys_NoDup.
  - intros h Hh. rewrite str_sort_perm. apply elem_of_group_keys. eauto.
Qed.

Lemma filter_two_occurrences {A} (P : A → Prop) `{!∀ x, Decision (P x)}
    (l1 l2 l3 : list A) (h1 h2 : A) :
  filter P (l1 ++ h1 :: l2 ++ h2 :: l3) =
  filter P l1 ++ filter P [h1] ++ filter P l2 ++ filter P [h2] ++ filter P l3.
Proof.
  change (h1 :: l2 ++ h2 :: l3) with ([h1] ++ l2 ++ [h2] ++ l3).
  by rewrite !filter_app.
Qed.

(** C10: when two habits share an id, the queries that walk the list of
    habits return and count both, and the lookups by id know one habit, the
    last of the list with that id, and one list of entries. *)
Theorem duplicate_ids_list_vs_index self i h1 h2 l1 l2 l3 :
  loaded self → snapshot_ok (data self) →
  snapshot_habits (data self) = l1 ++ h1 :: l2 ++ h2 :: l3 →
  str_field "id" h1 = Some i → str_field "id" h2 = Some i →
  filter (λ h, str_field "id" h = Some i) l3 = [] →
  let hs := snapshot_habits (data self) in
  (* the list-based queries *)
  (∃ groups,
     get_categories self = Ok groups ∧
     (∀ c g, (c, g) ∈ groups →
             ∃ k, c = JStr k ∧
                  g = in_category k l1 ++ in_category k [h1] ++
                      in_category k l2 ++ in_category k [h2] ++
                      in_category k l3) ∧
     (∃ g1 g2, (JStr (habit_category h1), g1) ∈ groups ∧ h1 ∈ g1 ∧
               (JStr (habit_category h2), g2) ∈ groups ∧ h2 ∈ g2)) ∧
  (∀ c, let of_c := filter (λ h, str_field "category" h = Some c) in
     get_habits_by_category self c
     = Ok (of_c l1 ++ of_c [h1] ++ of_c l2 ++ of_c [h2] ++ of_c l3)) ∧
  (∃ stats,
     get_category_stats self = Ok stats ∧
     foldr (λ s acc, s.1.2 + acc) 0 stats
     = Z.of_nat (length l1 + 1 + length l2 + 1 + length l3)) ∧
  (* the lookups by id *)
  get_habit_name self i
    = Ok (JStr (default "Unknown" (str_field "name" h2))) ∧
  get_entries_for_habit self i
    = Ok (filter (λ e, str_field "habitId" e = Some i)
                 (snapshot_entries (data self))).
Proof.
  intros Hl Hok Hhs Hi1 Hi2 Hl3 hs. split_and!.
  - exists (group_by habit_category hs). split_and!.
    + by apply get_categories_eq.
    + intros c g. rewrite group_by_eq.
      intros (k & [= <- <-] & _)%list_elem_of_In%in_map_iff.
      exists k. split; [done|]. unfold group_of, in_category, hs.
      rewrite Hhs. apply filter_two_occurrences.
    + exists (group_of habit_category hs (habit_category h1)),
             (group_of habit_category hs (habit_category h2)).
      assert (h1 ∈ hs ∧ h2 ∈ hs) as [Hh1 Hh2].
      { unfold hs. rewrite Hhs. split.
        - apply elem_of_app. right. left.
        - apply elem_of_app. right. right.
          apply elem_of_app. right. left. }
      rewrite group_by_eq. split_and!.
      * apply list_elem_of_In, in_map_iff. eexists. split; [done|].
        apply list_elem_of_In, elem_of_group_keys. eauto.
      * by apply list_elem_of_filter.
      * apply list_elem_of_In, in_map_iff. eexists. split; [done|].
        apply list_elem_of_In, elem_of_group_keys. eauto.
      * by apply list_elem_of_filter.
  - intros c of_c. rewrite get_habits_by_category_eq by done.
    rewrite Hhs. f_equal. apply filter_two_occurrences.
  - eexists. split; [by apply get_category_stats_eq|].
    rewrite category_counts_total. fold hs. unfold hs. rewrite Hhs.
    rewrite !length_app. cbn [length]. rewrite !length_app. cbn [length].
    f_equal. lia.
  - rewrite get_habit_name_eq by done. rewrite Hhs.
    rewrite filter_two_occurrences.
    rewrite Hl3, app_nil_r.
    rewrite (filter_cons_True _ h2), filter_nil by done.
    by rewrite !app_assoc, last_snoc.
  - by apply get_entries_for_habit_eq.
Qed.

(** * The Python layer on examples *)

Example max_keeps_the_first_maximum :
  py_max (λ e, py_get e "value" (JNum 0))
         [JObj [("id", JNum 1); ("value", JNum 3)];
          JObj [("id", JNum 2); ("value", JNum 3)];
          JObj [("id", JNum 3); ("value", JNum 1)]]
  = Ok (JObj [("id", JNum 1); ("value", JNum 3)]).
Proof. reflexivity. Qed.

Example max_of_one_item_compares_nothing :
  py_max (λ e, py_get e "value" (JNum 0)) [JObj [("value", JStr "x")]]
  = Ok (JObj [("value", JStr "x")]).
Proof. reflexivity. Qed.

Example comparisons :
  py_gt JNull JNull = Raise TypeError ∧
  py_gt (JStr "a") (JNum 1) = Raise TypeError ∧
  py_gt (JBool true) (JNum 0) = Ok true ∧
  py_gt (JArr [JNum 1; JNum 3]) (JArr [JNum 1; JNum 2]) = Ok true ∧
  py_gt (JArr [JNull]) (JArr [JNull]) = Ok false ∧
  py_lt (JStr "B") (JStr "a") = Ok true.
Proof. split_and!; reflexivity. Qed.

Example equalities :
  py_eq (JNum 1) (JBool true) = true ∧
  py_eq (JStr "1") (JNum 1) = false ∧
  py_eq (JObj [("a", JNum 1); ("b", JNull)])
        (JObj [("b", JNull); ("a", JBool true)]) = true.
Proof. split_and!; reflexivity. Qed.

Example hashing :
  py_in_set (JArr []) ∅ = Raise TypeError ∧
  py_in_set JNull {["a"]} = Ok false ∧
  py_key (JObj []) = Raise TypeError.
Proof. split_and!; reflexivity. Qed.

Example slices :
  py_slice_to 10 (JStr "2025-11-28T10:00:00Z") = Ok (JStr "2025-11-28") ∧
  py_slice_to 10 (JStr "2025") = Ok (JStr "2025") ∧
  py_slice_to 10 (JNum 20251128) = Raise TypeError.
Proof. split_and!; reflexivity. Qed.

Example subscripts :
  py_getitem (JObj [("name", JStr "Run")]) "id" = Raise KeyError ∧
  py_getitem (JArr []) "id" = Raise TypeError ∧
  py_get (JNum 5) "id" JNull = Raise AttributeError.
Proof. split_and!; reflexivity. Qed.

Example a_dict_keeps_the_place_of_a_key :
  dict_set "entries" (JNum 5)
    (dict_set "habits" (JNum 4)
       [("x", JNum 1); ("entries", JNum 2); ("y", JNum 3)])
  = [("x", JNum 1); ("entries", JNum 5); ("y", JNum 3); ("habits", JNum 4)].
Proof. reflexivity. Qed.

Example sums :
  py_sum Ok [JBool true; JNum 2] = Ok 3 ∧
  py_sum Ok [JStr "3"] = Raise TypeError.
Proof. split_and!; reflexivity. Qed.

Example sorting :
  py_sorted item_lt [(JStr "b", []); (JStr "a", []); (JStr "B", [])]
  = Ok [(JStr "B", []); (JStr "a", []); (JStr "b", [])] ∧
  py_sorted item_lt [(JStr "a", []); (JNum 1, [])] = Raise TypeError ∧
  py_sorted item_lt [(JNull, [])] = Ok [(JNull, [])].
Proof. split_and!; reflexivity. Qed.

Example substrings :
  str_contains "gu" "tgu-l" = true ∧ str_contains "ug" "tgu-l" = false ∧
  str_contains "" "" = true ∧ str_contains "a" "" = false.
Proof. split_and!; reflexivity. Qed.

(** * The test suite, run on the model *)

Example test_fixtures_load :
  from_data TEST_DATA = Ok humane_data ∧
  from_data MERGE_TEST_DATA = Ok merge_data.
Proof. split; vm_compute; reflexivity. Qed.

Example test_get_habits_by_category :
  length <$> get_habits_by_category humane_data "fitness" = Ok 2%nat.
Proof. vm_compute. reflexivity. Qed.

Example test_get_entries_for_habit :
  length <$> get_entries_for_habit humane_data "habit1" = Ok 2%nat ∧
  length <$> get_entries_for_habit humane_data "habit2" = Ok 1%nat.
Proof. split; vm_compute; reflexivity. Qed.

Example test_get_habit_name :
  get_habit_name humane_data "habit1" = Ok (JStr "Morning Run") ∧
  get_habit_name humane_data "nonexistent" = Ok (JStr "Unknown").
Proof. split; vm_compute; reflexivity. Qed.

Example test_get_category_stats :
  get_category_stats humane_data
  = Ok [(JStr "fitness", 2, 8); (JStr "wellness", 1, 7)].
Proof. vm_compute. reflexivity. Qed.

Example test_merge_habits :
  merge_habits merge_data "tgu" ["tgu-l"; "tgu-r"]
  = Ok (JObj
          [("version", JNum 1);
           ("habits",
            JArr [habit "tgu" "TGU" "fitness" 3;
                  habit "kb" "Kettlebell" "fitness" 5]);
           ("entries",
            JArr [entry "e7" "kb" "2025-11-28" 10 "2025-11-28T09:00:00Z";
                  entry "e3" "tgu" "2025-11-28" 8 "2025-11-28T11:00:00Z";
                  entry "e2" "tgu" "2025-11-27" 3 "2025-11-27T10:00:00Z";
                  entry "e4" "tgu" "2025-11-26" 4 "2025-11-26T10:00:00Z";
                  entry "e6" "tgu" "2025-11-25" 7 "2025-11-25T10:00:00Z"])]).
Proof. vm_compute. reflexivity. Qed.

Example test_merge_with_target_in_sources :
  snapshot_habits <$> merge_habits merge_data "tgu" ["tgu"; "tgu-l"]
  = Ok [habit "tgu" "TGU" "fitness" 3;
        habit "tgu-r" "TGU-R" "fitness" 2;
        habit "kb" "Kettlebell" "fitness" 5].
Proof. vm_compute. reflexivity. Qed.

(** The names and the patterns of the test are ASCII text, which
    [str.lower] changes as [lower_latin1] does. *)
Example test_find_case_insensitive :
  length <$> find_habits_by_name lower_latin1 merge_data "tgu" = Ok 3%nat ∧
  find_habits_by_name lower_latin1 merge_data "kettlebell"
  = Ok [habit "kb" "Kettlebell" "fitness" 5] ∧
  find_habits_by_name lower_latin1 merge_data "-L"
  = Ok [habit "tgu-l" "TGU-L" "fitness" 2] ∧
  find_habits_by_name lower_latin1 merge_data "nonexistent" = Ok [].
Proof. split_and!; vm_compute; reflexivity. Qed.

(** * Instances of the theorems *)

Lemma loaded_fixture d :
  from_data d = Ok (the (from_data d)) → loaded (the (from_data d)).
Proof. intros H. by exists no_files, None, d. Defined.

Lemma merge_max_value_per_date_witness :
  loaded merge_data ∧ snapshot_ok (data merge_data) ∧
  ∃ result pre w post,
    merge_habits merge_data "tgu" ["tgu-l"; "tgu-r"] = Ok result ∧
    filter (λ e, normalized_date e = "2025-11-28")
           (filter (contributing "tgu" ["tgu-l"; "tgu-r"])
                   (snapshot_entries (data merge_data)))
    = pre ++ w :: post ∧
    (∀ e, e ∈ pre → entry_value e < entry_value w) ∧
    (∀ e, e ∈ post → entry_value e ≤ entry_value w) ∧
    filter (λ e, str_field "habitId" e = Some "tgu" ∧
                 str_field "date" e = Some "2025-11-28")
           (snapshot_entries result)
    = [JObj [("id", default JNull (field "id" w));
             ("habitId", JStr "tgu");
             ("date", JStr "2025-11-28");
             ("value", JNum (entry_value w));
             ("createdAt", default (JStr "") (field "createdAt" w))]] ∧
    is_Some (field "id" w).
Proof.
  assert (loaded merge_data) as Hl by (apply loaded_fixture; reflexivity).
  assert (snapshot_ok (data merge_data)) as Hok by (vm_compute; exact I).
  split_and!; [done..|].
  apply (merge_max_value_per_date merge_data "tgu" ["tgu-l"; "tgu-r"]
                                  "2025-11-28"); [done|done|].
  vm_compute. discriminate.
Defined.

Lemma merge_total_with_ids_witness :
  loaded (the (from_data SPARSE)) ∧
  snapshot_ok (data (the (from_data SPARSE))) ∧
  ∃ result,
    merge_habits (the (from_data SPARSE)) "run" [] = Ok result ∧
    ∀ m, m ∈ snapshot_entries result →
         m ∈ snapshot_entries (data (the (from_data SPARSE))) ∨
         ∃ w, w ∈ snapshot_entries (data (the (from_data SPARSE))) ∧
              field "id" m = field "id" w ∧
              field "value" m = Some (default (JNum 0) (field "value" w)) ∧
              field "createdAt" m
                = Some (default (JStr "") (field "createdAt" w)) ∧
              field "date" m
                = Some (JStr (String.substring 0 10
                                (default "" (str_field "date" w)))).
Proof.
  assert (loaded (the (from_data SPARSE))) as Hl
    by (apply loaded_fixture; reflexivity).
  assert (snapshot_ok (data (the (from_data SPARSE)))) as Hok
    by (vm_compute; exact I).
  split_and!; [done..|].
  by apply (merge_total_with_ids (the (from_data SPARSE)) "run" []).
Defined.

Lemma merge_reassigns_habit_ids_witness :
  loaded merge_data ∧ snapshot_ok (data merge_data) ∧
  ∃ result others merged,
    merge_habits merge_data "tgu" ["tgu-l"; "tgu-r"] = Ok result ∧
    snapshot_entries result = others ++ merged ∧
    (∀ e, e ∈ merged → field "habitId" e = Some (JStr "tgu")) ∧
    (∀ e, e ∈ others → e ∈ snapshot_entries (data merge_data)) ∧
    (∀ e i, e ∈ others → str_field "habitId" e = Some i →
            i ≠ "tgu" ∧ i ∉ effective_sources "tgu" ["tgu-l"; "tgu-r"]) ∧
    (∀ e i, e ∈ snapshot_entries result → field "habitId" e = Some (JStr i) →
            i ∉ effective_sources "tgu" ["tgu-l"; "tgu-r"]).
Proof.
  assert (loaded merge_data) as Hl by (apply loaded_fixture; reflexivity).
  assert (snapshot_ok (data merge_data)) as Hok by (vm_compute; exact I).
  split_and!; [done..|].
  by apply (merge_reassigns_habit_ids merge_data "tgu" ["tgu-l"; "tgu-r"]).
Defined.

Lemma merge_removes_source_habits_witness :
  loaded merge_data ∧ snapshot_ok (data merge_data) ∧
  ∃ result,
    merge_habits merge_data "tgu" ["tgu-l"] = Ok result ∧
    snapshot_habits result =
      filter (λ h, ¬ source_habit "tgu" ["tgu-l"] h)
             (snapshot_habits (data merge_data)) ∧
    (∀ h, h ∈ snapshot_habits (data merge_data) →
          str_field "id" h = Some "tgu" → h ∈ snapshot_habits result) ∧
    merge_habits merge_data "tgu" ["tgu"; "tgu-l"] = Ok result ∧
    merge_habits merge_data "tgu" (filter (λ s, s ≠ "tgu") ["tgu-l"])
    = Ok result.
Proof.
  assert (loaded merge_data) as Hl by (apply loaded_fixture; reflexivity).
  assert (snapshot_ok (data merge_data)) as Hok by (vm_compute; exact I).
  split_and!; [done..|].
  by apply (merge_removes_source_habits merge_data "tgu" ["tgu-l"]).
Defined.

Lemma merge_frame_witness :
  loaded merge_data ∧ snapshot_ok (data merge_data) ∧
  ∃ result merged,
    merge_habits merge_data "tgu" ["tgu-l"; "tgu-r"] = Ok result ∧
    snapshot_entries result =
      filter (λ e, ¬ contributing "tgu" ["tgu-l"; "tgu-r"] e)
             (snapshot_entries (data merge_data)) ++ merged ∧
    (∀ e, e ∈ merged → field "habitId" e = Some (JStr "tgu")) ∧
    (∀ k, k ≠ "habits" → k ≠ "entries" →
          field k result = field k (data merge_data)).
Proof.
  assert (loaded merge_data) as Hl by (apply loaded_fixture; reflexivity).
  assert (snapshot_ok (data merge_data)) as Hok by (vm_compute; exact I).
  split_and!; [done..|].
  by apply (merge_frame merge_data "tgu" ["tgu-l"; "tgu-r"]).
Defined.

Lemma category_stats_sorted_and_counted_witness :
  loaded humane_data ∧ snapshot_ok (data humane_data) ∧
  ∃ stats names,
    get_category_stats humane_data = Ok stats ∧
    stats = map (λ c, (JStr c,
                       Z.of_nat (length (in_category c
                                   (snapshot_habits (data humane_data)))),
                       total_target (in_category c
                                   (snapshot_habits (data humane_data)))))
                names ∧
    StronglySorted (λ a b, String.ltb a b = true) names ∧
    (∀ c, c ∈ names ↔
          ∃ h, h ∈ snapshot_habits (data humane_data) ∧
               habit_category h = c) ∧
    foldr (λ s acc, s.1.2 + acc) 0 stats
    = Z.of_nat (length (snapshot_habits (data humane_data))).
Proof.
  assert (loaded humane_data) as Hl by (apply loaded_fixture; reflexivity).
  assert (snapshot_ok (data humane_data)) as Hok by (vm_compute; exact I).
  split_and!; [done..|].
  by apply (category_stats_sorted_and_counted humane_data).
Defined.



Lemma merge_without_sources_rewrites_target_witness :
  loaded (the (from_data TWICE_A_DAY)) ∧
  snapshot_ok (data (the (from_data TWICE_A_DAY))) ∧
  effective_sources "run" ["run"] = ∅ ∧
  ∃ result merged,
    merge_habits (the (from_data TWICE_A_DAY)) "run" ["run"] = Ok result ∧
    snapshot_entries result =
      filter (λ e, ¬ str_field "habitId" e = Some "run")
             (snapshot_entries (data (the (from_data TWICE_A_DAY)))) ++
      merged ∧
    ∃ w, normalized_date w = "2025-11-28" ∧
         filter (λ m, str_field "date" m = Some "2025-11-28") merged
         = [merged_entry "run" "2025-11-28" w].
Proof.
  assert (loaded (the (from_data TWICE_A_DAY))) as Hl
    by (apply loaded_fixture; reflexivity).
  assert (snapshot_ok (data (the (from_data TWICE_A_DAY)))) as Hok
    by (vm_compute; exact I).
  assert (effective_sources "run" ["run"] = ∅) as Heff
    by (vm_compute; reflexivity).
  split_and!; [done..|].
  destruct (proj1 merge_without_sources_rewrites_target
              (the (from_data TWICE_A_DAY)) "run" ["run"] Hl Hok Heff)
    as (result & merged & Hres & _ & Hes & _ & Hdate & _).
  exists result, merged. split_and!; [done|done|].
  destruct (Hdate "2025-11-28") as (w & _ & Hw & _ & Hf).
  - exists (entry "e3" "run" "2025-11-28" 2 "2025-11-28T19:00:00Z").
    split; [|reflexivity]. apply list_elem_of_filter.
    split; [reflexivity|]. do 2 right. left.
  - eauto.
Defined.

Lemma duplicate_ids_list_vs_index_witness :
  loaded (the (from_data DUPLICATE_ID)) ∧
  snapshot_ok (data (the (from_data DUPLICATE_ID))) ∧
  get_habit_name (the (from_data DUPLICATE_ID)) "a" = Ok (JStr "Second") ∧
  get_habits_by_category (the (from_data DUPLICATE_ID)) "fitness"
  = Ok [habit "a" "First" "fitness" 1; habit "a" "Second" "fitness" 3] ∧
  ∃ stats,
    get_category_stats (the (from_data DUPLICATE_ID)) = Ok stats ∧
    foldr (λ s acc, s.1.2 + acc) 0 stats = 3.
Proof.
  assert (loaded (the (from_data DUPLICATE_ID))) as Hl
    by (apply loaded_fixture; reflexivity).
  assert (snapshot_ok (data (the (from_data DUPLICATE_ID)))) as Hok
    by (vm_compute; exact I).
  destruct (duplicate_ids_list_vs_index (the (from_data DUPLICATE_ID)) "a"
              (habit "a" "First" "fitness" 1) (habit "a" "Second" "fitness" 3)
              [] [habit "b" "Other" "wellness" 2] [] Hl Hok)
    as (_ & Hcat & Hstats & Hname & _); [reflexivity..|].
  split_and!; [done|done|exact Hname|exact (Hcat "fitness")|exact Hstats].
Defined.

(** * Further properties of the merge *)

(** ** A merge keeps the data model *)

Lemma merged_entry_ok target date w :
  entry_ok w → entry_ok (merged_entry target date w).
Proof.
  intros (d & -> & [i Hi] & _ & _ & Hv)%entry_ok_inv.
  unfold merged_entry, field. rewrite Hi.
  by destruct Hv as [->|[n ->]].
Qed.

Lemma forallb_Forall {A} (p : A → bool) (l : list A) :
  forallb p l ↔ Forall (λ x, p x) l.
Proof.
  induction l as [|x l IH]; cbn.
  - split; [constructor|done].
  - rewrite andb_True, IH. split.
    + intros [? ?]. by constructor.
    + intros [? ?]%Forall_cons. done.
Qed.

Lemma merge_result_ok d target sources :
  snapshot_ok d → snapshot_ok (merge_result d target sources).
Proof.
  intros Hok.
  pose proof (snapshot_ok_inv _ Hok) as (f & -> & _ & _ & Hhs & Hes).
  rewrite Forall_forall in Hhs, Hes.
  unfold merge_result. cbn [snapshot_ok]. unfold opt_field.
  rewrite dict_get_set_ne by done. rewrite !dict_get_set_eq.
  cbn [list_of]. apply andb_True. split; apply forallb_Forall, Forall_forall.
  - intros h [_ Hh]%list_elem_of_filter. auto.
  - intros e [[_ He]%list_elem_of_filter|He]%elem_of_app; [auto|].
    apply elem_of_merged_entries in He as (w & _ & _ & Hw & ->); [|done].
    by apply merged_entry_ok.
Qed.

(** Writing a value that a dict already holds changes nothing. *)
Lemma dict_set_same k v d : dict_get k d = Some v → dict_set k v d = d.
Proof.
  induction d as [|[k' v'] d IH]; [done|]. cbn.
  destruct (decide (k = k')) as [->|Hne].
  - by intros [= ->].
  - intros Hd. by rewrite IH.
Qed.

Lemma group_keys_distinct {A} (key : A → string) (l : list A) :
  NoDup (map key l) → group_keys key l = map key l.
Proof.
  induction l as [|x l IH] using rev_ind; [done|].
  rewrite map_app. cbn [map]. intros Hnd.
  apply NoDup_app in Hnd as (Hl & Hx & _).
  rewrite group_keys_snoc, IH by done.
  rewrite decide_False; [done|].
  intros Hin. apply (Hx _ Hin). left.
Qed.

(** The dates of the merged entries are the dates of the contributing
    entries, each once, in order of first appearance. *)
Lemma merged_entries_dates target sources es :
  map normalized_date (merged_entries target sources es)
  = group_keys normalized_date (filter (contributing target sources) es).
Proof.
  unfold merged_entries. cbv zeta. rewrite map_map.
  erewrite map_ext_in; [apply map_id|].
  intros k (x & _ & <-)%list_elem_of_In%elem_of_group_keys.
  rewrite normalized_date_merged. apply normalized_date_idemp.
Qed.

Lemma merged_entry_merged target date date' w :
  merged_entry target date (merged_entry target date' w)
  = merged_entry target date w.
Proof. done. Qed.

(** Merged entries are a fixed point of the merge. *)
Lemma merged_entries_idemp target sources es others :
  (∀ e, e ∈ others → ¬ contributing target sources e) →
  merged_entries target sources
    (others ++ merged_entries target sources es)
  = merged_entries target sources es.
Proof.
  intros Hothers.
  set (merged := merged_entries target sources es).
  assert (filter (contributing target sources) (others ++ merged) = merged)
    as Hcs.
  { rewrite filter_app, (filter_none _ others) by done.
    apply filter_all.
    intros m (k & <- & _)%list_elem_of_In%in_map_iff.
    by apply contributing_target. }
  unfold merged_entries at 1. cbv zeta. rewrite Hcs.
  pose proof (merged_entries_dates target sources es) as Hdates.
  fold merged in Hdates.
  set (keys := group_keys normalized_date
                 (filter (contributing target sources) es)) in *.
  assert (NoDup keys) as Hnd by apply group_keys_NoDup.
  rewrite group_keys_distinct, Hdates by by rewrite Hdates.
  unfold merged at 2, merged_entries. cbv zeta. fold keys.
  apply map_ext_in. intros k Hk%list_elem_of_In.
  unfold group_of, merged, merged_entries. cbv zeta. fold keys.
  rewrite (filter_map_NoDup _ _ _ k); [|done|done|].
  - cbn [winner first_max fold_left]. apply merged_entry_merged.
  - intros k' (x & _ & <-)%elem_of_group_keys.
    rewrite normalized_date_merged, normalized_date_idemp.
    split; by intros ->.
Qed.

Lemma merge_result_idemp d target sources :
  snapshot_ok d →
  merge_result (merge_result d target sources) target sources
  = merge_result d target sources.
Proof.
  intros (f & -> & _)%snapshot_ok_inv.
  unfold merge_result at 1.
  rewrite (merge_result_habits (JObj f)), (merge_result_entries (JObj f)).
  rewrite filter_app, merged_entries_idemp;
    [|by intros e [? _]%list_elem_of_filter].
  rewrite (filter_all _ (filter _ (snapshot_entries _)));
    [|by intros e [? _]%list_elem_of_filter].
  rewrite (filter_none _ (merged_entries _ _ _)).
  2:{ intros m (k & <- & _)%list_elem_of_In%in_map_iff Hm.
      by apply Hm, contributing_target. }
  rewrite app_nil_r.
  rewrite (filter_all _ (filter _ (snapshot_habits _)));
    [|by intros e [? _]%list_elem_of_filter].
  unfold merge_result.
  rewrite (dict_set_same "habits");
    [|rewrite dict_get_set_ne by done; apply dict_get_set_eq].
  rewrite (dict_set_same "entries"); [done|apply dict_get_set_eq].
Qed.

(** X1: the document a merge returns is again a snapshot of the data model,
    and the constructor accepts it. *)
Theorem merge_keeps_data_model self target sources :
  loaded self → snapshot_ok (data self) →
  ∃ result,
    merge_habits self target sources = Ok result ∧
    snapshot_ok result ∧
    ∀ json_load filepath,
      ∃ self', HumaneData_init json_load filepath result = Ok self' ∧
               data self' = result.
Proof.
  intros Hl Hok. exists (merge_result (data self) target sources).
  split_and!.
  - by apply merge_habits_eq.
  - by apply merge_result_ok.
  - intros. by apply HumaneData_init_ok, merge_result_ok.
Qed.

(** X2: merging a second time with the same target and sources changes
    nothing. *)
Theorem merge_twice_is_merge_once self target sources :
  loaded self → snapshot_ok (data self) →
  ∃ result,
    merge_habits self target sources = Ok result ∧
    ∀ self', loaded self' → data self' = result →
             merge_habits self' target sources = Ok result.
Proof.
  intros Hl Hok. exists (merge_result (data self) target sources).
  split; [by apply merge_habits_eq|].
  intros self' Hl' Hd.
  rewrite merge_habits_eq; rewrite ?Hd; [|done|by apply merge_result_ok].
  f_equal. by apply merge_result_idemp.
Qed.

Lemma filter_target_result target sources es :
  (∀ e, e ∈ es → entry_ok e) →
  filter (λ e, str_field "habitId" e = Some target)
         (filter (λ e, ¬ contributing target sources e) es ++
          merged_entries target sources es)
  = merged_entries target sources es.
Proof.
  intros Hes. rewrite filter_app, filter_none, app_nil_l.
  - apply filter_all.
    by intros m (k & <- & _)%list_elem_of_In%in_map_iff.
  - intros e [Hnc _]%list_elem_of_filter Hh.
    by apply Hnc, contributing_target.
Qed.

Lemma group_keys_length {A} (key : A → string) (l : list A) :
  (length (group_keys key l) ≤ length l)%nat.
Proof.
  induction l as [|x l IH] using rev_ind; [done|].
  rewrite group_keys_snoc, length_app. cbn [length].
  case_decide; [lia|]. rewrite length_app. cbn [length]. lia.
Qed.

Lemma filter_complement_length {A} (P : A → Prop) `{!∀ x, Decision (P x)}
    (l : list A) :
  (length (filter P l) + length (filter (λ x, ¬ P x) l) = length l)%nat.
Proof.
  induction l as [|x l IH]; [done|].
  rewrite !filter_cons. destruct (decide (P x)).
  - rewrite decide_False by tauto. cbn [length]. lia.
  - rewrite decide_True by done. cbn [length]. lia.
Qed.

(** X3: after a merge the target has one entry a day: its entries carry the
    normalized dates of the contributing entries, each date once, in the
    order in which the dates first appear among the contributing entries;
    and the result never has more entries than the input. *)
Theorem merge_one_entry_a_day self target sources :
  loaded self → snapshot_ok (data self) →
  let contributors :=
    filter (contributing target sources) (snapshot_entries (data self)) in
  ∃ result,
    merge_habits self target sources = Ok result ∧
    let own := filter (λ e, str_field "habitId" e = Some target)
                      (snapshot_entries result) in
    map (str_field "date") own
      = map Some (group_keys normalized_date contributors) ∧
    NoDup (map (str_field "date") own) ∧
    (∀ d, Some d ∈ map (str_field "date") own ↔
          ∃ e, e ∈ contributors ∧ normalized_date e = d) ∧
    (length (snapshot_entries result)
     ≤ length (snapshot_entries (data self)))%nat.
Proof.
  intros Hl Hok contributors.
  destruct (merge_habits_ok self target sources Hl Hok)
    as (result & Hres & Hes & _).
  exists result. split; [done|]. cbv zeta. rewrite Hes.
  rewrite filter_target_result by (intros; by eapply snapshot_entries_ok).
  assert (map (str_field "date")
              (merged_entries target sources (snapshot_entries (data self)))
          = map Some (group_keys normalized_date contributors)) as Hdates.
  { unfold merged_entries. cbv zeta. by rewrite map_map. }
  rewrite Hdates. split_and!.
  - done.
  - apply NoDup_fmap_2; [by intros ?? [= ->]|apply group_keys_NoDup].
  - intros d. rewrite <- elem_of_group_keys. split.
    + by intros (k & [= ->] & Hk%list_elem_of_In)%list_elem_of_In%in_map_iff.
    + intros Hd. apply list_elem_of_In, in_map_iff. exists d.
      split; [done|]. by apply list_elem_of_In.
  - rewrite length_app.
    unfold merged_entries. cbv zeta. rewrite length_map.
    pose proof (group_keys_length normalized_date contributors).
    pose proof (filter_complement_length (contributing target sources)
                  (snapshot_entries (data self))).
    unfold contributors in *. lia.
Qed.

Lemma substring_length_le n s :
  (String.length (String.substring 0 n s) ≤ n)%nat.
Proof.
  revert s. induction n as [|n IH]; intros [|c s]; cbn; try lia.
  specialize (IH s). lia.
Qed.

(** X4: every entry of the target in the result is a dict of exactly five
    items, id, habitId, date, value and createdAt in this order, with a date
    of at most 10 characters: whatever else the winning entry held is
    dropped. *)
Theorem merge_drops_other_fields self target sources :
  loaded self → snapshot_ok (data self) →
  ∃ result,
    merge_habits self target sources = Ok result ∧
    ∀ e, e ∈ snapshot_entries result →
         str_field "habitId" e = Some target →
         ∃ i d v c,
           e = JObj [("id", i); ("habitId", JStr target); ("date", JStr d);
                     ("value", JNum v); ("createdAt", c)] ∧
           (String.length d ≤ 10)%nat.
Proof.
  intros Hl Hok.
  destruct (merge_habits_ok self target sources Hl Hok)
    as (result & Hres & Hes & _).
  exists result. split; [done|]. intros e He Hh.
  assert (e ∈ filter (λ e, str_field "habitId" e = Some target)
                     (snapshot_entries result)) as Hin
    by by apply list_elem_of_filter.
  rewrite Hes, filter_target_result in Hin
    by (intros; by eapply snapshot_entries_ok).
  apply elem_of_merged_entries in Hin as (w & _ & _ & Hw & ->);
    [|intros; by eapply snapshot_entries_ok].
  pose proof (merged_entry_value target (normalized_date w) w Hw) as Hv.
  cbn in Hv. injection Hv as Hv.
  eexists _, _, _, _. split.
  - unfold merged_entry. by rewrite Hv.
  - unfold normalized_date. apply substring_length_le.
Qed.

(** X5: a merge does not look the target up among the habits.  It removes
    habits and never adds one, so the result has a habit with the target's id
    exactly when the input has; when no habit has that id the merge still
    succeeds, and the entries it emits belong to a habit that does not
    exist. *)
Theorem merge_does_not_check_target self target sources :
  loaded self → snapshot_ok (data self) →
  ∃ result,
    merge_habits self target sources = Ok result ∧
    snapshot_habits result `sublist_of` snapshot_habits (data self) ∧
    ((∃ h, h ∈ snapshot_habits result ∧ str_field "id" h = Some target) ↔
     (∃ h, h ∈ snapshot_habits (data self) ∧
           str_field "id" h = Some target)) ∧
    ((∃ e, e ∈ snapshot_entries result ∧
           str_field "habitId" e = Some target) ↔
     (∃ e, e ∈ snapshot_entries (data self) ∧
           contributing target sources e)).
Proof.
  intros Hl Hok.
  destruct (merge_habits_ok self target sources Hl Hok)
    as (result & Hres & Hes & Hhs & _).
  exists result. split_and!; [done| | |].
  - rewrite Hhs. apply sublist_filter.
  - rewrite Hhs. split.
    + intros (h & [_ Hh]%list_elem_of_filter & Hi). eauto.
    + intros (h & Hh & Hi). exists h. split; [|done].
      apply list_elem_of_filter. split; [|done].
      unfold source_habit. rewrite Hi. apply target_not_effective.
  - split.
    + intros (e & He & Hh).
      assert (e ∈ filter (λ e, str_field "habitId" e = Some target)
                         (snapshot_entries result)) as Hin
        by by apply list_elem_of_filter.
      rewrite Hes, filter_target_result in Hin
        by (intros; by eapply snapshot_entries_ok).
      apply elem_of_merged_entries in Hin as (w & Hw & Hc & _);
        [eauto|intros; by eapply snapshot_entries_ok].
    + intros (e & He & Hc).
      assert (normalized_date e
              ∈ group_keys normalized_date
                  (filter (contributing target sources)
                          (snapshot_entries (data self)))) as Hk.
      { apply elem_of_group_keys. exists e. split; [|done].
        by apply list_elem_of_filter. }
      eexists. split.
      * rewrite Hes. apply elem_of_app. right.
        apply list_elem_of_In, in_map_iff. eexists. split; [done|].
        by apply list_elem_of_In.
      * done.
Qed.

(** * Further properties of the queries *)

(** ** The index of habits *)

(** An invariant of a loop passes from its start to its end. *)
Lemma foldM_invariant {A S} (P : S → Prop) (f : S → A → result S)
    (l : list A) (s s' : S) :
  (∀ s x s', x ∈ l → P s → f s x = Ok s' → P s') →
  P s → foldM f s l = Ok s' → P s'.
Proof.
  revert s. induction l as [|x l IH]; intros s Hf Hs Hfold.
  - by injection Hfold as <-.
  - cbn [foldM] in Hfold.
    apply bind_Ok_inv in Hfold as (s1 & Hx & Hfold).
    apply (IH s1); [|by eapply (Hf s x); [left|..]|done].
    intros ? ? ? ?. apply Hf. by right.
Qed.

Lemma pd_set_Forall {V} (P : json * V → Prop) k v (d : pydict V) :
  (∀ k', P (k', v)) → Forall P d → Forall P (pd_set k v d).
Proof.
  intros Hv. induction 1 as [|[k' v'] d Hk Hd IH]; cbn [pd_set].
  - by repeat constructor.
  - destruct (py_eq k k'); by constructor.
Qed.

Lemma pd_get_Forall {V} (P : json * V → Prop) k v (d : pydict V) :
  Forall P d → pd_get k d = Some v → ∃ k', P (k', v).
Proof.
  induction 1 as [|[k' v'] d Hk Hd IH]; cbn [pd_get]; [done|].
  destruct (py_eq k k'); [|done]. intros [= ->]. eauto.
Qed.

(** Whatever the document, the constructor only indexes dicts that have an
    id, so that a habit found in the index is never an empty dict. *)
Lemma loaded_index_values self :
  loaded self →
  Forall (λ kv, ∃ d, kv.2 = JObj d ∧ is_Some (dict_get "id" d))
         (habits self).
Proof.
  intros (hl & _ & Hfold)%loaded_habits.
  eapply foldM_invariant; [|by constructor|exact Hfold].
  intros acc h acc' _ Hacc Hstep. cbn beta in Hstep.
  apply bind_Ok_inv in Hstep as (i & Hi & Hstep).
  apply bind_Ok_inv in Hstep as (k & _ & [= <-]).
  apply pd_set_Forall; [|done]. intros k'. cbn [snd].
  destruct h as [| | | | |d]; try done. cbn in Hi.
  destruct (dict_get "id" d) eqn:Hd; [|done]. eauto.
Qed.

(** X6: on an object the constructor returned, [get_habit_name] never raises:
    whatever the document holds, it answers with the value stored under
    "name" in an indexed habit, or with "Unknown". *)
Theorem get_habit_name_never_raises self habit_id :
  loaded self →
  ∃ v, get_habit_name self habit_id = Ok v ∧
       (v = JStr "Unknown" ∨
        ∃ h, pd_get (JStr habit_id) (habits self) = Some h ∧
             field "name" h = Some v).
Proof.
  intros Hl. unfold get_habit_name.
  destruct (pd_get (JStr habit_id) (habits self)) as [h|] eqn:Hget;
    [|eauto].
  destruct (pd_get_Forall _ _ _ _ (loaded_index_values self Hl) Hget)
    as (k' & d & Hh & Hid).
  cbn [snd] in Hh. subst h.
  assert (py_truthy (JObj d) = true) as ->.
  { destruct d; [by destruct Hid|done]. }
  cbn [py_get]. destruct (dict_get "name" d) as [v|] eqn:Hn; cbn [default].
  - exists v. split; [done|]. right. exists (JObj d). by cbn.
  - eauto.
Qed.

(** ** The categories and the habits listed for them *)

Lemma category_split (c : string) (hs : list json) :
  length (in_category c hs)
  = (length (filter (λ h, str_field "category" h = Some c) hs) +
     if decide (c = "uncategorized")
     then length (filter (λ h, str_field "category" h = None) hs)
     else 0)%nat.
Proof.
  unfold in_category, habit_category.
  induction hs as [|h hs IH]; [by case_decide|].
  rewrite !filter_cons.
  destruct (str_field "category" h) as [k|] eqn:Hk.
  - change (default "uncategorized" (Some k)) with k.
    rewrite (decide_False (P := Some k = None)) by done.
    destruct (decide (k = c)) as [->|Hne].
    + rewrite (decide_True (P := Some c = Some c)) by done.
      cbn [length]. rewrite IH. lia.
    + rewrite (decide_False (P := Some k = Some c)) by congruence. done.
  - change (default "uncategorized" None) with "uncategorized".
    rewrite (decide_False (P := None = Some c)) by done.
    rewrite (decide_True (P := None = None)) by done.
    destruct (decide (c = "uncategorized")) as [->|Hne].
    + rewrite decide_True by done. cbn [length]. rewrite IH. lia.
    + rewrite (decide_False (P := "uncategorized" = c)) by done.
      by rewrite IH.
Qed.

Lemma habit_ok_no_category h :
  habit_ok h → str_field "category" h = None ↔ field "category" h = None.
Proof.
  intros (d & -> & _ & _ & [Hc|[c Hc]] & _)%habit_ok_inv;
    unfold str_field; cbn; by rewrite Hc.
Qed.

(** X7: the number of habits that [get_category_stats] reports for a category
    is the number of habits that [get_habits_by_category] returns for it,
    except for "uncategorized": the statistics count the habits without a
    category there, and the listing, which compares the stored category with
    the requested one, returns none of them for any name. *)
Theorem category_count_vs_listing self :
  snapshot_ok (data self) →
  let hs := snapshot_habits (data self) in
  let unfiled := filter (λ h, field "category" h = None) hs in
  ∃ stats,
    get_category_stats self = Ok stats ∧
    (∀ cat count target, (cat, count, target) ∈ stats →
       ∃ c listed,
         cat = JStr c ∧
         get_habits_by_category self c = Ok listed ∧
         count = Z.of_nat (length listed) +
                 (if decide (c = "uncategorized")
                  then Z.of_nat (length unfiled) else 0)) ∧
    (∀ c listed h,
       get_habits_by_category self c = Ok listed →
       h ∈ unfiled → h ∉ listed) ∧
    (unfiled ≠ [] →
     ∃ count target, (JStr "uncategorized", count, target) ∈ stats ∧
                     Z.of_nat (length unfiled) ≤ count).
Proof.
  intros Hok hs unfiled.
  assert (length (filter (λ h, str_field "category" h = None) hs)
          = length unfiled) as Hunfiled.
  { unfold unfiled. f_equal. apply filter_iff_Forall.
    eapply Forall_impl; [by apply snapshot_ok_inv in Hok as (?&?&?&?&?&?)|].
    intros h Hh. by apply habit_ok_no_category. }
  eexists. split; [by apply get_category_stats_eq|]. fold hs. split_and!.
  - intros cat count target
      (c & [= <- <- <-] & _)%list_elem_of_In%in_map_iff.
    exists c. eexists. split; [done|].
    split; [by apply get_habits_by_category_eq|]. fold hs.
    rewrite category_split, Hunfiled. case_decide; lia.
  - intros c listed h. rewrite get_habits_by_category_eq by done.
    intros [= <-] [Hh _]%list_elem_of_filter [Hc _]%list_elem_of_filter.
    unfold str_field in Hc. by rewrite Hh in Hc.
  - intros Hne. do 2 eexists. split.
    + apply list_elem_of_In, in_map_iff. exists "uncategorized".
      split; [done|]. apply list_elem_of_In. rewrite str_sort_perm.
      apply elem_of_group_keys.
      destruct unfiled as [|h ?] eqn:Hu; [done|]. exists h.
      assert (h ∈ unfiled) as [Hh Hin]%list_elem_of_filter
        by (rewrite Hu; left).
      split; [done|]. unfold habit_category, str_field. by rewrite Hh.
    + rewrite category_split, Hunfiled, decide_True by done. lia.
Qed.

(** ** Searching by name: the edges *)

Lemma string_app_assoc (a b c : string) : (a +:+ b) +:+ c = a +:+ b +:+ c.
Proof.
  induction a as [|x a IH]; [done|].
  change (String x ((a +:+ b) +:+ c) = String x (a +:+ b +:+ c)).
  by rewrite IH.
Qed.

Lemma str_contains_nil s : str_contains "" s = true.
Proof. apply str_contains_split. by exists "", s. Qed.

Lemma str_contains_in_nil p : str_contains p "" = true ↔ p = "".
Proof.
  split; [|intros ->; apply str_contains_nil].
  intros (pre & post & Hs)%str_contains_split.
  destruct pre; [|done]. by destruct p.
Qed.

Lemma str_contains_app_l p q s :
  str_contains (p +:+ q) s = true → str_contains p s = true.
Proof.
  rewrite !str_contains_split. intros (pre & post & ->).
  exists pre, (q +:+ post). by rewrite string_app_assoc.
Qed.

Lemma str_contains_app_r p q s :
  str_contains (p +:+ q) s = true → str_contains q s = true.
Proof.
  rewrite !str_contains_split. intros (pre & post & ->).
  exists (pre +:+ p), post. by rewrite !string_app_assoc.
Qed.

Lemma filter_sublist_impl {A} (P Q : A → Prop) `{!∀ x, Decision (P x)}
    `{!∀ x, Decision (Q x)} (l : list A) :
  (∀ x, P x → Q x) → filter P l `sublist_of` filter Q l.
Proof.
  intros HPQ. induction l as [|x l IH]; [done|].
  rewrite !filter_cons.
  destruct (decide (P x)) as [HP|HP].
  - rewrite decide_True by auto. by constructor.
  - destruct (decide (Q x)); [by constructor|done].
Qed.

(** X8: the search by name at its edges, for every [str.lower] that leaves
    the empty string empty and makes no other string empty.  The empty
    pattern finds every habit; what is found is a sublist of the habits; a
    habit without a name, searched as the empty name, is found by the empty
    pattern alone; and a pattern of two parts that [lower] changes
    separately finds no more than each of its parts. *)
Theorem find_by_name_edges lower self :
  snapshot_ok (data self) →
  lower "" = "" → (∀ s, lower s = "" → s = "") →
  let hs := snapshot_habits (data self) in
  find_habits_by_name lower self "" = Ok hs ∧
  (∀ p, ∃ found,
     find_habits_by_name lower self p = Ok found ∧ found `sublist_of` hs) ∧
  (∀ p found h,
     find_habits_by_name lower self p = Ok found →
     h ∈ hs → field "name" h = None →
     h ∈ found ↔ p = "") ∧
  (∀ p q,
     lower (p +:+ q) = lower p +:+ lower q →
     ∃ found found_p found_q,
       find_habits_by_name lower self (p +:+ q) = Ok found ∧
       find_habits_by_name lower self p = Ok found_p ∧
       find_habits_by_name lower self q = Ok found_q ∧
       found `sublist_of` found_p ∧ found `sublist_of` found_q).
Proof.
  intros Hok H0 H1 hs. split_and!.
  - rewrite find_habits_by_name_eq by done. f_equal.
    apply filter_all. intros h _. rewrite H0. apply str_contains_nil.
  - intros p. eexists. split; [by apply find_habits_by_name_eq|].
    apply sublist_filter.
  - intros p found h. rewrite find_habits_by_name_eq by done.
    intros [= <-] Hh Hn. rewrite list_elem_of_filter.
    assert (habit_name h = "") as ->.
    { unfold habit_name, str_field. by rewrite Hn. }
    rewrite H0, str_contains_in_nil. split.
    + intros [Hp _]. by apply H1.
    + intros ->. by split.
  - intros p q Hpq. do 3 eexists.
    split_and!; try by apply find_habits_by_name_eq.
    + apply filter_sublist_impl. intros h. rewrite Hpq.
      apply str_contains_app_l.
    + apply filter_sublist_impl. intros h. rewrite Hpq.
      apply str_contains_app_r.
Qed.

(** ** The constructor outside the data model *)

Lemma py_eq_refl_hashable k : py_hashable k → py_eq k k = true.
Proof.
  destruct k as [|b|n|s| |]; try done; cbn;
    by rewrite bool_decide_eq_true.
Qed.

Lemma pd_get_set_same {V} k (v : V) d :
  py_hashable k → pd_get k (pd_set k v d) = Some v.
Proof.
  intros Hk. induction d as [|[k' v'] d IH]; cbn.
  - by rewrite py_eq_refl_hashable.
  - destruct (py_eq k k') eqn:He; cbn; by rewrite He.
Qed.

Lemma pd_get_set_is_Some {V} k k' (v : V) d :
  is_Some (pd_get k d) → is_Some (pd_get k (pd_set k' v d)).
Proof.
  induction d as [|[k0 v0] d IH]; cbn; [by intros []|].
  destruct (py_eq k' k0); cbn; destruct (py_eq k k0); eauto.
Qed.

(** The loop that builds the index, on habits that can be indexed. *)
Lemma index_loop_ok hl acc :
  Forall (λ h, indexable h) hl →
  ∃ idx,
    foldM (λ (acc : pydict json) (h : json),
             i ← py_getitem h "id";
             k ← py_key i;
             Ok (pd_set k h acc)) acc hl = Ok idx ∧
    (∀ k, is_Some (pd_get k acc) → is_Some (pd_get k idx)) ∧
    (∀ h, h ∈ hl → ∃ i, field "id" h = Some i ∧ is_Some (pd_get i idx)).
Proof.
  intros Hhl. revert acc.
  induction Hhl as [|h hl Hh _ IH]; intros acc.
  - exists acc. split_and!; [done..|]. by intros h ?%elem_of_nil.
  - destruct h as [| | | | |d]; try done. cbn in Hh.
    destruct (dict_get "id" d) as [i|] eqn:Hi; [|done].
    destruct (IH (pd_set i (JObj d) acc)) as (idx & Hidx & Hmono & Hin).
    exists idx. split_and!.
    + cbn [foldM py_getitem]. rewrite Hi. cbn [mbind result_bind].
      unfold py_key. destruct (py_hashable i); [|done]. done.
    + intros k Hk. by apply Hmono, pd_get_set_is_Some.
    + intros h [->|Hh']%elem_of_cons; [|by apply Hin].
      exists i. split; [done|]. apply Hmono.
      rewrite pd_get_set_same by done. eauto.
Qed.

(** The loop stops at the first habit that cannot be indexed. *)
Lemma index_loop_raises l1 h l2 acc :
  Forall (λ h, indexable h) l1 → ¬ indexable h →
  foldM (λ (acc : pydict json) (h : json),
           i ← py_getitem h "id";
           k ← py_key i;
           Ok (pd_set k h acc)) acc (l1 ++ h :: l2)
  = Raise (match h with
           | JObj d =>
               match dict_get "id" d with
               | Some _ => TypeError
               | None => KeyError
               end
           | _ => TypeError
           end).
Proof.
  intros Hl1 Hh. revert acc.
  induction Hl1 as [|h1 l1 Hh1 _ IH]; intros acc.
  - cbn [app foldM].
    destruct h as [| | | | |d]; try done. cbn in Hh |- *.
    destruct (dict_get "id" d) as [i|]; [|done]. cbn.
    unfold py_key. by destruct (py_hashable i).
  - destruct h1 as [| | | | |d]; try done. cbn in Hh1.
    destruct (dict_get "id" d) as [i|] eqn:Hi; [|done].
    cbn [app foldM py_getitem]. rewrite Hi. cbn [mbind result_bind].
    destruct (py_hashable i) eqn:Hhash; [|done].
    unfold py_key. rewrite Hhash. cbn [mbind result_bind]. apply IH.
Qed.

(** X9: what the constructor asks of a document given as a dict whose
    "habits", when present, is a list.  It succeeds exactly when every habit
    is a dict with a hashable "id": then it keeps the document, indexes every
    habit and takes "entries" as it is, without looking inside.  Otherwise the
    first habit that cannot be indexed decides the exception: [KeyError] for
    a dict without "id", [TypeError] for a value that is no dict or for an id
    that is a list or a dict. *)
Theorem constructor_checks_habit_ids json_load filepath d hl :
  default (JArr []) (dict_get "habits" d) = JArr hl →
  (Forall (λ h, indexable h) hl →
   ∃ self,
     HumaneData_init json_load filepath (JObj d) = Ok self ∧
     data self = JObj d ∧
     entries self = default (JArr []) (dict_get "entries" d) ∧
     ∀ h, h ∈ hl →
          ∃ i, field "id" h = Some i ∧ is_Some (pd_get i (habits self))) ∧
  (∀ l1 h l2,
     hl = l1 ++ h :: l2 → Forall (λ h, indexable h) l1 → ¬ indexable h →
     HumaneData_init json_load filepath (JObj d)
     = Raise (match h with
              | JObj f =>
                  match dict_get "id" f with
                  | Some _ => TypeError
                  | None => KeyError
                  end
              | _ => TypeError
              end)).
Proof.
  intros Hhl. unfold HumaneData_init, habits_list.
  cbn [mbind result_bind py_get].
  rewrite Hhl. cbn [mbind result_bind py_iter]. split.
  - intros Hall.
    destruct (index_loop_ok hl [] Hall) as (idx & -> & _ & Hin).
    cbn [mbind result_bind]. eexists. split; [done|]. by cbn.
  - intros l1 h l2 -> Hl1 Hh.
    by rewrite index_loop_raises.
Qed.

(** ** Names by id *)

Lemma filter_unique_key {A B} `{EqDecision B} (f : A → B) (l : list A) x :
  NoDup (map f l) → x ∈ l → filter (λ y, f y = f x) l = [x].
Proof.
  induction l as [|y l IH]; [by intros _ ?%elem_of_nil|].
  cbn [map]. intros [Hy Hnd]%NoDup_cons [->|Hx]%elem_of_cons.
  - rewrite filter_cons_True by done. f_equal.
    apply filter_none. intros z Hz Hfz. apply Hy. rewrite <- Hfz.
    apply list_elem_of_fmap. eauto.
  - rewrite filter_cons_False; [by apply IH|].
    intros Hfy. apply Hy. rewrite Hfy. apply list_elem_of_fmap. eauto.
Qed.

(** X10: the name of a habit looked up by id.  An id that no habit carries
    gives "Unknown"; when the ids of the document are pairwise distinct, the
    id of each habit gives that habit's own name, and "Unknown" again when
    the habit has none: the answer "Unknown" does not tell a habit without a
    name from an id without a habit. *)
Theorem habit_name_by_id self :
  loaded self → snapshot_ok (data self) →
  let hs := snapshot_habits (data self) in
  (∀ i, (∀ h, h ∈ hs → str_field "id" h ≠ Some i) →
        get_habit_name self i = Ok (JStr "Unknown")) ∧
  (NoDup (map (str_field "id") hs) →
   ∀ h, h ∈ hs →
        ∃ i, str_field "id" h = Some i ∧
             get_habit_name self i
             = Ok (JStr (default "Unknown" (str_field "name" h)))).
Proof.
  intros Hl Hok hs. split.
  - intros i Hi. rewrite get_habit_name_eq by done. fold hs.
    by rewrite filter_none.
  - intros Hnd h Hh.
    assert (habit_ok h) as (d & -> & [i Hi] & _)%habit_ok_inv
      by by eapply snapshot_habits_ok.
    assert (str_field "id" (JObj d) = Some i) as Hid
      by (unfold str_field; cbn; by rewrite Hi).
    exists i. split; [done|].
    rewrite get_habit_name_eq by done. fold hs. rewrite <- Hid.
    by rewrite (filter_unique_key (str_field "id")).
Qed.

(** ** The groups of [get_categories] *)

Lemma concat_groups_skip {A} (key : A → string) (ks : list string) x l :
  key x ∉ ks →
  concat (map (λ k, filter (λ y, key y = k) (x :: l)) ks)
  = concat (map (λ k, filter (λ y, key y = k) l) ks).
Proof.
  induction ks as [|k ks IH]; [done|].
  intros [Hk Hks]%not_elem_of_cons. cbn [map concat].
  by rewrite filter_cons_False, IH.
Qed.

Lemma concat_groups_cons {A} (key : A → string) (ks : list string) x l :
  NoDup ks → key x ∈ ks →
  concat (map (λ k, filter (λ y, key y = k) (x :: l)) ks)
  ≡ₚ x :: concat (map (λ k, filter (λ y, key y = k) l) ks).
Proof.
  induction 1 as [|k ks Hk Hnd IH]; [by intros ?%elem_of_nil|].
  cbn [map concat]. destruct (decide (key x = k)) as [<-|Hne].
  - intros _. rewrite filter_cons_True by done.
    by rewrite concat_groups_skip.
  - intros [?|Hin]%elem_of_cons; [done|].
    rewrite filter_cons_False by done. rewrite IH by done.
    by rewrite Permutation_middle.
Qed.

Lemma concat_groups_perm {A} (key : A → string) (ks : list string) l :
  NoDup ks → (∀ x, x ∈ l → key x ∈ ks) →
  concat (map (λ k, filter (λ y, key y = k) l) ks) ≡ₚ l.
Proof.
  intros Hnd. induction l as [|x l IH]; intros Hin.
  - clear. induction ks as [|k ks IH]; [done|]. cbn. by rewrite IH.
  - rewrite concat_groups_cons; [|done|apply Hin; left].
    f_equiv. apply IH. intros; apply Hin; by right.
Qed.

Lemma head_filter_snoc {A} (P : A → Prop) `{!∀ x, Decision (P x)} l x :
  (∃ y, y ∈ l ∧ P y) → head (filter P (l ++ [x])) = head (filter P l).
Proof.
  intros (y & Hy & HP). rewrite filter_app.
  assert (y ∈ filter P l) as Hin by by apply list_elem_of_filter.
  destruct (filter P l); [by apply elem_of_nil in Hin|done].
Qed.

(** The first members of the groups, in the order of the groups, are met in
    that order in the list. *)
Lemma group_heads_sublist {A} (key : A → string) (l : list A) :
  map (λ k, head (group_of key l k)) (group_keys key l)
  `sublist_of` map Some l.
Proof.
  unfold group_of. induction l as [|x l IH] using rev_ind; [done|].
  rewrite group_keys_snoc, map_app. cbn [map].
  assert (map (λ k, head (filter (λ y, key y = k) (l ++ [x])))
              (group_keys key l)
          = map (λ k, head (filter (λ y, key y = k) l)) (group_keys key l))
    as Hold.
  { apply map_ext_in. intros k Hk%list_elem_of_In%elem_of_group_keys.
    by apply head_filter_snoc. }
  case_decide as Hin.
  - rewrite Hold. by apply sublist_inserts_r.
  - rewrite map_app, Hold. cbn [map]. apply sublist_app; [done|].
    rewrite filter_app, filter_none, filter_cons_True, filter_nil by
      first [done | intros y Hy Hk; apply Hin, elem_of_group_keys; eauto].
    done.
Qed.

(** X11: [get_categories] cuts the habits into groups.  The category names
    are pairwise distinct; no group is empty; a group holds the habits of its
    category in the order of the document; every habit is in one group, so
    that together the groups hold the habits once each; and the groups come
    in the order in which their categories first appear. *)
Theorem get_categories_partition self :
  snapshot_ok (data self) →
  let hs := snapshot_habits (data self) in
  ∃ groups,
    get_categories self = Ok groups ∧
    NoDup (map fst groups) ∧
    (∀ c g, (c, g) ∈ groups →
            g ≠ [] ∧ ∃ k, c = JStr k ∧ g = in_category k hs) ∧
    concat (map snd groups) ≡ₚ hs ∧
    map (λ cg, head cg.2) groups `sublist_of` map Some hs.
Proof.
  intros Hok hs. eexists. split; [by apply get_categories_eq|]. fold hs.
  rewrite group_by_eq. rewrite !map_map. cbn [fst snd]. split_and!.
  - apply NoDup_fmap_2; [by intros ? ? [= ->]|apply group_keys_NoDup].
  - intros c g (k & [= <- <-] & Hk%list_elem_of_In)%list_elem_of_In%in_map_iff.
    split; [by apply group_of_nonempty|]. by exists k.
  - apply concat_groups_perm; [apply group_keys_NoDup|].
    intros h Hh. apply elem_of_group_keys. eauto.
  - apply group_heads_sublist.
Qed.

(** * The entry point *)

Lemma main_cases argv :
  match argv with
  | [] => main argv = []
  | [prog] => main argv = [prog; "explore"]
  | prog :: first :: rest =>
      main argv = if decide (first ∈ commands) then argv
                  else prog :: "explore" :: first :: rest
  end.
Proof.
  destruct argv as [|prog [|first rest]]; [done..|].
  unfold main. cbn [length lookup list_lookup].
  rewrite bool_decide_eq_false_2 by done.
  rewrite (bool_decide_eq_true_2 (2 ≤ _)%nat) by (cbn; lia).
  cbn [andb]. destruct (decide (first ∈ commands)).
  - by rewrite bool_decide_eq_true_2.
  - by rewrite bool_decide_eq_false_2.
Qed.

(** X12: what [main] hands to the command-line parser.  It leaves the
    argument list alone when the list is empty or its second word is one of
    the five first words that [main] knows; in every other case it puts the
    word "explore", and no other, in second place, so that a first argument
    that is none of the five words, be it an option, becomes the argument of
    "explore".  The program name and the arguments are kept in their order;
    unless the list is empty, the second word is then one of the five; and a
    list that [main] has been through is not changed by a second pass. *)
Theorem main_puts_a_command_first argv :
  (main argv = argv ↔
   argv = [] ∨ ∃ c, argv !! 1%nat = Some c ∧ c ∈ commands) ∧
  (main argv ≠ argv → main argv = py_insert 1 "explore" argv) ∧
  (∀ prog first rest,
     argv = prog :: first :: rest → first ∉ commands →
     main argv = prog :: "explore" :: first :: rest) ∧
  (∀ prog, argv = [prog] → main argv = [prog; "explore"]) ∧
  ((∃ c, main argv !! 1%nat = Some c ∧ c ∈ commands) ↔ argv ≠ []) ∧
  main argv !! 0%nat = argv !! 0%nat ∧
  argv `sublist_of` main argv ∧
  (length (main argv) ≤ length argv + 1)%nat ∧
  main (main argv) = main argv.
Proof.
  pose proof (main_cases argv) as Hm.
  assert ("explore" ∈ commands) as Hexplore by (unfold commands; set_solver).
  destruct argv as [|prog [|first rest]].
  - rewrite !Hm. split_and!; try done; try (cbn [length]; lia).
    + split; [by left|done].
    + split; [by intros (? & ? & _)|done].
  - rewrite !Hm. split_and!; try done; try (cbn [length]; lia).
    + split; [done|]. by intros [?|(c & ? & _)].
    + intros prog' [= ->]. done.
    + split; [done|]. intros _. by exists "explore".
    + by apply sublist_skip, sublist_cons.
  - destruct (decide (first ∈ commands)) as [Hin|Hnin].
    + rewrite !Hm. split_and!; try done; try (cbn [length]; lia).
      * split; [|done]. intros _. right. by exists first.
      * intros prog' first' rest' [= -> -> ->] Hnin. done.
      * split; [done|]. intros _. by exists first.
    + rewrite Hm. split_and!; try done; try (cbn [length]; lia).
      * split.
        -- intros Heq%(f_equal length). cbn in Heq. lia.
        -- intros [?|(c & [= ->] & Hc)]; done.
      * by intros prog' first' rest' [= -> -> ->] _.
      * split; [done|]. intros _. by exists "explore".
      * by apply sublist_skip, sublist_cons.
Qed.

(** * The merge command *)

Lemma habit_ok_id h :
  habit_ok h →
  ∃ i, str_field "id" h = Some i ∧ py_getitem h "id" = Ok (JStr i).
Proof.
  intros (d & -> & [i Hi] & _)%habit_ok_inv. exists i.
  unfold str_field. cbn. by rewrite Hi.
Qed.

(** X13: the merge as the command [merge] calls it.  The command offers as
    sources the habits whose id differs from the id of the chosen target, so
    that the target is never among the sources.  Then the merge keeps the
    target habit, removes every chosen source, removes no habit but those
    that share the id of a chosen source, and the number of entries that the
    command reports is the number of distinct days among the entries of the
    target and the sources. *)
Theorem merge_command_keeps_target self target sources :
  loaded self → snapshot_ok (data self) →
  let hs := snapshot_habits (data self) in
  let es := snapshot_entries (data self) in
  target ∈ hs →
  (∀ s, s ∈ sources →
        s ∈ hs ∧ str_field "id" s ≠ str_field "id" target) →
  ∃ t ids result counted,
    py_getitem target "id" = Ok (JStr t) ∧
    Command.source_ids sources = Ok (map JStr ids) ∧
    merge_habits self t ids = Ok result ∧
    Command.merged_entries result target = Ok counted ∧
    target ∈ snapshot_habits result ∧
    (∀ s, s ∈ sources → s ∉ snapshot_habits result) ∧
    (∀ h, h ∈ hs → h ∉ snapshot_habits result →
          ∃ s, s ∈ sources ∧ str_field "id" h = str_field "id" s) ∧
    counted = filter (λ e, str_field "habitId" e = Some t)
                     (snapshot_entries result) ∧
    length counted
    = length (group_keys normalized_date
                (filter (contributing t ids) es)) ∧
    (length counted ≤ length (filter (contributing t ids) es))%nat.
Proof.
  intros Hl Hok hs es Ht Hsrc.
  assert (∀ h, h ∈ hs → habit_ok h) as Hhs
    by (intros; by eapply snapshot_habits_ok).
  destruct (habit_ok_id target (Hhs _ Ht)) as (t & Hid & Hget).
  set (ids := map (λ s, default "" (str_field "id" s)) sources).
  assert (∀ s, s ∈ sources →
               ∃ i, str_field "id" s = Some i ∧
                    py_getitem s "id" = Ok (JStr i) ∧ i ∈ ids ∧ i ≠ t)
    as Hs.
  { intros s Hin. destruct (Hsrc s Hin) as [Hh Hne].
    destruct (habit_ok_id s (Hhs _ Hh)) as (i & Hi & Hgi).
    exists i. split_and!; [done..| |congruence].
    apply list_elem_of_fmap. exists s. by rewrite Hi. }
  assert (t ∉ ids) as Hnt.
  { intros (s & Hts & Hin)%list_elem_of_fmap.
    destruct (Hs s Hin) as (i & Hi & _ & _ & Hne).
    rewrite Hi in Hts. by cbn in Hts. }
  pose proof (merge_result_ok (data self) t ids Hok) as Hrok.
  exists t, ids, (merge_result (data self) t ids). eexists.
  split; [done|]. split_and!.
  - unfold Command.source_ids, ids. rewrite map_map.
    apply forM_ok. intros s (i & Hi & -> & _)%Hs. by rewrite Hi.
  - by apply merge_habits_eq.
  - unfold Command.merged_entries.
    assert (py_getitem (merge_result (data self) t ids) "entries"
            = Ok (JArr (snapshot_entries (merge_result (data self) t ids))))
      as ->.
    { rewrite merge_result_entries. unfold merge_result. cbn [py_getitem].
      by rewrite dict_get_set_eq. }
    cbn [mbind result_bind py_iter].
    apply (filterM_ok _ (λ e, bool_decide (str_field "habitId" e = Some t))).
    intros e He%(snapshot_entries_ok _ _ Hrok).
    rewrite Hget.
    apply entry_ok_inv in He as (d & -> & _ & [Hh|[h Hh]] & _);
      unfold str_field; cbn; rewrite Hh; cbn; [done|].
    f_equal. apply bool_decide_ext. split; congruence.
  - rewrite merge_result_habits. apply list_elem_of_filter. split; [|done].
    unfold source_habit. rewrite Hid.
    by intros [? _]%elem_of_effective_sources.
  - intros s Hin. rewrite merge_result_habits.
    intros [Hns _]%list_elem_of_filter. apply Hns.
    destruct (Hs s Hin) as (i & Hi & _ & Hids & Hne).
    unfold source_habit. rewrite Hi. by apply elem_of_effective_sources.
  - intros h Hh Hout. rewrite merge_result_habits in Hout.
    destruct (decide (source_habit t ids h)) as [Hsh|Hnsh].
    + unfold source_habit in Hsh.
      destruct (str_field "id" h) as [i|] eqn:Hi; [|done].
      apply elem_of_effective_sources in Hsh
        as [(s & His & Hin)%list_elem_of_fmap _].
      exists s. split; [done|].
      destruct (Hs s Hin) as (j & Hj & _). rewrite Hj in His |- *.
      by subst.
    + exfalso. apply Hout. by apply list_elem_of_filter.
  - apply list_filter_iff. intros e. apply bool_decide_spec.
  - erewrite list_filter_iff by (intros e; apply bool_decide_spec).
    rewrite merge_result_entries.
    rewrite filter_target_result by
      (intros; by apply (snapshot_entries_ok (data self))).
    unfold merged_entries. cbv zeta. by rewrite length_map.
  - erewrite list_filter_iff by (intros e; apply bool_decide_spec).
    rewrite merge_result_entries.
    rewrite filter_target_result by
      (intros; by apply (snapshot_entries_ok (data self))).
    unfold merged_entries. cbv zeta. rewrite length_map.
    apply group_keys_length.
Qed.

(** * Sorting by a key *)

Section SortBy.
Context {A : Type} (key : A → string).

Lemma sorted_insert_keyed x l :
  sorted_insert (λ a b : json * A, py_lt a.1 b.1) (JStr (key x), x) (map (λ x, (JStr (key x), x)) l)
  = Ok (map (λ x, (JStr (key x), x)) (insert_by key x l)).
Proof.
  induction l as [|y l IH]; [done|].
  cbn [map sorted_insert insert_by fst py_lt mbind result_bind].
  destruct (String.ltb (key y) (key x)); [|done].
  by rewrite IH.
Qed.

Lemma py_sorted_keyed l :
  py_sorted (λ a b : json * A, py_lt a.1 b.1) (map (λ x, (JStr (key x), x)) l)
  = Ok (map (λ x, (JStr (key x), x)) (sort_by key l)).
Proof.
  induction l as [|x l IH]; [done|].
  cbn [map py_sorted sort_by]. rewrite IH. cbn [mbind result_bind].
  apply sorted_insert_keyed.
Qed.

Lemma py_sorted_by_ok (keyf : A → result json) (reverse : bool) l :
  (∀ x, x ∈ l → keyf x = Ok (JStr (key x))) →
  py_sorted_by keyf reverse l
  = Ok (if reverse then rev (sort_by key (rev l)) else sort_by key l).
Proof.
  intros Hk. unfold py_sorted_by.
  rewrite (forM_ok _ (λ x, (JStr (key x), x))) by (intros x Hx; by rewrite Hk).
  cbn [mbind result_bind]. destruct reverse.
  - rewrite <- map_rev, py_sorted_keyed. cbn [mbind result_bind].
    by rewrite <- map_rev, map_map, map_id.
  - rewrite py_sorted_keyed. cbn [mbind result_bind].
    by rewrite map_map, map_id.
Qed.

Lemma insert_by_perm x l : insert_by key x l ≡ₚ x :: l.
Proof.
  induction l as [|y l IH]; [done|]. cbn.
  destruct (String.ltb (key y) (key x)); [|done].
  by rewrite IH, Permutation_swap.
Qed.

Lemma sort_by_perm l : sort_by key l ≡ₚ l.
Proof.
  induction l as [|x l IH]; [done|]. cbn. by rewrite insert_by_perm, IH.
Qed.

Lemma insert_by_sorted x l :
  StronglySorted (λ a b, ¬ str_lt (key b) (key a)) l → StronglySorted (λ a b, ¬ str_lt (key b) (key a)) (insert_by key x l).
Proof.
  induction l as [|y l IH]; intros Hs; [repeat constructor|].
  apply StronglySorted_inv in Hs as [Hs Hy]. cbn [insert_by].
  destruct (String.ltb (key y) (key x)) eqn:Hyx.
  - constructor; [by apply IH|].
    rewrite insert_by_perm. constructor; [|done].
    intros Hxy. eapply str_lt_irrefl, str_lt_trans; [exact Hxy|exact Hyx].
  - assert (¬ str_lt (key y) (key x)) as Hnlt
      by (unfold str_lt; by rewrite Hyx).
    constructor; [by constructor|].
    constructor; [done|].
    eapply Forall_impl; [exact Hy|]. intros z Hz Hzx. cbn beta in Hz.
    destruct (decide (key y = key x)) as [Heq|Hne].
    + apply Hz. by rewrite Heq.
    + apply Hz. eapply str_lt_trans; [exact Hzx|].
      by apply str_lt_total.
Qed.

Lemma sort_by_sorted l : StronglySorted (λ a b, ¬ str_lt (key b) (key a)) (sort_by key l).
Proof.
  induction l as [|x l IH]; [constructor|]. by apply insert_by_sorted.
Qed.

Lemma insert_by_stable k x l :
  filter (λ y, key y = k) (insert_by key x l)
  = filter (λ y, key y = k) (x :: l).
Proof.
  induction l as [|y l IH]; [done|]. cbn [insert_by].
  destruct (String.ltb (key y) (key x)) eqn:Hyx; [|done].
  rewrite filter_cons, IH, !filter_cons.
  destruct (decide (key y = k)) as [Hy|Hy],
           (decide (key x = k)) as [Hx|Hx]; try done.
  exfalso. apply (str_lt_irrefl k). unfold str_lt.
  by rewrite <- Hy at 1; rewrite <- Hx.
Qed.

Lemma sort_by_stable k l :
  filter (λ y, key y = k) (sort_by key l) = filter (λ y, key y = k) l.
Proof.
  induction l as [|x l IH]; [done|]. cbn [sort_by].
  by rewrite insert_by_stable, !filter_cons, IH.
Qed.

End SortBy.

Lemma StronglySorted_rev {A} (R : relation A) l :
  StronglySorted R l → StronglySorted (flip R) (rev l).
Proof.
  induction 1 as [|x l Hs IH Hx]; [constructor|]. cbn [rev].
  apply StronglySorted_app_2; [|done|repeat constructor].
  intros y z Hy%list_elem_of_In%in_rev%list_elem_of_In
    ->%list_elem_of_singleton.
  rewrite Forall_forall in Hx. by apply Hx.
Qed.

Lemma filter_rev {A} (P : A → Prop) `{!∀ x, Decision (P x)} (l : list A) :
  filter P (rev l) = rev (filter P l).
Proof.
  induction l as [|x l IH]; [done|]. cbn [rev].
  rewrite filter_app, IH, !filter_cons, filter_nil.
  destruct (decide (P x)); [done|]. by rewrite app_nil_r.
Qed.

(** The reversed sort: a stable sort into descending order. *)
Lemma sort_by_reverse {A} (key : A → string) (l : list A) :
  let shown := rev (sort_by key (rev l)) in
  shown ≡ₚ l ∧
  StronglySorted (λ a b, ¬ str_lt (key a) (key b)) shown ∧
  ∀ k, filter (λ x, key x = k) shown = filter (λ x, key x = k) l.
Proof.
  cbv zeta. split_and!.
  - by rewrite <- Permutation_rev, sort_by_perm, <- Permutation_rev.
  - apply (StronglySorted_rev (λ a b, ¬ str_lt (key b) (key a))).
    apply sort_by_sorted.
  - intros k. by rewrite filter_rev, sort_by_stable, filter_rev, rev_involutive.
Qed.

(** * The screens *)

(** ** The entries of a habit *)

Lemma entry_ok_date e :
  entry_ok e →
  py_get e "date" (JStr "") = Ok (JStr (default "" (str_field "date" e))).
Proof.
  intros (d & -> & _ & _ & [Hd|[s Hd]] & _)%entry_ok_inv;
    unfold str_field; cbn; by rewrite Hd.
Qed.

Lemma created_ok_get e :
  entry_ok e → created_ok e →
  py_get e "createdAt" (JStr "")
  = Ok (JStr (default "" (str_field "createdAt" e))).
Proof.
  intros (d & -> & _)%entry_ok_inv. unfold created_ok, str_field. cbn.
  by destruct (dict_get "createdAt" d) as [[]|].
Qed.

(** X14: the rows of the entries screen.  For a habit without entries the
    table gets the one row "No entries", "-", "-"; otherwise it gets one row
    for each entry of the habit and no other: in descending order of the
    stored dates, entries of one date in the order of the document, each row
    showing the first 10 characters of the date, the value with 0 for a
    missing one, and the first 10 characters of the creation time.  The table
    is never left without a row. *)
Theorem entries_screen_rows str self habit_id :
  loaded self → snapshot_ok (data self) →
  forallb created_ok (snapshot_entries (data self)) →
  let own := filter (λ e, str_field "habitId" e = Some habit_id)
                    (snapshot_entries (data self)) in
  let date := λ e, default "" (str_field "date" e) in
  let row_of := λ e,
    {| row_cells :=
         [JStr (normalized_date e);
          JStr (str (JNum (entry_value e)));
          JStr (String.substring 0 10
                  (default "" (str_field "createdAt" e)))];
       row_key := None |} in
  ∃ screen rows,
    EntriesScreen.init self habit_id = Ok screen ∧
    EntriesScreen.entries screen = own ∧
    EntriesScreen.on_mount str screen = Ok rows ∧
    rows ≠ [] ∧
    (own = [] →
     rows = [{| row_cells := [JStr "No entries"; JStr "-"; JStr "-"];
                row_key := None |}]) ∧
    (own ≠ [] →
     ∃ shown,
       rows = map row_of shown ∧
       shown ≡ₚ own ∧
       StronglySorted (λ a b, ¬ str_lt (date a) (date b)) shown ∧
       ∀ d, filter (λ e, date e = d) shown = filter (λ e, date e = d) own).
Proof.
  intros Hl Hok Hcr%forallb_Forall own date row_of.
  rewrite Forall_forall in Hcr.
  assert (∀ e, e ∈ own → entry_ok e ∧ created_ok e) as Hown.
  { intros e [_ He]%list_elem_of_filter. split; [|by apply Hcr].
    by eapply snapshot_entries_ok. }
  pose proof (get_habit_name_eq self habit_id Hl Hok) as Hname.
  set (name := JStr _) in Hname.
  exists {| EntriesScreen.habit_id := habit_id;
            EntriesScreen.habit_name := name;
            EntriesScreen.entries := own |}.
  pose proof (sort_by_reverse date own) as (Hperm & Hsorted & Hstable).
  set (shown := rev (sort_by date (rev own))) in *.
  assert (forM (λ entry,
                  d ← py_get entry "date" (JStr "");
                  date_str ← py_slice_to 10 d;
                  c ← py_get entry "createdAt" (JStr "");
                  created_str ← py_slice_to 10 c;
                  v ← py_get entry "value" (JNum 0);
                  Ok {| row_cells := [date_str; JStr (str v); created_str];
                        row_key := None |}) shown
          = Ok (map row_of shown)) as Hrows.
  { apply forM_ok. intros e He. rewrite Hperm in He.
    destruct (Hown e He) as [Heok Hecr].
    rewrite entry_ok_date, created_ok_get, entry_ok_value by done.
    done. }
  eexists. split_and!.
  - unfold EntriesScreen.init. rewrite Hname. cbn [mbind result_bind].
    by rewrite get_entries_for_habit_eq.
  - done.
  - unfold EntriesScreen.on_mount. cbn [EntriesScreen.entries].
    rewrite (py_sorted_by_ok date)
      by (intros e [He _]%Hown; by apply entry_ok_date).
    cbn [mbind result_bind]. fold shown. rewrite Hrows.
    cbn [mbind result_bind]. done.
  - destruct own as [|e own'] eqn:Hown'; [done|].
    change (map row_of shown ≠ []).
    intros Hnil%(f_equal length). rewrite length_map in Hnil.
    apply Permutation_length in Hperm. cbn in Hperm, Hnil. lia.
  - intros Hnil. subst shown. by rewrite Hnil.
  - intros Hne. exists shown. split; [|done].
    destruct own; [done|]. done.
Qed.

(** ** The habits of a category *)

Lemma get_entries_for_habit_id_str self habit_id :
  get_entries_for_habit_id self (JStr habit_id)
  = get_entries_for_habit self habit_id.
Proof. done. Qed.

Lemma NoDup_map_sublist {A B} (f : A → B) (l l' : list A) :
  l' `sublist_of` l → NoDup (map f l) → NoDup (map f l').
Proof.
  intros Hsub Hnd. eapply sublist_NoDup; [exact Hnd|].
  by apply (fmap_sublist f).
Qed.

Lemma foldM_ext {A S} (f g : S → A → result S) (l : list A) (s : S) :
  (∀ s x, x ∈ l → f s x = g s x) → foldM f s l = foldM g s l.
Proof.
  revert s. induction l as [|x l IH]; intros s Hfg; [done|].
  cbn [foldM]. rewrite (Hfg s x) by left.
  destruct (g s x) as [s'|e]; [|done]. cbn [mbind result_bind].
  apply IH. intros; apply Hfg; by right.
Qed.

(** Adding rows with string keys: the table takes them as long as the keys
    are new. *)
Section AddRows.
Context {A : Type} (keyof : A → string) (mk : A → row).
Hypothesis mk_key : ∀ x, row_key (mk x) = Some (JStr (keyof x)).

Lemma add_row_str x added :
  add_row (mk x) (map mk added)
  = if decide (keyof x ∈ map keyof added) then Raise DuplicateKey
    else Ok (map mk (added ++ [x])).
Proof.
  unfold add_row. rewrite mk_key. cbn [py_key py_hashable mbind result_bind].
  assert (existsb (λ r', match row_key r' with
                         | None | Some JNull => false
                         | Some k' => py_eq (JStr (keyof x)) k'
                         end) (map mk added)
          = bool_decide (keyof x ∈ map keyof added)) as ->.
  { induction added as [|y added IH]; cbn [map existsb].
    - symmetry. apply bool_decide_eq_false_2, not_elem_of_nil.
    - rewrite mk_key, py_eq_str, IH.
      destruct (decide (keyof x = keyof y)) as [Heq|Hne].
      + rewrite bool_decide_eq_true_2 by done. cbn [orb]. symmetry.
        apply bool_decide_eq_true_2. rewrite Heq. left.
      + rewrite (bool_decide_eq_false_2 (keyof x = keyof y)) by done.
        cbn [orb]. apply bool_decide_ext. rewrite elem_of_cons. tauto. }
  case_bool_decide; case_decide; try done.
  by rewrite map_app.
Qed.

Lemma foldM_add_row l added :
  NoDup (map keyof added) →
  foldM (λ table x, add_row (mk x) table) (map mk added) l
  = if decide (NoDup (map keyof (added ++ l)))
    then Ok (map mk (added ++ l)) else Raise DuplicateKey.
Proof.
  revert added. induction l as [|x l IH]; intros added Hnd.
  - rewrite app_nil_r. by rewrite decide_True.
  - cbn [foldM]. rewrite add_row_str.
    destruct (decide (keyof x ∈ map keyof added)) as [Hin|Hnin].
    + cbn [mbind result_bind]. rewrite decide_False; [done|].
      rewrite map_app. cbn [map]. intros [_ [Hd _]]%NoDup_app.
      apply (Hd (keyof x)); [done|left].
    + cbn [mbind result_bind]. rewrite IH.
      * by rewrite <- app_assoc.
      * rewrite map_app. cbn [map]. apply NoDup_app. split_and!; [done| |].
        -- intros k Hk ->%list_elem_of_singleton. done.
        -- apply NoDup_singleton.
Qed.
End AddRows.

(** X15: the rows of the habits screen.  The habits of the screen are those
    whose stored category is the category of the screen, taken in ascending
    order of the names, a missing name sorting as the empty string, habits of
    one name in the order of the document.  When their ids are pairwise
    distinct the table gets one row for each of them: the name, or "Unknown"
    for a missing one, the weekly target with 0 for a missing one and the
    number of entries that carry the id of the habit, under the id as the key
    of the row.  When two of them share an id the table refuses the second
    row of that id and [on_mount] raises [DuplicateKey]. *)
Theorem habits_screen_rows str self category :
  loaded self → snapshot_ok (data self) →
  let hs := snapshot_habits (data self) in
  let es := snapshot_entries (data self) in
  let listed := filter (λ h, str_field "category" h = Some category) hs in
  let row_of := λ h,
    {| row_cells :=
         [JStr (default "Unknown" (str_field "name" h));
          JStr (str (JNum (habit_target h)));
          JStr (str (JNum (Z.of_nat (length
            (filter (λ e, str_field "habitId" e = str_field "id" h) es)))))];
       row_key := JStr <$> str_field "id" h |} in
  ∃ screen shown,
    HabitsScreen.init self category = Ok screen ∧
    HabitsScreen.habits screen = listed ∧
    shown ≡ₚ listed ∧
    StronglySorted (λ a b, ¬ str_lt (habit_name b) (habit_name a)) shown ∧
    (∀ n, filter (λ h, habit_name h = n) shown
          = filter (λ h, habit_name h = n) listed) ∧
    HabitsScreen.on_mount str screen
    = (if decide (NoDup (map (str_field "id") listed))
       then Ok (map row_of shown) else Raise DuplicateKey) ∧
    (NoDup (map (str_field "id") hs) →
     HabitsScreen.on_mount str screen = Ok (map row_of shown) ∧
     NoDup (map row_key (map row_of shown))).
Proof.
  intros Hl Hok hs es listed row_of.
  assert (∀ h, h ∈ listed → habit_ok h) as Hlisted.
  { intros h [_ Hh]%list_elem_of_filter. by eapply snapshot_habits_ok. }
  pose proof (sort_by_perm habit_name listed) as Hperm.
  pose proof (sort_by_sorted habit_name listed) as Hsorted.
  pose proof (λ n, sort_by_stable habit_name n listed) as Hstable.
  set (shown := sort_by habit_name listed) in *.
  set (keyof := λ h, default "" (str_field "id" h)).
  set (mk := λ h,
         {| row_cells := row_cells (row_of h);
            row_key := Some (JStr (keyof h)) |}).
  assert (∀ h, h ∈ shown → str_field "id" h = Some (keyof h)) as Hkey.
  { intros h Hh. rewrite Hperm in Hh.
    destruct (habit_ok_id h (Hlisted h Hh)) as (i & Hi & _).
    unfold keyof. by rewrite Hi. }
  assert (map mk shown = map row_of shown) as Hmk.
  { apply map_ext_in. intros h Hh%list_elem_of_In%Hkey.
    unfold mk, row_of. cbn [row_cells]. by rewrite Hh. }
  assert (map (str_field "id") shown = map Some (map keyof shown)) as Hids.
  { rewrite map_map. apply map_ext_in. by intros h Hh%list_elem_of_In%Hkey. }
  assert (NoDup (map (str_field "id") listed) ↔ NoDup (map keyof shown))
    as Hnodup.
  { rewrite <- Hperm, Hids. split.
    - by apply NoDup_fmap_1.
    - apply NoDup_fmap_2. by intros ?? [= ->]. }
  assert (HabitsScreen.on_mount str
            {| HabitsScreen.humane_data := self;
               HabitsScreen.category := category;
               HabitsScreen.habits := listed |}
          = (if decide (NoDup (map (str_field "id") listed))
             then Ok (map row_of shown) else Raise DuplicateKey)) as Hmount.
  { unfold HabitsScreen.on_mount.
    cbn [HabitsScreen.habits HabitsScreen.humane_data].
    rewrite (py_sorted_by_ok habit_name)
      by (intros h Hh%Hlisted; by apply habit_ok_name).
    cbn [mbind result_bind]. fold shown.
    rewrite (foldM_ext _ (λ table h, add_row (mk h) table)).
    - pose proof (foldM_add_row keyof mk (λ _, eq_refl) shown []
                    NoDup_nil_2) as Hfold.
      cbn [map app] in Hfold. rewrite Hfold, Hmk.
      destruct (decide (NoDup (map keyof shown))) as [Hnd|Hnd];
        [rewrite decide_True|rewrite decide_False]; try done;
        by rewrite Hnodup.
    - intros table h Hh. pose proof (Hkey h Hh) as Hid.
      rewrite Hperm in Hh. apply Hlisted in Hh.
      destruct (habit_ok_id h Hh) as (i & Hi & ->).
      rewrite Hi in Hid. injection Hid as Hid.
      cbn [mbind result_bind].
      rewrite get_entries_for_habit_id_str, get_entries_for_habit_eq
        by done.
      cbn [mbind result_bind]. rewrite habit_ok_target by done.
      unfold mk, row_of. cbn [row_cells]. rewrite <- Hid, Hi.
      apply habit_ok_inv in Hh as (d & -> & _ & [Hn|[n Hn]] & _);
        unfold str_field; cbn; rewrite Hn; cbn; done. }
  exists {| HabitsScreen.humane_data := self;
            HabitsScreen.category := category;
            HabitsScreen.habits := listed |}, shown.
  split_and!; try done.
  - unfold HabitsScreen.init. by rewrite get_habits_by_category_eq.
  - intros Hnd.
    assert (NoDup (map (str_field "id") listed)) as Hndl.
    { apply (NoDup_map_sublist _ hs); [apply sublist_filter|done]. }
    split.
    + rewrite Hmount. by rewrite decide_True.
    + rewrite <- Hmk, map_map.
      change (NoDup (map (λ h, Some (JStr (keyof h))) shown)).
      rewrite <- (map_map keyof (λ k, Some (JStr k))).
      apply NoDup_fmap_2; [by intros ?? [= ->]|]. by apply Hnodup.
Qed.

(** ** The categories *)

(** X16: the rows of the categories screen.  The table gets one row for each
    category that some habit has, a habit without a category counting for
    "uncategorized", in ascending order of the category names.  The key of a
    row is the category as stored, so that the keys are pairwise distinct,
    while the first cell shows it capitalized; the other cells show the
    number of habits of the category and the sum of their weekly targets.
    The table is empty only when there is no habit. *)
Theorem categories_screen_rows str capitalize self :
  snapshot_ok (data self) →
  let hs := snapshot_habits (data self) in
  let row_of := λ c,
    {| row_cells :=
         [JStr (capitalize c);
          JStr (str (JNum (Z.of_nat (length (in_category c hs)))));
          JStr (str (JNum (total_target (in_category c hs))))];
       row_key := Some (JStr c) |} in
  ∃ rows names,
    CategoriesScreen.on_mount str capitalize self = Ok rows ∧
    rows = map row_of names ∧
    StronglySorted str_lt names ∧
    (∀ c, c ∈ names ↔ ∃ h, h ∈ hs ∧ habit_category h = c) ∧
    NoDup (map row_key rows) ∧
    (rows = [] ↔ hs = []).
Proof.
  intros Hok hs row_of.
  set (names := str_sort (group_keys habit_category hs)).
  assert (∀ c, c ∈ names ↔ ∃ h, h ∈ hs ∧ habit_category h = c) as Hnames.
  { intros c. unfold names. rewrite str_sort_perm.
    apply elem_of_group_keys. }
  exists (map row_of names), names. split_and!; try done.
  - unfold CategoriesScreen.on_mount.
    rewrite get_category_stats_eq by done. cbn [mbind result_bind].
    fold hs names. rewrite (forM_ok _ (λ s, row_of match s.1.1 with
                                                   | JStr c => c
                                                   | _ => ""
                                                   end)).
    + by rewrite map_map.
    + intros [[cat count] target]
        (c & [= <- <- <-] & _)%list_elem_of_In%in_map_iff. done.
  - apply str_sort_sorted, group_keys_NoDup.
  - rewrite map_map. cbn [row_key].
    apply NoDup_fmap_2; [by intros ?? [= ->]|].
    unfold names. rewrite str_sort_perm. apply group_keys_NoDup.
  - split.
    + intros Hrows. destruct hs as [|h hs'] eqn:Hhs; [done|].
      assert (habit_category h ∈ names) as Hin
        by (apply Hnames; exists h; split; [left|done]).
      destruct names; [by apply elem_of_nil in Hin|done].
    + intros Hhs. destruct names as [|c names']; [done|].
      destruct (proj1 (Hnames c)) as (h & Hh & _); [left|].
      rewrite Hhs in Hh. by apply elem_of_nil in Hh.
Qed.

(** * The command that lists the habits *)

Lemma for_each_ok {A} (body : A → printing ()) (out : A → list string) l :
  (∀ x, x ∈ l → body x = (out x, Ok ())) →
  for_each body l = (concat (map out l), Ok ()).
Proof.
  induction l as [|x l IH]; intros Hb; [done|].
  cbn [for_each]. unfold mbind, printing_bind.
  rewrite (Hb x) by left. cbn [fst snd].
  by rewrite IH by (intros; apply Hb; by right).
Qed.

Lemma for_each_status {A} (body : A → printing ()) (p : A → bool) e l :
  (∀ x, x ∈ l → (body x).2 = if p x then Ok () else Raise e) →
  (for_each body l).2 = if forallb p l then Ok () else Raise e.
Proof.
  induction l as [|x l IH]; intros Hb; [done|].
  cbn [for_each forallb]. unfold mbind, printing_bind.
  rewrite (Hb x) by left. destruct (p x); cbn [andb snd]; [|done].
  apply IH. intros; apply Hb; by right.
Qed.

Lemma bind_quiet_Ok {A B} (a : A) (f : A → printing B) :
  quiet (Ok a) ≫= f = f a.
Proof. unfold mbind, printing_bind, quiet. cbn. by destruct (f a). Qed.

Lemma bind_quiet_Raise {A B} e (f : A → printing B) :
  quiet (Raise e) ≫= f = ([], Raise e).
Proof. done. Qed.

Lemma bind_print {B} s (f : () → printing B) :
  print s ≫= f = (s :: (f ()).1, (f ()).2).
Proof. done. Qed.

Lemma Is_true_eq_iff (a b : bool) : (a ↔ b) → a = b.
Proof. destruct a, b; cbn; intuition. Qed.

Lemma forallb_perm {A} (p : A → bool) (l l' : list A) :
  l ≡ₚ l' → forallb p l = forallb p l'.
Proof.
  intros Hperm. apply Is_true_eq_iff. rewrite !forallb_Forall.
  by rewrite Hperm.
Qed.

Lemma forallb_map_comp {A B} (p : B → bool) (f : A → B) (l : list A) :
  forallb p (map f l) = forallb (λ x, p (f x)) l.
Proof. induction l as [|x l IH]; [done|]. cbn. by rewrite IH. Qed.

Lemma length_concat_blocks {A} (f : string → list A) (ks : list string) :
  length (concat (map f ks)) = sum_list_with (λ k, length (f k)) ks.
Proof.
  induction ks as [|k ks IH]; [done|]. cbn. by rewrite length_app, IH.
Qed.

Lemma sum_list_with_eq (f g : string → nat) (ks : list string) :
  (∀ k, f k = g k) → sum_list_with f ks = sum_list_with g ks.
Proof. intros Hfg. induction ks as [|k ks IH]; cbn; [done|]. by rewrite Hfg, IH. Qed.

Lemma sum_list_with_add (g : string → nat) (n : nat) (ks : list string) :
  sum_list_with (λ k, n + g k)%nat ks
  = (n * length ks + sum_list_with g ks)%nat.
Proof. induction ks as [|k ks IH]; cbn; [lia|]. rewrite IH. lia. Qed.

(** X17: the command [list] reads the name of a habit by subscript.  On a
    document in which every habit has a name it prints, for each category in
    ascending order, a heading and a rule and then one line for each habit of
    the category, in ascending order of the names: two lines for each
    category and one for each habit.  When some habit has no name it raises
    [KeyError], where the screens and [get_habit_name] show "Unknown". *)
Theorem list_needs_names str upper self :
  loaded self → snapshot_ok (data self) →
  let hs := snapshot_habits (data self) in
  let es := snapshot_entries (data self) in
  let count := λ h,
    Z.of_nat (length (filter (λ e, str_field "habitId" e = str_field "id" h)
                             es)) in
  let line := λ h,
    "  " +:+ ljust 30 (habit_name h) +:+ " (" +:+
    rjust 3 (str (JNum (count h))) +:+ " entries)" in
  let block := λ c,
    (String "010" "[bold]" +:+ upper c +:+ "[/bold]") ::
    str_repeat "-" 40 ::
    map line (sort_by habit_name (in_category c hs)) in
  let names := str_sort (group_keys habit_category hs) in
  (list_habits str upper self).2
    = (if forallb named hs then Ok () else Raise KeyError) ∧
  (forallb named hs →
   (list_habits str upper self).1 = concat (map block names) ∧
   length (list_habits str upper self).1
   = (2 * length names + length hs)%nat).
Proof.
  intros Hl Hok hs es count line block names.
  assert (∀ h, h ∈ hs → habit_ok h) as Hhs
    by (intros; by eapply snapshot_habits_ok).
  (* one habit *)
  set (body := λ h : json,
         i ← quiet (py_getitem h "id");
         es ← quiet (get_entries_for_habit_id self i);
         let entry_count := Z.of_nat (length es) in
         n ← quiet (py_getitem h "name");
         name ← quiet (py_format_left str 30 n);
         print ("  " +:+ name +:+ " (" +:+
                rjust 3 (str (JNum entry_count)) +:+ " entries)")).
  assert (∀ h, h ∈ hs →
               body h = if named h then ([line h], Ok ())
                        else ([], Raise KeyError)) as Hbody.
  { intros h Hh%Hhs. unfold body.
    destruct (habit_ok_id h Hh) as (i & Hi & ->).
    rewrite bind_quiet_Ok.
    rewrite get_entries_for_habit_id_str, get_entries_for_habit_eq by done.
    rewrite bind_quiet_Ok. cbv zeta.
    unfold line, count. rewrite Hi. fold es.
    apply habit_ok_inv in Hh as (d & -> & _ & [Hn|[n Hn]] & _);
      unfold named, habit_name, str_field;
      cbn [py_getitem field]; rewrite Hn; [done|].
    rewrite bind_quiet_Ok. cbn [py_format_left]. by rewrite bind_quiet_Ok. }
  (* one category *)
  set (outer := λ '(cat, habits),
         u ← quiet (py_upper upper cat);
         print (String "010" "[bold]" +:+ u +:+ "[/bold]");;
         print (str_repeat "-" 40);;
         sorted ← quiet (py_sorted_by (λ x, py_get x "name" (JStr "")) false
                                      habits);
         for_each body sorted).
  assert (∀ c, outer (JStr c, group_of habit_category hs c)
               = ([String "010" "[bold]" +:+ upper c +:+ "[/bold]";
                   str_repeat "-" 40] ++
                  (for_each body (sort_by habit_name (in_category c hs))).1,
                  (for_each body (sort_by habit_name (in_category c hs))).2))
    as Houter.
  { intros c. unfold outer, group_of.
    rewrite (py_sorted_by_ok habit_name)
      by (intros h [_ Hh%Hhs]%list_elem_of_filter; by apply habit_ok_name).
    cbn [py_upper]. by rewrite !bind_quiet_Ok, !bind_print. }
  assert (list_habits str upper self
          = for_each outer
              (map (λ c, (JStr c, group_of habit_category hs c)) names))
    as Hlist.
  { unfold list_habits. rewrite get_categories_eq by done. fold hs.
    rewrite bind_quiet_Ok, group_by_eq.
    rewrite (py_sorted_ok item_lt
               (λ k, (JStr k, group_of habit_category hs k)));
      [|intros; by apply item_lt_str|apply group_keys_NoDup].
    by rewrite bind_quiet_Ok. }
  assert (∀ c, forallb named (sort_by habit_name (in_category c hs))
               = forallb named (in_category c hs)) as Hsortb
    by (intros; apply forallb_perm, sort_by_perm).
  assert (∀ c, (for_each body (sort_by habit_name (in_category c hs))).2
               = if forallb named (in_category c hs) then Ok ()
                 else Raise KeyError) as Hinner.
  { intros c. rewrite <- Hsortb. apply for_each_status.
    intros h Hh. rewrite sort_by_perm in Hh.
    apply list_elem_of_filter in Hh as [_ Hh].
    rewrite Hbody by done. by destruct (named h). }
  assert (forallb (λ c, forallb named (in_category c hs)) names
          = forallb named hs) as Hall.
  { apply Is_true_eq_iff. rewrite !forallb_Forall, !Forall_forall. split.
    - intros Hc h Hh.
      assert (habit_category h ∈ names) as Hin.
      { unfold names. rewrite str_sort_perm. apply elem_of_group_keys.
        eauto. }
      apply Hc, forallb_Forall in Hin. rewrite Forall_forall in Hin.
      apply Hin. by apply list_elem_of_filter.
    - intros Hn c _. apply forallb_Forall, Forall_forall.
      intros h [_ Hh]%list_elem_of_filter. by apply Hn. }
  rewrite Hlist. split.
  - rewrite <- Hall.
    rewrite (for_each_status outer
               (λ cg, forallb named
                        (in_category (match cg.1 with
                                      | JStr c => c
                                      | _ => ""
                                      end) hs)) KeyError).
    + by rewrite forallb_map_comp.
    + intros cg (c & <- & _)%list_elem_of_In%in_map_iff.
      rewrite Houter. cbn [fst snd]. apply Hinner.
  - intros Hnamed.
    assert (∀ h, h ∈ hs → named h) as Hn.
    { by apply Forall_forall, forallb_Forall. }
    assert (for_each outer
              (map (λ c, (JStr c, group_of habit_category hs c)) names)
            = (concat (map block names), Ok ())) as ->.
    { rewrite (for_each_ok outer
                 (λ cg, block (match cg.1 with JStr c => c | _ => "" end))).
      - by rewrite map_map.
      - intros cg (c & <- & _)%list_elem_of_In%in_map_iff.
        rewrite Houter. cbn [fst].
        rewrite (for_each_ok body (λ h, [line h])).
        + unfold block. cbn [fst snd app]. f_equal. f_equal. f_equal.
          induction (sort_by habit_name (in_category c hs)) as [|h l IH];
            [done|]. cbn. by rewrite IH.
        + intros h Hh. rewrite sort_by_perm in Hh.
          apply list_elem_of_filter in Hh as [_ Hh].
          rewrite Hbody by done.
          specialize (Hn h Hh). by destruct (named h). }
    cbn [fst]. split; [done|].
    rewrite length_concat_blocks. unfold block. cbn [length].
    rewrite (sum_list_with_add
               (λ c, length (map line (sort_by habit_name
                                         (in_category c hs)))) 2).
    f_equal.
    rewrite (sum_list_with_eq _ (λ c, length (in_category c hs)))
      by (intros c; by rewrite length_map, sort_by_perm).
    apply count_partition.
    + unfold names. rewrite str_sort_perm. apply group_keys_NoDup.
    + intros h Hh. unfold names. rewrite str_sort_perm.
      apply elem_of_group_keys. eauto.
Qed.

(** * The screens and the commands on examples *)

Example main_examples :
  main ["humane_cli.py"] = ["humane_cli.py"; "explore"] ∧
  main ["humane_cli.py"; "backup.json"]
  = ["humane_cli.py"; "explore"; "backup.json"] ∧
  main ["humane_cli.py"; "list"; "backup.json"]
  = ["humane_cli.py"; "list"; "backup.json"] ∧
  main ["humane_cli.py"; "--version"]
  = ["humane_cli.py"; "explore"; "--version"] ∧
  main [] = [].
Proof. by vm_compute. Qed.

Example categories_screen_example :
  CategoriesScreen.on_mount str_of capitalize_ascii humane_data
  = Ok [{| row_cells := [JStr "Fitness"; JStr "2"; JStr "8"];
           row_key := Some (JStr "fitness") |};
        {| row_cells := [JStr "Wellness"; JStr "1"; JStr "7"];
           row_key := Some (JStr "wellness") |}].
Proof. by vm_compute. Qed.

Example habits_screen_example :
  (HabitsScreen.init humane_data "fitness"
   ≫= HabitsScreen.on_mount str_of)
  = Ok [{| row_cells := [JStr "Evening Walk"; JStr "5"; JStr "0"];
           row_key := Some (JStr "habit3") |};
        {| row_cells := [JStr "Morning Run"; JStr "3"; JStr "2"];
           row_key := Some (JStr "habit1") |}] ∧
  (HabitsScreen.init (the (from_data DUPLICATE_ID)) "fitness"
   ≫= HabitsScreen.on_mount str_of)
  = Raise DuplicateKey.
Proof. by vm_compute. Qed.

Example add_row_examples :
  let r := λ k, {| row_cells := []; row_key := k |} in
  add_row (r (Some (JStr "a"))) [r (Some (JStr "a"))] = Raise DuplicateKey ∧
  add_row (r (Some (JStr "b"))) [r (Some (JStr "a"))]
  = Ok [r (Some (JStr "a")); r (Some (JStr "b"))] ∧
  add_row (r None) [r None] = Ok [r None; r None] ∧
  add_row (r (Some (JArr []))) [] = Raise TypeError.
Proof. by vm_compute. Qed.

Example entries_screen_example :
  (EntriesScreen.init humane_data "habit1"
   ≫= EntriesScreen.on_mount str_of)
  = Ok [{| row_cells := [JStr "2025-11-28"; JStr "1"; JStr "2025-11-28"];
           row_key := None |};
        {| row_cells := [JStr "2025-11-27"; JStr "1"; JStr "2025-11-27"];
           row_key := None |}] ∧
  (EntriesScreen.init humane_data "habit3"
   ≫= EntriesScreen.on_mount str_of)
  = Ok [{| row_cells := [JStr "No entries"; JStr "-"; JStr "-"];
           row_key := None |}].
Proof. by vm_compute. Qed.

Example list_example :
  list_habits str_of upper_ascii humane_data
  = ([String "010" "[bold]FITNESS[/bold]";
      "----------------------------------------";
      "  Evening Walk                   (  0 entries)";
      "  Morning Run                    (  2 entries)";
      String "010" "[bold]WELLNESS[/bold]";
      "----------------------------------------";
      "  Meditation                     (  1 entries)"], Ok ()) ∧
  list_habits str_of upper_ascii (the (from_data SPARSE))
  = ([String "010" "[bold]UNCATEGORIZED[/bold]";
      "----------------------------------------"], Raise KeyError).
Proof. by vm_compute. Qed.

(** * Instances of the further properties *)

Lemma merge_keeps_data_model_witness :
  loaded merge_data ∧ snapshot_ok (data merge_data) ∧
  ∃ result,
    merge_habits merge_data "tgu" ["tgu-l"; "tgu-r"] = Ok result ∧
    snapshot_ok result ∧
    ∃ self', from_data result = Ok self' ∧ data self' = result.
Proof.
  assert (loaded merge_data) as Hl by (apply loaded_fixture; reflexivity).
  assert (snapshot_ok (data merge_data)) as Hok by (vm_compute; exact I).
  split_and!; [done..|].
  destruct (merge_keeps_data_model merge_data "tgu" ["tgu-l"; "tgu-r"]
              Hl Hok) as (result & Hres & Hrok & Hload).
  exists result. split_and!; [done..|]. apply Hload.
Defined.

Lemma merge_twice_is_merge_once_witness :
  loaded merge_data ∧ snapshot_ok (data merge_data) ∧
  ∃ result,
    merge_habits merge_data "tgu" ["tgu-l"; "tgu-r"] = Ok result ∧
    ∀ self', loaded self' → data self' = result →
             merge_habits self' "tgu" ["tgu-l"; "tgu-r"] = Ok result.
Proof.
  assert (loaded merge_data) as Hl by (apply loaded_fixture; reflexivity).
  assert (snapshot_ok (data merge_data)) as Hok by (vm_compute; exact I).
  split_and!; [done..|].
  by apply (merge_twice_is_merge_once merge_data "tgu" ["tgu-l"; "tgu-r"]).
Defined.

Lemma merge_one_entry_a_day_witness :
  loaded merge_data ∧ snapshot_ok (data merge_data) ∧
  ∃ result,
    merge_habits merge_data "tgu" ["tgu-l"; "tgu-r"] = Ok result ∧
    map (str_field "date")
        (filter (λ e, str_field "habitId" e = Some "tgu")
                (snapshot_entries result))
    = [Some "2025-11-28"; Some "2025-11-27"; Some "2025-11-26";
       Some "2025-11-25"].
Proof.
  assert (loaded merge_data) as Hl by (apply loaded_fixture; reflexivity).
  assert (snapshot_ok (data merge_data)) as Hok by (vm_compute; exact I).
  split_and!; [done..|].
  destruct (merge_one_entry_a_day merge_data "tgu" ["tgu-l"; "tgu-r"]
              Hl Hok) as (result & Hres & Hdates & _).
  exists result. split; [done|]. rewrite Hdates. reflexivity.
Defined.

Lemma merge_drops_other_fields_witness :
  loaded merge_data ∧ snapshot_ok (data merge_data) ∧
  ∃ result,
    merge_habits merge_data "tgu" ["tgu-l"; "tgu-r"] = Ok result ∧
    ∀ e, e ∈ snapshot_entries result →
         str_field "habitId" e = Some "tgu" →
         ∃ i d v c,
           e = JObj [("id", i); ("habitId", JStr "tgu"); ("date", JStr d);
                     ("value", JNum v); ("createdAt", c)] ∧
           (String.length d ≤ 10)%nat.
Proof.
  assert (loaded merge_data) as Hl by (apply loaded_fixture; reflexivity).
  assert (snapshot_ok (data merge_data)) as Hok by (vm_compute; exact I).
  split_and!; [done..|].
  by apply (merge_drops_other_fields merge_data "tgu" ["tgu-l"; "tgu-r"]).
Defined.

Lemma merge_does_not_check_target_witness :
  loaded merge_data ∧ snapshot_ok (data merge_data) ∧
  ∃ result,
    merge_habits merge_data "nobody" ["tgu-l"] = Ok result ∧
    snapshot_habits result `sublist_of` snapshot_habits (data merge_data) ∧
    ((∃ h, h ∈ snapshot_habits result ∧ str_field "id" h = Some "nobody") ↔
     (∃ h, h ∈ snapshot_habits (data merge_data) ∧
           str_field "id" h = Some "nobody")) ∧
    ((∃ e, e ∈ snapshot_entries result ∧
           str_field "habitId" e = Some "nobody") ↔
     (∃ e, e ∈ snapshot_entries (data merge_data) ∧
           contributing "nobody" ["tgu-l"] e)).
Proof.
  assert (loaded merge_data) as Hl by (apply loaded_fixture; reflexivity).
  assert (snapshot_ok (data merge_data)) as Hok by (vm_compute; exact I).
  split_and!; [done..|].
  by apply (merge_does_not_check_target merge_data "nobody" ["tgu-l"]).
Defined.

Lemma get_habit_name_never_raises_witness :
  loaded (the (from_data SPARSE)) ∧
  ∃ v, get_habit_name (the (from_data SPARSE)) "run" = Ok v ∧
       (v = JStr "Unknown" ∨
        ∃ h, pd_get (JStr "run") (habits (the (from_data SPARSE))) = Some h ∧
             field "name" h = Some v).
Proof.
  assert (loaded (the (from_data SPARSE))) as Hl
    by (apply loaded_fixture; reflexivity).
  split; [done|].
  by apply (get_habit_name_never_raises (the (from_data SPARSE)) "run").
Defined.

Lemma category_count_vs_listing_witness :
  snapshot_ok (data (the (from_data SPARSE))) ∧
  ∃ stats,
    get_category_stats (the (from_data SPARSE)) = Ok stats ∧
    (∃ count target, (JStr "uncategorized", count, target) ∈ stats ∧
                     1 ≤ count) ∧
    get_habits_by_category (the (from_data SPARSE)) "uncategorized" = Ok [].
Proof.
  assert (snapshot_ok (data (the (from_data SPARSE)))) as Hok
    by (vm_compute; exact I).
  split; [done|].
  destruct (category_count_vs_listing (the (from_data SPARSE)) Hok)
    as (stats & Hstats & _ & _ & Hun).
  exists stats. split_and!; [done| |reflexivity].
  destruct Hun as (count & target & Hin & Hle); [done|].
  by exists count, target.
Defined.

Lemma find_by_name_edges_witness :
  snapshot_ok (data humane_data) ∧
  lower_latin1 "" = "" ∧ (∀ s, lower_latin1 s = "" → s = "") ∧
  lower_latin1 ("morning" +:+ " run")
  = lower_latin1 "morning" +:+ lower_latin1 " run" ∧
  find_habits_by_name lower_latin1 humane_data ""
  = Ok (snapshot_habits (data humane_data)) ∧
  ∃ found found_p found_q,
    find_habits_by_name lower_latin1 humane_data ("morning" +:+ " run")
    = Ok found ∧
    find_habits_by_name lower_latin1 humane_data "morning" = Ok found_p ∧
    find_habits_by_name lower_latin1 humane_data " run" = Ok found_q ∧
    found `sublist_of` found_p ∧ found `sublist_of` found_q.
Proof.
  assert (snapshot_ok (data humane_data)) as Hok by (vm_compute; exact I).
  assert (lower_latin1 "" = "") as H0 by reflexivity.
  assert (∀ s, lower_latin1 s = "" → s = "") as H1 by by intros [|? ?].
  assert (lower_latin1 ("morning" +:+ " run")
          = lower_latin1 "morning" +:+ lower_latin1 " run") as Hpq
    by reflexivity.
  split_and!; [done..| |].
  - apply (find_by_name_edges lower_latin1 humane_data Hok H0 H1).
  - by apply (find_by_name_edges lower_latin1 humane_data Hok H0 H1).
Defined.

Lemma constructor_checks_habit_ids_witness :
  default (JArr []) (dict_get "habits"
                       [("habits", JArr [JObj [("name", JStr "Run")]])])
  = JArr [JObj [("name", JStr "Run")]] ∧
  HumaneData_init no_files None
    (JObj [("habits", JArr [JObj [("name", JStr "Run")]])])
  = Raise KeyError.
Proof.
  assert (default (JArr []) (dict_get "habits"
                     [("habits", JArr [JObj [("name", JStr "Run")]])])
          = JArr [JObj [("name", JStr "Run")]]) as Hhl by reflexivity.
  split; [done|].
  destruct (constructor_checks_habit_ids no_files None _ _ Hhl)
    as [_ Hraise].
  apply (Hraise [] (JObj [("name", JStr "Run")]) []);
    [reflexivity|constructor|by vm_compute].
Defined.

Lemma habit_name_by_id_witness :
  loaded humane_data ∧ snapshot_ok (data humane_data) ∧
  get_habit_name humane_data "nobody" = Ok (JStr "Unknown") ∧
  ∃ i, str_field "id" (habit "habit2" "Meditation" "wellness" 7) = Some i ∧
       get_habit_name humane_data i = Ok (JStr "Meditation").
Proof.
  assert (loaded humane_data) as Hl by (apply loaded_fixture; reflexivity).
  assert (snapshot_ok (data humane_data)) as Hok by (vm_compute; exact I).
  split_and!; [done..| |].
  - apply (habit_name_by_id humane_data Hl Hok).
    intros h Hh. repeat (apply elem_of_cons in Hh as [->|Hh]; [done|]).
    by apply elem_of_nil in Hh.
  - apply (proj2 (habit_name_by_id humane_data Hl Hok)).
    + apply (bool_decide_unpack _). by vm_compute.
    + right. left.
Defined.

Lemma get_categories_partition_witness :
  snapshot_ok (data humane_data) ∧
  ∃ groups,
    get_categories humane_data = Ok groups ∧
    NoDup (map fst groups) ∧
    concat (map snd groups) ≡ₚ snapshot_habits (data humane_data).
Proof.
  assert (snapshot_ok (data humane_data)) as Hok by (vm_compute; exact I).
  split; [done|].
  destruct (get_categories_partition humane_data Hok)
    as (groups & Hg & Hnd & _ & Hperm & _).
  by exists groups.
Defined.

Lemma main_puts_a_command_first_witness :
  main ["humane_cli.py"; "--version"]
  = ["humane_cli.py"; "explore"; "--version"] ∧
  main ["humane_cli.py"; "backup.json"] ≠ ["humane_cli.py"; "backup.json"] ∧
  main ["humane_cli.py"; "backup.json"]
  = py_insert 1 "explore" ["humane_cli.py"; "backup.json"].
Proof.
  assert (main ["humane_cli.py"; "backup.json"]
          ≠ ["humane_cli.py"; "backup.json"]) as Hne by by vm_compute.
  split_and!; [|done|].
  - destruct (main_puts_a_command_first ["humane_cli.py"; "--version"])
      as (_ & _ & Hfirst & _).
    apply Hfirst; [done|]. apply (bool_decide_unpack _). by vm_compute.
  - destruct (main_puts_a_command_first ["humane_cli.py"; "backup.json"])
      as (_ & Hins & _).
    by apply Hins.
Defined.

Lemma merge_command_keeps_target_witness :
  loaded merge_data ∧ snapshot_ok (data merge_data) ∧
  ∃ result counted,
    merge_habits merge_data "tgu" ["tgu-l"; "tgu-r"] = Ok result ∧
    Command.merged_entries result (habit "tgu" "TGU" "fitness" 3)
    = Ok counted ∧
    habit "tgu" "TGU" "fitness" 3 ∈ snapshot_habits result ∧
    length counted = 4%nat.
Proof.
  assert (loaded merge_data) as Hl by (apply loaded_fixture; reflexivity).
  assert (snapshot_ok (data merge_data)) as Hok by (vm_compute; exact I).
  split_and!; [done..|].
  destruct (merge_command_keeps_target merge_data
              (habit "tgu" "TGU" "fitness" 3)
              [habit "tgu-l" "TGU-L" "fitness" 2;
               habit "tgu-r" "TGU-R" "fitness" 2] Hl Hok)
    as (t & ids & result & counted & Ht & Hids & Hres & Hcount & Hkeep & _ &
        _ & _ & Hlen & _).
  - left.
  - intros s Hs.
    repeat (apply elem_of_cons in Hs as [->|Hs];
            [split; [by repeat first [left|right; left|right]|done]|]).
    by apply elem_of_nil in Hs.
  - injection Ht as <-.
    destruct ids as [|a [|b [|c ids]]]; try discriminate Hids.
    injection Hids as <- <-.
    exists result, counted. split_and!; [done..|].
    rewrite Hlen. reflexivity.
Defined.

Lemma entries_screen_rows_witness :
  loaded humane_data ∧ snapshot_ok (data humane_data) ∧
  forallb created_ok (snapshot_entries (data humane_data)) ∧
  ∃ screen rows,
    EntriesScreen.init humane_data "habit3" = Ok screen ∧
    EntriesScreen.on_mount str_of screen = Ok rows ∧
    rows = [{| row_cells := [JStr "No entries"; JStr "-"; JStr "-"];
               row_key := None |}].
Proof.
  assert (loaded humane_data) as Hl by (apply loaded_fixture; reflexivity).
  assert (snapshot_ok (data humane_data)) as Hok by (vm_compute; exact I).
  assert (forallb created_ok (snapshot_entries (data humane_data)): Prop)
    as Hcr by (vm_compute; exact I).
  split_and!; [done..|].
  destruct (entries_screen_rows str_of humane_data "habit3" Hl Hok Hcr)
    as (screen & rows & Hinit & _ & Hrows & _ & Hnone & _).
  exists screen, rows. split_and!; [done..|]. by apply Hnone.
Defined.

Lemma habits_screen_rows_witness :
  loaded (the (from_data DUPLICATE_ID)) ∧
  snapshot_ok (data (the (from_data DUPLICATE_ID))) ∧
  ∃ screen wellness,
    HabitsScreen.init (the (from_data DUPLICATE_ID)) "fitness" = Ok screen ∧
    HabitsScreen.on_mount str_of screen = Raise DuplicateKey ∧
    HabitsScreen.init (the (from_data DUPLICATE_ID)) "wellness"
    = Ok wellness ∧
    HabitsScreen.on_mount str_of wellness
    = Ok [{| row_cells := [JStr "Other"; JStr "2"; JStr "0"];
             row_key := Some (JStr "b") |}].
Proof.
  assert (loaded (the (from_data DUPLICATE_ID))) as Hl
    by (apply loaded_fixture; reflexivity).
  assert (snapshot_ok (data (the (from_data DUPLICATE_ID)))) as Hok
    by (vm_compute; exact I).
  split_and!; [done..|].
  destruct (habits_screen_rows str_of (the (from_data DUPLICATE_ID))
              "fitness" Hl Hok)
    as (screen & shown & Hinit & _ & _ & _ & _ & Hmount & _).
  destruct (habits_screen_rows str_of (the (from_data DUPLICATE_ID))
              "wellness" Hl Hok)
    as (wellness & shown' & Hinit' & _ & _ & _ & _ & Hmount' & _).
  exists screen, wellness. split_and!; [done| |done|].
  - rewrite Hmount. by vm_compute.
  - injection Hinit' as <-. by vm_compute.
Defined.

Lemma categories_screen_rows_witness :
  snapshot_ok (data humane_data) ∧
  ∃ rows,
    CategoriesScreen.on_mount str_of capitalize_ascii humane_data = Ok rows ∧
    NoDup (map row_key rows) ∧
    (rows = [] ↔ snapshot_habits (data humane_data) = []).
Proof.
  assert (snapshot_ok (data humane_data)) as Hok by (vm_compute; exact I).
  split; [done|].
  destruct (categories_screen_rows str_of capitalize_ascii humane_data Hok)
    as (rows & names & Hrows & _ & _ & _ & Hnd & Hnil).
  by exists rows.
Defined.

Lemma list_needs_names_witness :
  loaded (the (from_data SPARSE)) ∧
  snapshot_ok (data (the (from_data SPARSE))) ∧
  (list_habits str_of upper_ascii (the (from_data SPARSE))).2
  = Raise KeyError.
Proof.
  assert (loaded (the (from_data SPARSE))) as Hl
    by (apply loaded_fixture; reflexivity).
  assert (snapshot_ok (data (the (from_data SPARSE)))) as Hok
    by (vm_compute; exact I).
  split_and!; [done..|].
  by destruct (list_needs_names str_of upper_ascii (the (from_data SPARSE))
                 Hl Hok) as [-> _].
Defined.
